(** * NeuroChat: the recommendation orchestrator, its stores and adapters

    A shallow embedding of [neurochat.py]: the emotion classifier, the
    pattern store, the analytics sink, the product-source adapters, the
    seven-step recommendation chain, the feedback recorder and the two
    database functions of the business portal.

    Python values are modelled by [pyval], exceptions and the mutable
    environment (SQLite tables, call log, clock) by the monad [Py], and the
    outside world (HTTP services, the completion service, the clock, the
    availability of the database file) by the oracles of a [World].

    Conventions of the model:
    - a Python [float] is an IEEE 754 binary64, Rocq's primitive [float];
    - a Python [str] is the [string] of the bytes of its UTF-8 encoding;
      lengths, slices, blanks and words are those of its characters, and
      its lowercase is the library's;
    - a function of Python's library ([json.loads], [re.search], [float],
      [format]) is a field of the class [PyLib];
    - a raised exception is the outcome [Exn] of a computation, or [None]
      for a pure step; every [try ... except Exception] of the program is a
      [try_except];
    - the list [calls] of the state records the calls of the program's own
      functions; it is an observation of the run, not data of the program. *)

From Stdlib Require Import ZArith List String Ascii Bool Lia Floats.
From Stdlib Require Import DecimalString Permutation Sorted.
Import ListNotations.

Set Warnings "-inexact-float,-register-all".

Open Scope string_scope.
Open Scope Z_scope.

(* ================================================================== *)
(** ** Python strings *)

Module PyStr.

(** *** Characters

    The bytes of a string are its UTF-8 encoding. A character is a byte of
    the ASCII range, or a byte outside it with the continuation bytes
    (10xxxxxx) that follow it. *)

Definition is_ascii (c : ascii) : bool := (N_of_ascii c <? 128)%N.

Definition is_cont (c : ascii) : bool :=
  let n := N_of_ascii c in
  ((128 <=? n) && (n <? 192))%N.

Definition starts_cont (k : string) : bool :=
  match k with
  | String c _ => is_cont c
  | EmptyString => false
  end.

(** The characters of a string, each with its bytes. *)
Fixpoint characters (s : string) : list string :=
  match s with
  | EmptyString => []
  | String c s' =>
      match characters s' with
      | k :: rest =>
          if negb (is_ascii c) && starts_cont k then String c k :: rest
          else String c EmptyString :: k :: rest
      | [] => [String c EmptyString]
      end
  end.

(** What follows the continuation bytes at the start of a string, and the
    text after the character whose first byte is [d]. *)
Fixpoint skip_cont (s : string) : string :=
  match s with
  | EmptyString => EmptyString
  | String c s' => if is_cont c then skip_cont s' else s
  end.

Definition after_character (d : ascii) (rest : string) : string :=
  if is_ascii d then rest else skip_cont rest.

(** The string made of a list of characters. *)
Definition implode (l : list string) : string := fold_right append EmptyString l.

(** [len(s)] *)
Definition len (s : string) : nat := List.length (characters s).

(** The characters encoded by one, two and three bytes. *)
Definition char1 (a : N) : string := String (ascii_of_N a) EmptyString.
Definition char2 (a b : N) : string := String (ascii_of_N a) (char1 b).
Definition char3 (a b c : N) : string := String (ascii_of_N a) (char2 b c).

(** The characters for which [str.isspace] holds; [split()] cuts at them and
    [strip()] removes them: U+0009..U+000D, U+001C..U+0020, U+0085, U+00A0,
    U+1680, U+2000..U+200A, U+2028, U+2029, U+202F, U+205F and U+3000. *)
Definition whitespace : list string :=
  (map char1 [9; 10; 11; 12; 13; 28; 29; 30; 31; 32]%N
   ++ [char2 194 133; char2 194 160; char3 225 154 128]
   ++ map (char3 226 128) [128; 129; 130; 131; 132; 133; 134; 135; 136; 137; 138;
                           168; 169; 175]%N
   ++ [char3 226 129 159; char3 227 128 128])%list.

(** [c.isspace()] for a character *)
Definition is_space (k : string) : bool := existsb (String.eqb k) whitespace.

(** [str.lower] on the ASCII range, where it changes the 26 capital letters.
    The lowercase mapping of the other characters is the library's. *)
Definition ascii_lower_char (c : ascii) : ascii :=
  let n := N_of_ascii c in
  if ((65 <=? n) && (n <=? 90))%N then ascii_of_N (n + 32) else c.

Fixpoint ascii_lower (s : string) : string :=
  match s with
  | EmptyString => EmptyString
  | String c s' => String (ascii_lower_char c) (ascii_lower s')
  end.

Definition is_empty (s : string) : bool :=
  match s with EmptyString => true | _ => false end.

(** Truth value of a string: [if s:]. *)
Definition truthy (s : string) : bool := negb (is_empty s).

Definition snoc (s : string) (c : ascii) : string := s ++ String c EmptyString.

(** [s.split()]: maximal runs of characters that are not blanks. [cur] is
    the word being read, if one is. *)
Fixpoint split_words (cur : option string) (l : list string) : list string :=
  match l with
  | [] => match cur with
          | Some word => [word]
          | None => []
          end
  | k :: l' =>
      if is_space k
      then match cur with
           | Some word => word :: split_words None l'
           | None => split_words None l'
           end
      else split_words (Some (match cur with
                              | Some word => word ++ k
                              | None => k
                              end)) l'
  end.

Definition split (s : string) : list string := split_words None (characters s).

(** [s.split(sep)] for a separator of the ASCII range: never empty. No byte
    of another character is such a separator. *)
Fixpoint split_on_aux (sep : ascii) (cur : string) (s : string) : list string :=
  match s with
  | EmptyString => [cur]
  | String c s' =>
      if Ascii.eqb c sep then cur :: split_on_aux sep EmptyString s'
      else split_on_aux sep (snoc cur c) s'
  end.

Definition split_on (sep : ascii) (s : string) : list string :=
  split_on_aux sep EmptyString s.

(** Blanks removed at the left and at the right of a list of characters. *)
Fixpoint lstrip (l : list string) : list string :=
  match l with
  | [] => []
  | k :: l' => if is_space k then lstrip l' else l
  end.

Fixpoint rstrip (l : list string) : list string :=
  match l with
  | [] => []
  | k :: l' =>
      let r := rstrip l' in
      match r with
      | [] => if is_space k then [] else [k]
      | _ :: _ => k :: r
      end
  end.

(** [s.strip()] *)
Definition strip (s : string) : string := implode (rstrip (lstrip (characters s))).

(** [s.startswith(p)]; a prefix in bytes is a prefix in characters. *)
Definition startswith (p s : string) : bool := String.prefix p s.

(** [sub in s] *)
Fixpoint contains (sub s : string) : bool :=
  String.prefix sub s ||
  match s with
  | EmptyString => false
  | String _ s' => contains sub s'
  end.

(** [s[:n]] and [s[n:]] for [n >= 0], [s[:-n]] for [n > 0], in characters. *)
Definition take (n : nat) (s : string) : string := implode (firstn n (characters s)).
Definition drop (n : nat) (s : string) : string := implode (skipn n (characters s)).
Definition drop_last (n : nat) (s : string) : string :=
  implode (firstn (len s - n) (characters s)).

(** [s.endswith(p)]; a suffix in bytes is a suffix in characters. *)
Definition endswith (p s : string) : bool :=
  (String.length p <=? String.length s)%nat &&
  String.eqb (String.substring (String.length s - String.length p) (String.length p) s) p.

(** [sep.join(l)] *)
Definition join (sep : string) (l : list string) : string := String.concat sep l.

(** [any(word in s for word in words)] *)
Definition any_in (words : list string) (s : string) : bool :=
  existsb (fun word => contains word s) words.

(** [str(n)] for a length or a count, and for an integer. *)
Definition of_nat (n : nat) : string := NilEmpty.string_of_uint (Nat.to_uint n).
Definition of_Z (z : Z) : string := NilZero.string_of_int (Z.to_int z).

End PyStr.

(* ================================================================== *)
(** ** Python values and the library primitives the program calls *)

(** The values that JSON documents and SQLite rows put into dictionaries. *)
Inductive pyval : Type :=
| PNone
| PBool (b : bool)
| PInt (z : Z)
| PFloat (f : float)
| PStr (s : string)
| PList (l : list pyval)
| PDict (d : list (string * pyval)).

(** A dictionary keeps its keys in insertion order. *)
Definition dict := list (string * pyval).

Fixpoint dict_get (k : string) (d : dict) : option pyval :=
  match d with
  | [] => None
  | (k', v) :: d' => if String.eqb k k' then Some v else dict_get k d'
  end.

(** [d[k] = v]: overwrite in place, or append. *)
Fixpoint dict_set (k : string) (v : pyval) (d : dict) : dict :=
  match d with
  | [] => [(k, v)]
  | (k', v') :: d' =>
      if String.eqb k k' then (k', v) :: d' else (k', v') :: dict_set k v d'
  end.

(** A product is the dictionary the user interface renders. *)
Definition product := dict.

(** The regular expressions of the program, by the place they are used. *)
Inductive regex : Type :=
| RxNonNumeric      (* [^0-9.]               convert_usd_to_inr *)
| RxRupeeSign       (* ₹([0-9,]+)            search_web_products *)
| RxRsAbbrev        (* Rs\.?\s*([0-9,]+)     search_web_products *)
| RxRupeesWord      (* ([0-9,]+)\s*rupees?   search_web_products *)
| RxTitleTail.      (* [|\-].*               search_web_products *)

(** Library functions of Python that the program calls and whose code is not
    part of the repository. [None] stands for a raised exception. *)
Class PyLib : Type := {
  (** [json.loads] and [response.json()] *)
  json_loads : string -> option pyval;
  (** the builtin [float(x)] *)
  py_float : pyval -> option float;
  (** [format(x, ",.0f")] *)
  format_comma_0f : float -> string;
  (** [re.search(rx, s).group(1)], [None] when there is no match *)
  re_search_group1 : regex -> string -> option string;
  (** [re.sub(rx, "", s)] *)
  re_sub_empty : regex -> string -> string;
  (** [s.lower()], with the lowercase mapping of Unicode *)
  str_lower : string -> string;
  (** a string without a word holds blanks only, and is its own lowercase *)
  str_lower_blank : forall s, PyStr.split s = [] -> str_lower s = s
}.

(* ================================================================== *)
(** ** Emotion classifier *)

(** [TextBlob(text).sentiment] *)
Record sentiment : Type := { polarity : float; subjectivity : float }.

Definition excited_words : list string := ["excited"; "thrilled"; "amazing"; "fantastic"].
Definition stress_words : list string := ["stress"; "overwhelm"; "pressure"; "busy"].
Definition frustration_words : list string := ["frustrat"; "annoyed"; "irritat"; "upset"].
Definition fatigue_words : list string := ["tired"; "exhausted"; "worn out"].

(** Python's [x > y] on floats. *)
Definition float_gt (x y : float) : bool := PrimFloat.ltb y x.

(** [detect_emotion]: the scorer is [TextBlob]; [None] is a raised
    exception, caught by the function's handler. *)
Definition detect_emotion {lib : PyLib} (scorer : string -> option sentiment) (text : string)
  : string * float * string :=
  match scorer text with
  | Some blob =>
      let polarity := polarity blob in
      let text_lower := str_lower text in
      if float_gt polarity 0.3 then
        if PyStr.any_in excited_words text_lower
        then ("excited", PrimFloat.abs polarity, "🎉")
        else ("happy", PrimFloat.abs polarity, "😊")
      else if PrimFloat.ltb polarity (-0.3) then
        if PyStr.any_in stress_words text_lower
        then ("stressed", PrimFloat.abs polarity, "😰")
        else if PyStr.any_in frustration_words text_lower
        then ("frustrated", PrimFloat.abs polarity, "😤")
        else if PyStr.any_in fatigue_words text_lower
        then ("tired", PrimFloat.abs polarity, "😴")
        else ("sad", PrimFloat.abs polarity, "😢")
      else if PrimFloat.ltb polarity (-0.1) then
        ("confused", PrimFloat.abs polarity, "🤔")
      else ("neutral", 0.3%float, "😐")
  | None => ("neutral", 0.3%float, "😐")
  end.

(** The classification rule as the specification words it: an ordered list of
    rules, the first whose condition holds wins. A rule is a condition on the
    polarity, an optional lexicon one of whose entries the lowercased text must
    contain, and the label with its glyph. *)
Record rule : Type := {
  rule_polarity : float -> bool;
  rule_lexicon : option (list string);
  rule_label : string;
  rule_glyph : string
}.

Definition emotion_rules : list rule :=
  [ {| rule_polarity := fun p => float_gt p 0.3; rule_lexicon := Some excited_words;
       rule_label := "excited"; rule_glyph := "🎉" |};
    {| rule_polarity := fun p => float_gt p 0.3; rule_lexicon := None;
       rule_label := "happy"; rule_glyph := "😊" |};
    {| rule_polarity := fun p => PrimFloat.ltb p (-0.3); rule_lexicon := Some stress_words;
       rule_label := "stressed"; rule_glyph := "😰" |};
    {| rule_polarity := fun p => PrimFloat.ltb p (-0.3); rule_lexicon := Some frustration_words;
       rule_label := "frustrated"; rule_glyph := "😤" |};
    {| rule_polarity := fun p => PrimFloat.ltb p (-0.3); rule_lexicon := Some fatigue_words;
       rule_label := "tired"; rule_glyph := "😴" |};
    {| rule_polarity := fun p => PrimFloat.ltb p (-0.3); rule_lexicon := None;
       rule_label := "sad"; rule_glyph := "😢" |};
    {| rule_polarity := fun p => PrimFloat.leb (-0.3) p && PrimFloat.ltb p (-0.1);
       rule_lexicon := None; rule_label := "confused"; rule_glyph := "🤔" |} ].

Definition rule_applies {lib : PyLib} (r : rule) (p : float) (text : string) : bool :=
  rule_polarity r p &&
  match rule_lexicon r with
  | Some words => PyStr.any_in words (str_lower text)
  | None => true
  end.

Fixpoint first_match {lib : PyLib} (rules : list rule) (p : float) (text : string)
  : string * float * string :=
  match rules with
  | [] => ("neutral", 0.3%float, "😐")
  | r :: rules' =>
      if rule_applies r p text
      then (rule_label r, PrimFloat.abs p, rule_glyph r)
      else first_match rules' p text
  end.

(** [classifyEmotion] of the specification; a failing scorer gives neutral. *)
Definition classifyEmotion_spec {lib : PyLib} (scorer : string -> option sentiment) (text : string)
  : string * float * string :=
  match scorer text with
  | Some blob => first_match emotion_rules (polarity blob) text
  | None => ("neutral", 0.3%float, "😐")
  end.

(** The label and the confidence of a classification. *)
Definition label_of (r : string * float * string) : string := fst (fst r).
Definition confidence_of (r : string * float * string) : float := snd (fst r).

(** Shapes of a float, read on its IEEE 754 decomposition. *)
Definition is_nan_sf (x : spec_float) : bool :=
  match x with S754_nan => true | _ => false end.
Definition negative_sf (x : spec_float) : bool :=
  match x with S754_finite true _ _ => true | _ => false end.
Definition positive_sf (x : spec_float) : bool :=
  match x with S754_finite false _ _ => true | _ => false end.

(* ================================================================== *)
(** ** The database [neurochat_marketplace.db]

    One record per table of [init_business_database]; a column that the
    schema lets be NULL is an [option]. The columns of [successful_patterns],
    [product_feedback] and [recommendation_analytics] are only ever written by
    the functions below, which store no NULL. *)

Record business : Type := {
  b_id : Z;
  b_name : string;
  b_email : string;
  b_phone : option string;
  b_created_date : option string
}.

Record business_product : Type := {
  bp_id : Z;
  bp_business_id : option Z;
  bp_name : string;
  bp_description : option string;
  bp_price : option float;
  bp_category : option string;
  bp_target_emotions : option string;
  bp_stock_quantity : option Z;
  bp_is_active : option Z;
  bp_created_date : option string
}.

Record feedback_row : Type := {
  fb_id : Z;
  fb_product_name : string;
  fb_user_query : string;
  fb_feedback_type : string;
  fb_recommendation_source : string;
  fb_created_date : string
}.

Record analytics_row : Type := {
  an_id : Z;
  an_user_query : string;
  an_user_emotion : string;
  an_recommendation_method : string;
  an_products_found : Z;
  an_user_satisfaction : option string;
  an_response_time : float;
  an_created_date : string
}.

Record pattern_row : Type := {
  sp_id : Z;
  sp_query_pattern : string;
  sp_emotion : string;
  sp_successful_categories : string;
  sp_success_count : Z;
  sp_last_success : string
}.

Record database : Type := {
  businesses : list business;
  business_products : list business_product;
  product_feedback : list feedback_row;
  recommendation_analytics : list analytics_row;
  successful_patterns : list pattern_row
}.

Definition set_product_feedback (t : list feedback_row) (d : database) : database :=
  {| businesses := businesses d; business_products := business_products d;
     product_feedback := t;
     recommendation_analytics := recommendation_analytics d;
     successful_patterns := successful_patterns d |}.

Definition set_recommendation_analytics (t : list analytics_row) (d : database) : database :=
  {| businesses := businesses d; business_products := business_products d;
     product_feedback := product_feedback d;
     recommendation_analytics := t;
     successful_patterns := successful_patterns d |}.

Definition set_successful_patterns (t : list pattern_row) (d : database) : database :=
  {| businesses := businesses d; business_products := business_products d;
     product_feedback := product_feedback d;
     recommendation_analytics := recommendation_analytics d;
     successful_patterns := t |}.

(** The rowid SQLite gives to a row inserted without one: one more than the
    largest in the table. *)
Definition next_rowid (ids : list Z) : Z := fold_right Z.max 0 ids + 1.

(** SQLite's [text LIKE pattern]: [%] is any run of characters, [_] any one
    character with all its bytes, and the others compare byte by byte,
    without the case of the 26 letters of ASCII: the only case that the LIKE
    of SQLite ignores. *)
Fixpoint sql_like (pattern : string) : string -> bool :=
  match pattern with
  | EmptyString => fun text => PyStr.is_empty text
  | String c pattern' =>
      if Ascii.eqb c "%" then
        fix any_run (text : string) : bool :=
          sql_like pattern' text ||
          match text with
          | EmptyString => false
          | String _ text' => any_run text'
          end
      else if Ascii.eqb c "_" then
        fun text =>
          match text with
          | EmptyString => false
          | String d text' => sql_like pattern' (PyStr.after_character d text')
          end
      else
        fun text =>
          match text with
          | EmptyString => false
          | String d text' =>
              Ascii.eqb (PyStr.ascii_lower_char c) (PyStr.ascii_lower_char d)
              && sql_like pattern' text'
          end
  end.

(** [column LIKE ?] on a column that may be NULL: NULL never satisfies a
    WHERE clause built from AND and OR. *)
Definition sql_like_null (pattern : string) (column : option string) : bool :=
  match column with
  | Some text => sql_like pattern text
  | None => false
  end.

(** The parameter ["%" + word + "%"]. *)
Definition like_param (word : string) : string := "%" ++ word ++ "%".

(* ------------------------------------------------------------------ *)
(** *** The three statements of [save_successful_pattern] *)

(** [WHERE query_pattern = ? AND emotion = ? AND successful_categories = ?] *)
Definition has_key (query_pattern emotion categories_str : string) (r : pattern_row) : bool :=
  String.eqb (sp_query_pattern r) query_pattern
  && String.eqb (sp_emotion r) emotion
  && String.eqb (sp_successful_categories r) categories_str.

(** [SELECT id, success_count FROM successful_patterns WHERE ...] followed by
    [fetchone()]. *)
Definition sql_select_pattern (query_pattern emotion categories_str : string)
    (t : list pattern_row) : option pattern_row :=
  find (has_key query_pattern emotion categories_str) t.

(** All the rows of a key, and the successes they count together. *)
Definition key_rows (query_pattern emotion categories_str : string)
    (t : list pattern_row) : list pattern_row :=
  filter (has_key query_pattern emotion categories_str) t.

Definition key_total (query_pattern emotion categories_str : string)
    (t : list pattern_row) : Z :=
  fold_right Z.add 0 (map sp_success_count (key_rows query_pattern emotion categories_str t)).

(** [UPDATE ... SET success_count = success_count + 1, last_success = ? WHERE id = ?] *)
Definition sql_update_pattern (id : Z) (now : string) (t : list pattern_row)
  : list pattern_row :=
  map (fun r =>
         if sp_id r =? id
         then {| sp_id := sp_id r; sp_query_pattern := sp_query_pattern r;
                 sp_emotion := sp_emotion r;
                 sp_successful_categories := sp_successful_categories r;
                 sp_success_count := sp_success_count r + 1;
                 sp_last_success := now |}
         else r) t.

(** [INSERT INTO successful_patterns (...) VALUES (?, ?, ?, 1, ?)] *)
Definition sql_insert_pattern (query_pattern emotion categories_str now : string)
    (t : list pattern_row) : list pattern_row :=
  t ++ [ {| sp_id := next_rowid (map sp_id t); sp_query_pattern := query_pattern;
            sp_emotion := emotion; sp_successful_categories := categories_str;
            sp_success_count := 1; sp_last_success := now |} ].

(** The key [save_successful_pattern] derives from its arguments. *)
Definition pattern_of_query {lib : PyLib} (query : string) : string :=
  PyStr.join " " (firstn 3 (PyStr.split (str_lower query))).

Definition categories_str_of (categories : list string) : string :=
  PyStr.join "," categories.

(* ------------------------------------------------------------------ *)
(** *** The statement of [get_successful_recommendations] *)

(** The disjunction [query_pattern LIKE ? OR ... OR query_pattern LIKE ?], one
    disjunct per word. With no word the statement reads [AND ( )], which
    SQLite refuses: [None]. *)
Definition like_any_word (query_words : list string) : option (pattern_row -> bool) :=
  match query_words with
  | [] => None
  | _ => Some (fun r => existsb (fun word => sql_like (like_param word) (sp_query_pattern r))
                                query_words)
  end.

(** [ORDER BY success_count DESC, last_success DESC]: does [r] come strictly
    before [best]? *)
Definition pattern_before (r best : pattern_row) : bool :=
  (sp_success_count best <? sp_success_count r)
  || ((sp_success_count r =? sp_success_count best)
      && String.ltb (sp_last_success best) (sp_last_success r)).

(** [... LIMIT 1] and [fetchone()]: the first row of the ordering; among rows
    that tie the one met first is kept. *)
Fixpoint first_by_order (best : option pattern_row) (rows : list pattern_row)
  : option pattern_row :=
  match rows with
  | [] => best
  | r :: rows' =>
      match best with
      | None => first_by_order (Some r) rows'
      | Some b => first_by_order (Some (if pattern_before r b then r else b)) rows'
      end
  end.

Definition sql_best_pattern (emotion : string) (query_words : list string)
    (t : list pattern_row) : option (option pattern_row) :=
  match like_any_word query_words with
  | None => None
  | Some matches =>
      Some (first_by_order None
              (filter (fun r => String.eqb (sp_emotion r) emotion && matches r) t))
  end.

(** The dictionary [get_successful_recommendations] returns when a row is
    found; the empty dictionary is [None]. *)
Record historical : Type := {
  categories : list string;
  success_count : Z
}.

(* ================================================================== *)
(** ** The outside world *)

(** [datetime.now()], with the fields the program reads. *)
Record datetime : Type := {
  dt_isoformat : string;     (* .isoformat() *)
  dt_hour : Z;               (* .hour *)
  dt_month : string;         (* .strftime("%B") *)
  dt_weekday : string        (* .strftime("%A") *)
}.

(** The prompts sent to the completion service, by their variable parts. *)
Inductive prompt : Type :=
| SemanticPrompt (query : string) (limit : nat)
| ContextPrompt (query emotion weekday month : string) (hour : Z)
| FallbackPrompt (query emotion : string).

(** The HTTP requests of the program, all with [timeout=10]. *)
Inductive request : Type :=
| DummyJsonSearch (q : string) (limit : nat)          (* dummyjson.com/products/search *)
| DummyJsonCategory (category : string) (limit : nat) (* dummyjson.com/products/category/<c> *)
| DummyJsonAll (limit : nat)                          (* dummyjson.com/products *)
| FakeStoreCategory (mapped_category : string)        (* fakestoreapi.com/products/category/<c> *)
| FakeStoreAll                                        (* fakestoreapi.com/products *)
| GoogleCustomSearch (key cx q : string) (num : nat). (* googleapis.com/customsearch/v1 *)

(** What [requests.get] followed by [raise_for_status] can do. *)
Inductive http_outcome : Type :=
| TransportError            (* requests.get raises: no connection, DNS, TLS ... *)
| Timeout                   (* requests.get raises after the timeout *)
| ErrorStatus               (* a response arrived and raise_for_status raises *)
| Body (text : string).     (* a response arrived and raise_for_status returns *)

(** The outside world. Every interaction with it takes one tick of the
    state's counter, and the oracles answer by tick, so that the same request
    may be answered differently at different moments. *)
Record World : Type := {
  (** [time.time()] *)
  w_time : nat -> float;
  (** [datetime.now()] *)
  w_now : nat -> datetime;
  (** [os.getenv(name, "")] *)
  w_getenv : string -> string;
  (** [client.models.generate_content(...).text]; [None] when the call, or
      reading the text of its response, raises *)
  w_complete : nat -> prompt -> option string;
  (** [requests.get(url, params, timeout=10)] and [raise_for_status()] *)
  w_http : nat -> request -> http_outcome;
  (** does the database transaction opened at this tick raise [sqlite3.Error]
      (file locked, disk full, ...)? *)
  w_db_fault : nat -> bool;
  (** [TextBlob(text).sentiment]; [None] when it raises *)
  w_sentiment : string -> option sentiment
}.

(* ================================================================== *)
(** ** State, exceptions and the monad [Py] *)

(** The calls of the program's own functions, in the order they are made. *)
Inductive call : Type :=
| Call_search_business_products (emotion query : string)
| Call_get_successful_recommendations (query emotion : string)
| Call_save_successful_pattern (query emotion : string) (categories : list string)
| Call_fetch_products_dummyjson (query category : string) (limit : nat)
| Call_fetch_products_fakestore (query category : string) (limit : nat)
| Call_semantic_product_search (query : string) (limit : nat)
| Call_search_web_products (query : string) (limit : nat)
| Call_context_aware_ai_search (emotion query : string)
| Call_generate_content (p : prompt)
| Call_log_recommendation_analytics (query emotion method : string)
    (products_found : nat) (response_time : float).

Record state : Type := {
  db : database;
  tick : nat;
  calls : list call
}.

(** A Python computation either returns a value or raises. *)
Inductive outcome (A : Type) : Type :=
| Ret (a : A)
| Exn.
Arguments Ret {A} a.
Arguments Exn {A}.

Definition Py (A : Type) : Type := state -> outcome A * state.

Definition ret {A} (a : A) : Py A := fun s => (Ret a, s).

Definition raise {A} : Py A := fun s => (Exn, s).

Definition bind {A B} (m : Py A) (k : A -> Py B) : Py B :=
  fun s =>
    match m s with
    | (Ret a, s') => k a s'
    | (Exn, s') => (Exn, s')
    end.

(** [try: m  except Exception: h] *)
Definition try_except {A} (m : Py A) (h : Py A) : Py A :=
  fun s =>
    match m s with
    | (Ret a, s') => (Ret a, s')
    | (Exn, s') => h s'
    end.

Declare Scope py_scope.
Delimit Scope py_scope with py.
Notation "x <- m ;; k" := (bind m (fun x => k))
  (at level 61, m at next level, right associativity) : py_scope.
Notation "' pat <- m ;; k" := (bind m (fun x => match x with pat => k end))
  (at level 61, pat pattern, m at next level, right associativity) : py_scope.
Notation "m ;; k" := (bind m (fun _ => k))
  (at level 61, right associativity) : py_scope.
Open Scope py_scope.

(** A pure step that may raise. *)
Definition lift {A} (o : option A) : Py A :=
  match o with
  | Some a => ret a
  | None => raise
  end.

Definition record_call (c : call) : Py unit :=
  fun s => (Ret tt, {| db := db s; tick := tick s; calls := calls s ++ [c] |}).

(** One interaction with the outside world: the oracle answers at the current
    tick and the counter advances. *)
Definition external {A} (oracle : nat -> A) : Py A :=
  fun s => (Ret (oracle (tick s)),
            {| db := db s; tick := S (tick s); calls := calls s |}).

Definition get_db : Py database := fun s => (Ret (db s), s).

Definition modify_db (f : database -> database) : Py unit :=
  fun s => (Ret tt, {| db := f (db s); tick := tick s; calls := calls s |}).

(** [for x in l: acc = body(acc, x)] *)
Fixpoint for_each {A B} (l : list A) (acc : B) (body : B -> A -> Py B) : Py B :=
  match l with
  | [] => ret acc
  | x :: l' => acc' <- body acc x ;; for_each l' acc' body
  end.

(** The option monad, for the pure steps that may raise. *)
Definition obind {A B} (o : option A) (k : A -> option B) : option B :=
  match o with
  | Some a => k a
  | None => None
  end.

Declare Scope opt_scope.
Delimit Scope opt_scope with opt.
Notation "x <- m ;; k" := (obind m (fun x => k))
  (at level 61, m at next level, right associativity) : opt_scope.

(** [[f(x) for x in l]] where [f] may raise. *)
Fixpoint traverse {A B} (f : A -> option B) (l : list A) : option (list B) :=
  match l with
  | [] => Some []
  | x :: l' =>
      match f x with
      | Some y => option_map (cons y) (traverse f l')
      | None => None
      end
  end.

(** [[x for x in l if p(x)]] where [p] may raise. *)
Fixpoint filter_raising {A} (p : A -> option bool) (l : list A) : option (list A) :=
  match l with
  | [] => Some []
  | x :: l' =>
      match p x with
      | Some b => option_map (fun r => if b then x :: r else r) (filter_raising p l')
      | None => None
      end
  end.

(* ------------------------------------------------------------------ *)
(** *** Operations of Python values, [None] when Python raises *)

(** [v[k]] with a string key *)
Definition py_getitem (v : pyval) (k : string) : option pyval :=
  match v with
  | PDict d => dict_get k d
  | _ => None
  end.

(** [v.get(k, default)] *)
Definition py_get (v : pyval) (k : string) (default : pyval) : option pyval :=
  match v with
  | PDict d => Some (match dict_get k d with Some x => x | None => default end)
  | _ => None
  end.

(** [v[:n]] *)
Definition py_slice_to (n : nat) (v : pyval) : option pyval :=
  match v with
  | PStr s => Some (PStr (PyStr.take n s))
  | PList l => Some (PList (firstn n l))
  | _ => None
  end.

Definition chars (s : string) : list pyval := map PStr (PyStr.characters s).

(** [for x in v]: the elements of a list, the characters of a string, the keys
    of a dictionary. *)
Definition py_iter (v : pyval) : option (list pyval) :=
  match v with
  | PList l => Some l
  | PStr s => Some (chars s)
  | PDict d => Some (map (fun kv => PStr (fst kv)) d)
  | _ => None
  end.

(** The receiver of a [str] method, or the argument of [re.search]. *)
Definition as_str (v : pyval) : option string :=
  match v with
  | PStr s => Some s
  | _ => None
  end.

(** Truth value of a list: [if products:]. *)
Definition nonempty {A} (l : list A) : bool :=
  match l with
  | [] => false
  | _ :: _ => true
  end.

(* ================================================================== *)
(** ** The program *)

Section Program.

Context {lib : PyLib} (w : World).

Definition time_time : Py float := external (w_time w).

Definition datetime_now : Py datetime := external (w_now w).

(** [sqlite3.connect(...)] and the transaction it opens. A transaction that
    fails leaves the tables as they were (what is not committed is rolled
    back), so the failure is placed where the transaction starts. *)
Definition sqlite3_connect : Py unit :=
  fault <- external (w_db_fault w) ;;
  if fault then raise else ret tt.

(** [requests.get(...)], [raise_for_status()] and [response.json()]. *)
Definition requests_get_json (req : request) : Py pyval :=
  o <- external (fun n => w_http w n req) ;;
  match o with
  | Body text => lift (json_loads text)
  | TransportError | Timeout | ErrorStatus => raise
  end.

(** [client.models.generate_content(model=..., contents=p).text] *)
Definition generate_content (p : prompt) : Py string :=
  record_call (Call_generate_content p) ;;
  o <- external (fun n => w_complete w n p) ;;
  lift o.

(* ---------------------------------------------------------------- *)
(** *** Currency *)

Definition convert_usd_to_inr (usd_price : pyval) : string :=
  let numeric_value :=
    match usd_price with
    | PStr s => py_float (PStr (re_sub_empty RxNonNumeric s))
    | v => py_float v
    end in
  match numeric_value with
  | Some x => "₹" ++ format_comma_0f (PrimFloat.mul x 83)
  | None => "₹Price varies"
  end.

(* ---------------------------------------------------------------- *)
(** *** Pattern store *)

Definition get_successful_recommendations (query emotion : string)
  : Py (option historical) :=
  record_call (Call_get_successful_recommendations query emotion) ;;
  try_except
    (sqlite3_connect ;;
     let query_words := PyStr.split (str_lower query) in
     d <- get_db ;;
     result <- lift (sql_best_pattern emotion query_words (successful_patterns d)) ;;
     match result with
     | Some row =>
         ret (Some {| categories := PyStr.split_on "," (sp_successful_categories row);
                      success_count := sp_success_count row |})
     | None => ret None
     end)
    (ret None).

Definition save_successful_pattern (query emotion : string) (categories : list string)
  : Py unit :=
  record_call (Call_save_successful_pattern query emotion categories) ;;
  try_except
    (sqlite3_connect ;;
     let query_pattern := pattern_of_query query in
     let categories_str := categories_str_of categories in
     d <- get_db ;;
     let existing :=
       sql_select_pattern query_pattern emotion categories_str (successful_patterns d) in
     now <- datetime_now ;;
     match existing with
     | Some row =>
         modify_db (fun d =>
           set_successful_patterns
             (sql_update_pattern (sp_id row) (dt_isoformat now) (successful_patterns d)) d)
     | None =>
         modify_db (fun d =>
           set_successful_patterns
             (sql_insert_pattern query_pattern emotion categories_str (dt_isoformat now)
                (successful_patterns d)) d)
     end)
    (ret tt).

(* ---------------------------------------------------------------- *)
(** *** Analytics sink *)

Definition sql_insert_analytics (query emotion method : string) (products_found : nat)
    (response_time : float) (now : string) (t : list analytics_row) : list analytics_row :=
  t ++ [ {| an_id := next_rowid (map an_id t); an_user_query := query;
            an_user_emotion := emotion; an_recommendation_method := method;
            an_products_found := Z.of_nat products_found;
            an_user_satisfaction := None;
            an_response_time := response_time; an_created_date := now |} ].

Definition log_recommendation_analytics (query emotion method : string)
    (products_found : nat) (response_time : float) : Py unit :=
  record_call
    (Call_log_recommendation_analytics query emotion method products_found response_time) ;;
  try_except
    (sqlite3_connect ;;
     now <- datetime_now ;;
     modify_db (fun d =>
       set_recommendation_analytics
         (sql_insert_analytics query emotion method products_found response_time
            (dt_isoformat now) (recommendation_analytics d)) d))
    (ret tt).

(* ---------------------------------------------------------------- *)
(** *** Feedback recorder *)

Definition sql_insert_feedback (product_name user_query feedback_type source now : string)
    (t : list feedback_row) : list feedback_row :=
  t ++ [ {| fb_id := next_rowid (map fb_id t); fb_product_name := product_name;
            fb_user_query := user_query; fb_feedback_type := feedback_type;
            fb_recommendation_source := source; fb_created_date := now |} ].

Definition save_product_feedback (product_name user_query feedback_type source : string)
  : Py bool :=
  try_except
    (sqlite3_connect ;;
     now <- datetime_now ;;
     modify_db (fun d =>
       set_product_feedback
         (sql_insert_feedback product_name user_query feedback_type source
            (dt_isoformat now) (product_feedback d)) d) ;;
     (if String.eqb feedback_type "perfect_match"
      then
        let '(emotion, _, _) := detect_emotion (w_sentiment w) user_query in
        save_successful_pattern user_query emotion ["general"]
      else ret tt) ;;
     ret true)
    (ret false).

(* ---------------------------------------------------------------- *)
(** *** Static catalogues *)

Definition dummyjson_product (p : pyval) : option product :=
  match p with
  | PDict d =>
      let d := dict_set "source" (PStr "DummyJSON Catalog 📦") d in
      let price := match dict_get "price" d with Some v => v | None => PInt 0 end in
      Some (dict_set "price" (PStr (convert_usd_to_inr price)) d)
  | _ => None
  end.

(** The function returns the value of ["products"] itself after updating its
    elements; an empty dictionary or string there is returned as it is, and
    behaves as the empty list wherever the program uses the result. *)
Definition dummyjson_request (query category : string) (limit : nat) : request :=
  if PyStr.truthy query then DummyJsonSearch query limit
  else if PyStr.truthy category then DummyJsonCategory category limit
  else DummyJsonAll limit.

Definition fetch_products_dummyjson (query category : string) (limit : nat)
  : Py (list product) :=
  record_call (Call_fetch_products_dummyjson query category limit) ;;
  try_except
    (data <- requests_get_json (dummyjson_request query category limit) ;;
     products <- lift (py_get data "products" (PList [])) ;;
     items <- lift (py_iter products) ;;
     lift (traverse dummyjson_product items))
    (ret []).

Definition category_mapping : list (string * string) :=
  [ ("beauty", "electronics");
    ("furniture", "men's clothing");
    ("laptops", "electronics");
    ("smartphones", "electronics");
    ("mens-shirts", "men's clothing");
    ("womens-dresses", "women's clothing");
    ("womens-jewellery", "jewelery");
    ("fragrances", "electronics");
    ("home-decoration", "electronics") ].

Fixpoint mapping_get (k : string) (m : list (string * string)) (default : string) : string :=
  match m with
  | [] => default
  | (k', v) :: m' => if String.eqb k k' then v else mapping_get k m' default
  end.

(** [any(word in (p['title'] + ' ' + p['description']).lower() for word in query_words)] *)
Definition fakestore_matches (query_words : list string) (p : pyval) : option bool :=
  (title <- obind (py_getitem p "title") as_str ;;
   description <- obind (py_getitem p "description") as_str ;;
   Some (PyStr.any_in query_words (str_lower (title ++ " " ++ description))))%opt.

Definition fakestore_product (p : pyval) : option product :=
  (title <- obind (py_getitem p "title") (py_slice_to 80) ;;
   price <- py_getitem p "price" ;;
   description <- obind (py_getitem p "description") (py_slice_to 200) ;;
   category <- py_getitem p "category" ;;
   rating <- obind (py_get p "rating" (PDict [])) (fun r => py_get r "rate" (PFloat 4.0)) ;;
   Some [ ("title", title);
          ("price", PStr (convert_usd_to_inr price));
          ("description", description);
          ("category", category);
          ("rating", rating);
          ("stock", PInt 25);
          ("brand", PStr "Alternative Store");
          ("source", PStr "Alternative Catalog 🔄") ])%opt.

Definition fakestore_request (category : string) : request :=
  if PyStr.truthy category
  then FakeStoreCategory (mapping_get category category_mapping "electronics")
  else FakeStoreAll.

Definition fetch_products_fakestore (query category : string) (limit : nat)
  : Py (list product) :=
  record_call (Call_fetch_products_fakestore query category limit) ;;
  try_except
    (fakestore_products <- requests_get_json (fakestore_request category) ;;
     fakestore_products <-
       (if PyStr.truthy query
        then
          let query_words := PyStr.split (str_lower query) in
          items <- lift (py_iter fakestore_products) ;;
          filtered <- lift (filter_raising (fakestore_matches query_words) items) ;;
          ret (PList filtered)
        else ret fakestore_products) ;;
     head <- lift (py_slice_to limit fakestore_products) ;;
     items <- lift (py_iter head) ;;
     lift (traverse fakestore_product items))
    (ret []).

(* ---------------------------------------------------------------- *)
(** *** Semantic generation *)

Definition semantic_product (item : pyval) : option product :=
  (price <- obind (py_getitem item "price") as_str ;;
   let price := if PyStr.startswith "₹" price then price else "₹" ++ price in
   title <- obind (py_getitem item "title") (py_slice_to 80) ;;
   description <- obind (py_getitem item "description") (py_slice_to 200) ;;
   category <- py_get item "category" (PStr "General") ;;
   Some [ ("title", title);
          ("price", PStr price);
          ("description", description);
          ("category", category);
          ("rating", PStr "⭐⭐⭐⭐ AI Curated");
          ("stock", PStr "Available");
          ("brand", PStr "AI Curated");
          ("source", PStr "Semantic AI Match 🧠") ])%opt.

(** The text of the completion with its code fence removed. *)
Definition strip_code_fence (text : string) : string :=
  let json_text := PyStr.strip text in
  let json_text :=
    if PyStr.startswith "```json" json_text then PyStr.drop 7 json_text else json_text in
  let json_text :=
    if PyStr.endswith "```" json_text then PyStr.drop_last 3 json_text else json_text in
  PyStr.strip json_text.

Definition semantic_product_search (query : string) (limit : nat) : Py (list product) :=
  record_call (Call_semantic_product_search query limit) ;;
  try_except
    (text <- generate_content (SemanticPrompt query limit) ;;
     products_data <- lift (json_loads (strip_code_fence text)) ;;
     head <- lift (py_slice_to limit products_data) ;;
     items <- lift (py_iter head) ;;
     lift (traverse semantic_product items))
    (ret []).

(* ---------------------------------------------------------------- *)
(** *** Web search *)

(** The price patterns, tried in order. *)
Definition web_price (snippet : string) : string :=
  let price_match :=
    match re_search_group1 RxRupeeSign snippet with
    | Some g => Some g
    | None =>
        match re_search_group1 RxRsAbbrev snippet with
        | Some g => Some g
        | None => re_search_group1 RxRupeesWord snippet
        end
    end in
  match price_match with
  | Some g => "₹" ++ g
  | None => "See website"
  end.

Definition web_product (item : pyval) : option product :=
  (snippet <- obind (py_get item "snippet" (PStr "")) as_str ;;
   let price := web_price snippet in
   title <- obind (obind (py_getitem item "title") (py_slice_to 80)) as_str ;;
   let title := PyStr.strip (re_sub_empty RxTitleTail title) in
   link <- py_get item "link" (PStr "") ;;
   Some [ ("title", PStr title);
          ("price", PStr price);
          ("description", PStr (PyStr.take 180 snippet ++ "..."));
          ("category", PStr "Web Search Result");
          ("rating", PStr "See reviews online ⭐");
          ("stock", PStr "Check availability");
          ("brand", PStr "Various Indian Retailers");
          ("source", PStr "Real Web Search 🌐");
          ("link", link) ])%opt.

Definition web_request (query : string) (limit : nat) : request :=
  let search_query := query ++ " buy online price India rupees store product" in
  GoogleCustomSearch (w_getenv w "GOOGLE_SEARCH_API_KEY")
    (w_getenv w "GOOGLE_SEARCH_ENGINE_ID") search_query (Nat.min limit 10).

Definition search_web_products (query : string) (limit : nat) : Py (list product) :=
  record_call (Call_search_web_products query limit) ;;
  try_except
    (let google_api_key := w_getenv w "GOOGLE_SEARCH_API_KEY" in
     let search_engine_id := w_getenv w "GOOGLE_SEARCH_ENGINE_ID" in
     if negb (PyStr.truthy google_api_key) || negb (PyStr.truthy search_engine_id)
     then ret []
     else
       results <- requests_get_json (web_request query limit) ;;
       items <- lift (obind (py_get results "items" (PList [])) py_iter) ;;
       products <- lift (traverse web_product items) ;;
       ret (firstn limit products))
    (ret []).

(* ---------------------------------------------------------------- *)
(** *** Local business catalogue *)

(** [bp.target_emotions LIKE ?], added when [emotion] is not empty. *)
Definition emotion_condition (emotion : string) (bp : business_product) : bool :=
  if PyStr.truthy emotion
  then sql_like_null (like_param emotion) (bp_target_emotions bp)
  else true.

(** One disjunct per word of the query, added when there is a word. *)
Definition query_condition (query : string) (bp : business_product) : bool :=
  if PyStr.truthy query
  then
    let query_words := PyStr.split (str_lower query) in
    if nonempty query_words
    then existsb (fun word =>
                    sql_like (like_param word) (bp_name bp)
                    || sql_like_null (like_param word) (bp_description bp)
                    || sql_like_null (like_param word) (bp_category bp))
                 query_words
    else true
  else true.

Definition is_active (bp : business_product) : bool :=
  match bp_is_active bp with
  | Some a => a =? 1
  | None => false
  end.

(** [business_products bp JOIN businesses b ON bp.business_id = b.id] *)
Definition sql_join_business (d : database) : list (business_product * business) :=
  flat_map (fun bp =>
              map (pair bp)
                (filter (fun b => match bp_business_id bp with
                                  | Some i => i =? b_id b
                                  | None => false
                                  end) (businesses d)))
           (business_products d).

(** [ORDER BY bp.created_date DESC]: does [x] come strictly before [y]?
    NULL is the smallest value. *)
Definition date_before (x y : option string) : bool :=
  match x, y with
  | Some a, Some b => String.ltb b a
  | Some _, None => true
  | None, _ => false
  end.

Fixpoint insert_by_date (r : business_product * business)
    (l : list (business_product * business)) : list (business_product * business) :=
  match l with
  | [] => [r]
  | r' :: l' =>
      if date_before (bp_created_date (fst r')) (bp_created_date (fst r))
      then r' :: insert_by_date r l'
      else r :: l
  end.

(** Rows with the same date keep the order of the scan. *)
Definition order_by_date_desc (l : list (business_product * business))
  : list (business_product * business) :=
  fold_right insert_by_date [] l.

Definition sql_business_rows (emotion query : string) (d : database)
  : list (business_product * business) :=
  firstn 6
    (order_by_date_desc
       (filter (fun r => is_active (fst r)
                         && emotion_condition emotion (fst r)
                         && query_condition query (fst r))
               (sql_join_business d))).

Definition nullable (o : option string) : pyval :=
  match o with
  | Some s => PStr s
  | None => PNone
  end.

Definition business_product_of_row (r : business_product * business) : option product :=
  let (bp, b) := r in
  (price <- bp_price bp ;;
   stock <- bp_stock_quantity bp ;;
   Some [ ("title", PStr (bp_name bp));
          ("price", PStr ("₹" ++ format_comma_0f price));
          ("description", nullable (bp_description bp));
          ("category", nullable (bp_category bp));
          ("rating", PStr "Local Business ⭐");
          ("stock", if 0 <? stock then PInt stock else PStr "Limited Stock");
          ("brand", PStr (b_name b));
          ("source", PStr "Local Business 🏪") ])%opt.

Definition search_business_products (emotion query : string) : Py (list product) :=
  record_call (Call_search_business_products emotion query) ;;
  try_except
    (sqlite3_connect ;;
     d <- get_db ;;
     let results := sql_business_rows emotion query d in
     lift (traverse business_product_of_row results))
    (ret []).

(* ---------------------------------------------------------------- *)
(** *** Context-aware search *)

Definition context_aware_ai_search (emotion query : string)
  : Py (list product * string) :=
  record_call (Call_context_aware_ai_search emotion query) ;;
  try_except
    (current_time <- datetime_now ;;
     text <- generate_content
               (ContextPrompt query emotion (dt_weekday current_time)
                  (dt_month current_time) (dt_hour current_time)) ;;
     let categories := map PyStr.strip (PyStr.split_on "," (PyStr.strip text)) in
     all_products <-
       for_each (firstn 2 categories) []
         (fun all_products category =>
            category_products <- fetch_products_dummyjson "" category 3 ;;
            let all_products := (all_products ++ category_products)%list in
            if (List.length all_products <? 6)%nat
            then
              fake_products <- fetch_products_fakestore "" category 2 ;;
              ret (all_products ++ fake_products)%list
            else ret all_products) ;;
     if nonempty all_products
     then ret (firstn 6 all_products,
               "🎯 Context-aware AI chose: " ++ PyStr.join ", " categories)
     else ret ([], ""))
    (ret ([], "")).

(* ---------------------------------------------------------------- *)
(** *** The recommendation orchestrator

    [neurochat_product_search] returns from the middle of its body; each
    definition below is the function from one step to its end, so that a
    step that does not return continues with the next one. *)

(** [response_time = time.time() - start_time] and the call of
    [log_recommendation_analytics], as they stand before every [return]. *)
Definition log_attempt (start_time : float) (query emotion method : string)
    (products_found : nat) : Py unit :=
  now <- time_time ;;
  let response_time := PrimFloat.sub now start_time in
  log_recommendation_analytics query emotion method products_found response_time.

(** Step 7: final safety fallback, and the empty answer. *)
Definition step_safety_fallback (start_time : float) (emotion query : string)
  : Py (list product * string) :=
  safety_products <- fetch_products_dummyjson "" "" 6 ;;
  if nonempty safety_products
  then
    log_attempt start_time query emotion "Safety Fallback" (List.length safety_products) ;;
    ret (safety_products,
         "🛍️ Here are some general products while I learn your preferences")
  else
    log_attempt start_time query emotion "No Results" 0 ;;
    ret ([], "🧠 I'm still learning! Try describing what you need differently.").

(** Step 6: a category chosen by the completion service; its [try] block
    gives [Some] result when it returns and [None] when it falls through. *)
Definition step_ai_fallback (start_time : float) (emotion query : string)
  : Py (list product * string) :=
  r <- try_except
         (text <- generate_content (FallbackPrompt query emotion) ;;
          let fallback_category := str_lower (PyStr.strip text) in
          fallback_products <- fetch_products_dummyjson "" fallback_category 6 ;;
          fallback_products <-
            (if negb (nonempty fallback_products)
             then fetch_products_fakestore "" fallback_category 6
             else ret fallback_products) ;;
          if nonempty fallback_products
          then
            log_attempt start_time query emotion "AI Fallback"
              (List.length fallback_products) ;;
            ret (Some (fallback_products,
                       "🤖 AI chose " ++ fallback_category ++ " products for your "
                         ++ emotion ++ " mood"))
          else ret None)
         (ret None) ;;
  match r with
  | Some result => ret result
  | None => step_safety_fallback start_time emotion query
  end.

(** Step 5: context-aware categories. *)
Definition step_context_ai (start_time : float) (emotion query : string)
  : Py (list product * string) :=
  '(context_products, context_msg) <- context_aware_ai_search emotion query ;;
  if nonempty context_products
  then
    log_attempt start_time query emotion "Context AI" (List.length context_products) ;;
    ret (context_products, context_msg)
  else step_ai_fallback start_time emotion query.

(** Step 4: web search. *)
Definition step_web_search (start_time : float) (emotion query : string)
  : Py (list product * string) :=
  if PyStr.truthy (PyStr.strip query)
  then
    web_products <- search_web_products query 6 ;;
    if nonempty web_products && (3 <=? List.length web_products)%nat
    then
      log_attempt start_time query emotion "Web Search" (List.length web_products) ;;
      ret (web_products, "🌐 Found real products from across the web")
    else step_context_ai start_time emotion query
  else step_context_ai start_time emotion query.

(** Step 3: semantic generation. *)
Definition step_semantic_ai (start_time : float) (emotion query : string)
  : Py (list product * string) :=
  if PyStr.truthy (PyStr.strip query) && (3 <? PyStr.len (PyStr.strip query))%nat
  then
    semantic_products <- semantic_product_search query 6 ;;
    if nonempty semantic_products && (3 <=? List.length semantic_products)%nat
    then
      log_attempt start_time query emotion "Semantic AI" (List.length semantic_products) ;;
      ret (semantic_products, "🧠 AI generated perfect matches for your needs")
    else step_web_search start_time emotion query
  else step_web_search start_time emotion query.

(** The fan-out of step 2 over the first two categories of the pattern. *)
Definition pattern_fan_out (categories : list string) : Py (list product) :=
  for_each (firstn 2 categories) []
    (fun pattern_products category =>
       cat_products <- fetch_products_dummyjson "" category 3 ;;
       ret (pattern_products ++ cat_products)%list).

(** Step 2: a pattern that succeeded before. *)
Definition step_historical_pattern (start_time : float) (emotion query : string)
  : Py (list product * string) :=
  historical_success <- get_successful_recommendations query emotion ;;
  match historical_success with
  | Some hs =>
      if 2 <? success_count hs
      then
        pattern_products <- pattern_fan_out (categories hs) ;;
        if nonempty pattern_products
        then
          log_attempt start_time query emotion "Historical Pattern"
            (List.length pattern_products) ;;
          ret (firstn 6 pattern_products,
               "📊 Using proven successful pattern (used "
                 ++ PyStr.of_Z (success_count hs) ++ " times)")
        else step_semantic_ai start_time emotion query
      else step_semantic_ai start_time emotion query
  | None => step_semantic_ai start_time emotion query
  end.

(** Step 1, after the clock is read: local business products first. *)
Definition step_local_business (start_time : float) (emotion query : string)
  : Py (list product * string) :=
  business_products <- search_business_products emotion query ;;
  if nonempty business_products
  then
    log_attempt start_time query emotion "Local Business" (List.length business_products) ;;
    ret (business_products,
         "🏪 Found " ++ PyStr.of_nat (List.length business_products)
           ++ " products from caring local businesses")
  else step_historical_pattern start_time emotion query.

Definition neurochat_product_search (emotion query : string)
  : Py (list product * string) :=
  start_time <- time_time ;;
  step_local_business start_time emotion query.

End Program.

(* ================================================================== *)
(** ** Concurrent calls of [save_successful_pattern]

    A call executes two statements on its own connection: the SELECT, then the
    UPDATE or the INSERT with its commit. SQLite executes each statement
    atomically and nothing in the program holds a lock from the first to the
    second, so the statements of concurrent calls interleave. Here every
    statement succeeds. *)

Module Concurrent.

(** Where a call stands: before its SELECT, between the two statements with
    the id that [fetchone()] gave (or none), or after its commit. *)
Inductive progress : Type :=
| Started
| Selected (existing : option Z)
| Finished.

(** A call in flight, with the time it will read. *)
Record thread : Type := {
  th_now : string;
  th_progress : progress
}.

Record system : Type := {
  threads : list thread;
  table : list pattern_row
}.

Section SameKey.

Context {lib : PyLib}.

(** The arguments that all the calls share. *)
Variables (query emotion : string) (categories : list string).

Definition statement (t : thread) (tbl : list pattern_row) : thread * list pattern_row :=
  match th_progress t with
  | Started =>
      let existing :=
        sql_select_pattern (pattern_of_query query) emotion
          (categories_str_of categories) tbl in
      ({| th_now := th_now t; th_progress := Selected (option_map sp_id existing) |}, tbl)
  | Selected (Some id) =>
      ({| th_now := th_now t; th_progress := Finished |},
       sql_update_pattern id (th_now t) tbl)
  | Selected None =>
      ({| th_now := th_now t; th_progress := Finished |},
       sql_insert_pattern (pattern_of_query query) emotion
         (categories_str_of categories) (th_now t) tbl)
  | Finished => (t, tbl)
  end.

Fixpoint replace_nth {A} (i : nat) (x : A) (l : list A) : list A :=
  match l, i with
  | [], _ => []
  | _ :: l', O => x :: l'
  | y :: l', S i' => y :: replace_nth i' x l'
  end.

(** The scheduler lets call [i] execute its next statement. *)
Definition step (sys : system) (i : nat) : system :=
  match nth_error (threads sys) i with
  | Some t =>
      let (t', tbl') := statement t (table sys) in
      {| threads := replace_nth i t' (threads sys); table := tbl' |}
  | None => sys
  end.

Definition run (schedule : list nat) (sys : system) : system :=
  fold_left step schedule sys.

(** [n] calls about to start, reading the times [nows]. *)
Definition start (nows : list string) (tbl : list pattern_row) : system :=
  {| threads := map (fun now => {| th_now := now; th_progress := Started |}) nows;
     table := tbl |}.

Definition finished (t : thread) : bool :=
  match th_progress t with
  | Finished => true
  | _ => false
  end.

Definition all_finished (sys : system) : bool := forallb finished (threads sys).

(** The rows of the calls' key, and the successes they count together. *)
Definition rows (tbl : list pattern_row) : list pattern_row :=
  key_rows (pattern_of_query query) emotion (categories_str_of categories) tbl.

Definition total (tbl : list pattern_row) : Z :=
  key_total (pattern_of_query query) emotion (categories_str_of categories) tbl.

(** The ids of the rows of the key. *)
Definition key_ids (tbl : list pattern_row) : list Z := map sp_id (rows tbl).

Definition count_finished (ts : list thread) : nat := List.length (filter finished ts).

(** The id a call holds between its statements is the id of a row of the key. *)
Definition selection_valid (tbl : list pattern_row) (t : thread) : Prop :=
  match th_progress t with
  | Selected (Some id) => In id (key_ids tbl)
  | _ => True
  end.

(** The call did not find the table without a row of the key. *)
Definition found_a_row (t : thread) : Prop :=
  match th_progress t with
  | Selected None => False
  | _ => True
  end.

(** What every interleaving preserves, from the table [tbl0] on. *)
Definition invariant (tbl0 : list pattern_row) (sys : system) : Prop :=
  NoDup (map sp_id (table sys))
  /\ Forall (selection_valid (table sys)) (threads sys)
  /\ total (table sys) = total tbl0 + Z.of_nat (count_finished (threads sys)).

(** What it preserves when the key has its row from the start. *)
Definition row_kept (tbl0 : list pattern_row) (sys : system) : Prop :=
  key_ids (table sys) = key_ids tbl0 /\ Forall found_a_row (threads sys).

End SameKey.

(** The claim of the specification: however [n] calls with one key
    interleave on a store without a row for the key, they leave one row
    that counts [n]. *)
Definition no_lost_updates {lib : PyLib} : Prop :=
  forall (query emotion : string) (categories : list string)
         (nows : list string) (schedule : list nat) (tbl : list pattern_row),
    nows <> [] ->
    rows query emotion categories tbl = [] ->
    let final := run query emotion categories schedule (start nows tbl) in
    all_finished final = true ->
    exists r, rows query emotion categories (table final) = [r]
              /\ sp_success_count r = Z.of_nat (List.length nows).

End Concurrent.

(* ================================================================== *)
(** ** Concrete worlds and stores, for the examples *)

Module Examples.

(** A Python library that parses one document: the text [products] is the
    object with three products, the text [list] the array of the same; its
    lowercase is that of the 26 letters of ASCII. *)
Definition three : list pyval :=
  [ PDict [("title", PStr "Desk"); ("price", PStr "10"); ("description", PStr "oak")];
    PDict [("title", PStr "Lamp"); ("price", PStr "20"); ("description", PStr "brass")];
    PDict [("title", PStr "Rug"); ("price", PStr "30"); ("description", PStr "wool")] ].

#[export] Instance lib : PyLib.
Proof.
  refine {|
    json_loads := fun text =>
      if String.eqb text "products" then Some (PDict [("products", PList three)])
      else if String.eqb text "list" then Some (PList three)
      else None;
    py_float := fun v => match v with PFloat f => Some f | _ => None end;
    format_comma_0f := fun _ => "0";
    re_search_group1 := fun _ _ => None;
    re_sub_empty := fun _ s => s;
    (* the texts of the examples hold no other capital letter *)
    str_lower := PyStr.ascii_lower;
    str_lower_blank := _
  |}.
  (* blanks hold no capital letter *)
  assert (forall l cur, PyStr.split_words cur l = [] ->
                        cur = None /\ forallb PyStr.is_space l = true) as Blank.
  { induction l as [|k l IH]; intros cur; simpl.
    - destruct cur; [discriminate | auto].
    - destruct (PyStr.is_space k).
      + destruct cur; [discriminate|]. intros H. apply IH in H as [_ H]. auto.
      + intros H. apply IH in H as [H _]. discriminate H. }
  assert (forall s, PyStr.implode (PyStr.characters s) = s) as Whole.
  { induction s as [|c s IH]; simpl; [reflexivity|].
    destruct (PyStr.characters s) as [|k rest]; simpl in *; [rewrite <- IH; reflexivity|].
    destruct (negb (PyStr.is_ascii c) && PyStr.starts_cont k); simpl; rewrite <- IH;
      reflexivity. }
  assert (forall a b, PyStr.ascii_lower (a ++ b)
                      = PyStr.ascii_lower a ++ PyStr.ascii_lower b) as App.
  { induction a as [|c a IH]; intros b; simpl; [reflexivity | rewrite IH; reflexivity]. }
  assert (forall k, PyStr.is_space k = true -> PyStr.ascii_lower k = k) as Same.
  { intros k H. apply existsb_exists in H as (x & I & E).
    apply String.eqb_eq in E. subst x. vm_compute in I.
    repeat (destruct I as [<-|I]; [reflexivity|]). contradiction. }
  intros s H. unfold PyStr.split in H. apply Blank in H as [_ H].
  rewrite <- (Whole s). induction (PyStr.characters s) as [|k l IH]; [reflexivity|].
  simpl in *. apply andb_prop in H as [Hk Hl].
  rewrite App, (Same k Hk), (IH Hl). reflexivity.
Defined.

Definition clock (n : nat) : datetime :=
  {| dt_isoformat := "2024-01-01T00:00:" ++ PyStr.of_nat (10 + n); dt_hour := 0;
     dt_month := "January"; dt_weekday := "Monday" |}.

(** Every service is down; the database works. *)
Definition offline : World :=
  {| w_time := fun _ => 0%float;
     w_now := clock;
     w_getenv := fun _ => "";
     w_complete := fun _ _ => None;
     w_http := fun _ _ => TransportError;
     w_db_fault := fun _ => false;
     w_sentiment := fun _ => None |}.

(** Every service answers; the catalogue always sends the three products. *)
Definition online : World :=
  {| w_time := fun _ => 0%float;
     w_now := clock;
     w_getenv := fun _ => "key";
     w_complete := fun _ _ => Some "list";
     w_http := fun _ _ => Body "products";
     w_db_fault := fun _ => false;
     w_sentiment := fun _ => Some {| polarity := 0.5%float; subjectivity := 0.5%float |} |}.

(** Nothing works, the database included. *)
Definition broken : World :=
  {| w_time := fun _ => 0%float;
     w_now := clock;
     w_getenv := fun _ => "key";
     w_complete := fun _ _ => None;
     w_http := fun _ _ => Timeout;
     w_db_fault := fun _ => true;
     w_sentiment := fun _ => None |}.

Definition empty_db : database :=
  {| businesses := []; business_products := []; product_feedback := [];
     recommendation_analytics := []; successful_patterns := [] |}.

Definition fresh (d : database) : state := {| db := d; tick := 0; calls := [] |}.

(** A shop with one tea for happy customers. *)
Definition shop_db : database :=
  {| businesses :=
       [ {| b_id := 1; b_name := "Corner Shop"; b_email := "shop@example.org";
            b_phone := None; b_created_date := Some "2024-01-01T00:00:00" |} ];
     business_products :=
       [ {| bp_id := 1; bp_business_id := Some 1; bp_name := "Green tea";
            bp_description := Some "A calming tea"; bp_price := Some 250%float;
            bp_category := Some "groceries"; bp_target_emotions := Some "happy,stressed";
            bp_stock_quantity := Some 4; bp_is_active := Some 1;
            bp_created_date := Some "2024-01-02T00:00:00" |} ];
     product_feedback := [];
     recommendation_analytics := [];
     successful_patterns := [] |}.

(** A store whose pattern for gift queries succeeded [n] times. *)
Definition gift_pattern (n : Z) : pattern_row :=
  {| sp_id := 1; sp_query_pattern := "i need a"; sp_emotion := "happy";
     sp_successful_categories := "furniture,beauty"; sp_success_count := n;
     sp_last_success := "2024-01-01T00:00:00" |}.

Definition pattern_db (n : Z) : database :=
  set_successful_patterns [gift_pattern n] empty_db.

(** What the shop offers for tea. *)
Definition green_tea : product :=
  [ ("title", PStr "Green tea"); ("price", PStr "₹0");
    ("description", PStr "A calming tea"); ("category", PStr "groceries");
    ("rating", PStr "Local Business ⭐"); ("stock", PInt 4);
    ("brand", PStr "Corner Shop"); ("source", PStr "Local Business 🏪") ].

(** Three blanks: a space, a no-break space (U+00A0) and an ideographic space
    (U+3000). *)
Definition wide_blanks : string :=
  (" " ++ PyStr.char2 194 160 ++ PyStr.char3 227 128 128)%string.

End Examples.

(* ================================================================== *)
(** ** Observations on a run *)

Definition is_log (c : call) : bool :=
  match c with
  | Call_log_recommendation_analytics _ _ _ _ _ => true
  | _ => false
  end.

(** The analytics attempts among the calls. *)
Definition logged (cs : list call) : list call := filter is_log cs.

(** The names under which an attempt is logged, from one step on. *)
Definition methods_from_semantic : list string :=
  ["Semantic AI"; "Web Search"; "Context AI"; "AI Fallback"; "Safety Fallback"; "No Results"].

Definition methods_from_historical : list string := "Historical Pattern" :: methods_from_semantic.

Definition methods : list string := "Local Business" :: methods_from_historical.

(** The database after the analytics sink is called at tick [t]: one row more,
    unless the transaction fails. *)
Definition db_after_log (w : World) (t : nat) (query emotion method : string)
    (products_found : nat) (response_time : float) (d : database) : database :=
  if w_db_fault w t then d
  else set_recommendation_analytics
         (sql_insert_analytics query emotion method products_found response_time
            (dt_isoformat (w_now w (S t))) (recommendation_analytics d)) d.

(** The table after one successful [save_successful_pattern] at time [now]. *)
Definition pattern_recorded {lib : PyLib} (query emotion : string) (categories : list string)
    (now : string) (t : list pattern_row) : list pattern_row :=
  match sql_select_pattern (pattern_of_query query) emotion (categories_str_of categories) t with
  | Some row => sql_update_pattern (sp_id row) now t
  | None =>
      sql_insert_pattern (pattern_of_query query) emotion (categories_str_of categories) now t
  end.

(** The state after the INSERT of [save_product_feedback] and its commit. *)
Definition feedback_recorded (w : World) (product_name user_query feedback_type source : string)
    (s : state) : state :=
  {| db := set_product_feedback
             (sql_insert_feedback product_name user_query feedback_type source
                (dt_isoformat (w_now w (S (tick s)))) (product_feedback (db s))) (db s);
     tick := S (S (tick s));
     calls := calls s |}.

(** The row of a key that counts [n] successes, the last one at [now]. *)
Definition pattern_row_of {lib : PyLib} (id : Z) (query emotion : string) (categories : list string)
    (n : Z) (now : string) : pattern_row :=
  {| sp_id := id; sp_query_pattern := pattern_of_query query; sp_emotion := emotion;
     sp_successful_categories := categories_str_of categories;
     sp_success_count := n; sp_last_success := now |}.

(** The message of step 2. *)
Definition pattern_message (hs : historical) : string :=
  "📊 Using proven successful pattern (used " ++ PyStr.of_Z (success_count hs) ++ " times)".

(** A string without a word: blanks only. *)
Definition blank (s : string) : bool := forallb PyStr.is_space (PyStr.characters s).

(** An HTTP exchange that gives the adapter no document: the request raises,
    the status is an error, or the body is not JSON. *)
Definition http_failed {lib : PyLib} (o : http_outcome) : Prop :=
  match o with
  | Body text => json_loads text = None
  | TransportError | Timeout | ErrorStatus => True
  end.

(** A completion that gives the semantic adapter no document: the call raises
    or its text is not JSON. *)
Definition completion_failed {lib : PyLib} (o : option string) : Prop :=
  match o with
  | Some text => json_loads (strip_code_fence text) = None
  | None => True
  end.

(** The state once the clock, or another oracle, has been consulted. *)
Definition ticked (s : state) : state :=
  {| db := db s; tick := S (tick s); calls := calls s |}.

(** Between [s] and [s'] nothing was written to the database and no attempt
    was logged; time went on. *)
Definition quiet (s s' : state) : Prop :=
  db s' = db s /\ logged (calls s') = logged (calls s) /\ (tick s <= tick s')%nat.

(** A computation that is quiet whatever it returns or raises. *)
Definition keeps {A} (m : Py A) : Prop := forall s, quiet s (snd (m s)).

(** A computation that calls none of the program's functions. *)
Definition silent {A} (m : Py A) : Prop := forall s, calls (snd (m s)) = calls s.

(** A computation that never raises. *)
Definition returns {A} (m : Py A) : Prop := forall s, exists a, fst (m s) = Ret a.

(** The run [r] from [s] returned products, logged exactly one attempt under
    one of the [allowed] names with the time elapsed since [start_time], and
    gave it to the analytics sink; [n] is the count it logged. *)
Definition attempt_recorded {lib : PyLib} (w : World) (start_time : float)
    (query emotion : string) (allowed : list string) (s : state)
    (r : outcome (list product * string) * state) : Prop :=
  exists products msg s' method n t_end,
    r = (Ret (products, msg), s')
    /\ In method allowed
    /\ (tick s <= t_end)%nat
    /\ logged (calls s') =
         (logged (calls s) ++
          [Call_log_recommendation_analytics query emotion method n
             (PrimFloat.sub (w_time w t_end) start_time)])%list
    /\ db s' = db_after_log w (S t_end) query emotion method n
                 (PrimFloat.sub (w_time w t_end) start_time) (db s)
    /\ (n = List.length products
        \/ (method = "Historical Pattern" /\ List.length products = Nat.min 6 n)).

(* ================================================================== *)
(** ** The business portal *)








(** A row of the frame that [get_business_products] returns. *)
Record listing : Type := {
  ls_id : Z;
  ls_name : string;
  ls_description : option string;
  ls_price : option float;
  ls_category : option string;
  ls_target_emotions : option string;
  ls_stock_quantity : option Z;
  ls_created_date : option string
}.

Definition listing_of (bp : business_product) : listing :=
  {| ls_id := bp_id bp; ls_name := bp_name bp; ls_description := bp_description bp;
     ls_price := bp_price bp; ls_category := bp_category bp;
     ls_target_emotions := bp_target_emotions bp;
     ls_stock_quantity := bp_stock_quantity bp; ls_created_date := bp_created_date bp |}.

(** The rows of [get_business_products] before they are ordered:
    [... JOIN businesses b ON bp.business_id = b.id WHERE b.email = ? AND
    bp.is_active = 1]. *)
Definition sql_owner_rows (email : string) (d : database)
  : list (business_product * business) :=
  filter (fun r => String.eqb (b_email (snd r)) email && is_active (fst r))
         (sql_join_business d).

Section Portal.

Context (w : World).


(** The frame is the list of its rows; the empty frame is the empty list. *)
Definition get_business_products (business_email : string) : Py (list listing) :=
  try_except
    (sqlite3_connect w ;;
     d <- get_db ;;
     ret (map (fun r => listing_of (fst r))
              (order_by_date_desc (sql_owner_rows business_email d))))
    (ret []).

End Portal.

(* ================================================================== *)
(** ** What a run returns and which calls it makes *)

(** Whenever the computation returns, its value satisfies [P]. *)
Definition yields {A} (P : A -> Prop) (m : Py A) : Prop :=
  forall s a s', m s = (Ret a, s') -> P a.

(** Whenever the computation returns, its value and the state it leaves
    satisfy [Q]. *)
Definition ensures {A} (Q : A -> state -> Prop) (m : Py A) : Prop :=
  forall s a s', m s = (Ret a, s') -> Q a s'.

(** The calls that the computation adds to the log all satisfy [P]. *)
Definition appends {A} (P : call -> Prop) (m : Py A) : Prop :=
  forall s, exists new, calls (snd (m s)) = (calls s ++ new)%list /\ Forall P new.

(** The product carries one of the source tags [tags]. *)
Definition tagged (tags : list string) (p : product) : Prop :=
  exists tag, dict_get "source" p = Some (PStr tag) /\ In tag tags.

(** The product carries a price in rupees, or the placeholder of the web
    search. *)
Definition priced (p : product) : Prop :=
  exists price, dict_get "price" p = Some (PStr price)
                /\ (PyStr.startswith "₹" price = true \/ price = "See website").

Definition tag_local : string := "Local Business 🏪".
Definition tag_semantic : string := "Semantic AI Match 🧠".
Definition tag_web : string := "Real Web Search 🌐".
Definition tag_dummyjson : string := "DummyJSON Catalog 📦".
Definition tag_fakestore : string := "Alternative Catalog 🔄".

Definition still_learning : string :=
  "🧠 I'm still learning! Try describing what you need differently.".

(** What [neurochat_product_search] returns under each name it logs: the tags
    of the products, their number, and the count [n] that is logged. *)
Definition result_shape (method : string) (products : list product) (msg : string)
    (n : nat) : Prop :=
  let size := List.length products in
  (method = "Local Business" /\ Forall (tagged [tag_local]) products
   /\ (1 <= size <= 6)%nat /\ n = size)
  \/ (method = "Historical Pattern" /\ Forall (tagged [tag_dummyjson]) products
      /\ (1 <= size <= 6)%nat /\ size = Nat.min 6 n)
  \/ (method = "Semantic AI" /\ Forall (tagged [tag_semantic]) products
      /\ (3 <= size <= 6)%nat /\ n = size)
  \/ (method = "Web Search" /\ Forall (tagged [tag_web]) products
      /\ (3 <= size <= 6)%nat /\ n = size)
  \/ (method = "Context AI" /\ Forall (tagged [tag_dummyjson; tag_fakestore]) products
      /\ (1 <= size <= 6)%nat /\ n = size)
  \/ (method = "AI Fallback"
      /\ (Forall (tagged [tag_dummyjson]) products
          \/ (Forall (tagged [tag_fakestore]) products /\ (size <= 6)%nat))
      /\ (1 <= size)%nat /\ n = size)
  \/ (method = "Safety Fallback" /\ Forall (tagged [tag_dummyjson]) products
      /\ (1 <= size)%nat /\ n = size)
  \/ (method = "No Results" /\ products = [] /\ msg = still_learning /\ n = 0%nat).

(** The run ended by logging an attempt whose name fits what is returned. *)
Definition shaped_result (query emotion : string) (r : list product * string) (s' : state)
  : Prop :=
  exists cs method n rt,
    calls s' = (cs ++ [Call_log_recommendation_analytics query emotion method n rt])%list
    /\ result_shape method (fst r) (snd r) n
    /\ Forall priced (fst r).

(** The product carries one of the tags and a price. *)
Definition offered (tags : list string) (p : product) : Prop := tagged tags p /\ priced p.

(** A list of at most [cap] products that are all offered under [tags]. *)
Definition offer (tags : list string) (cap : nat) (l : list product) : Prop :=
  Forall (offered tags) l /\ (List.length l <= cap)%nat.

(** The computation [m], run from a state that [s] reaches without a write to
    the database or a logged attempt, returned [a]. *)
Definition produced_after {A} (s : state) (m : Py A) (a : A) : Prop :=
  exists s0 s1, quiet s s0 /\ m s0 = (Ret a, s1).

(** [Q] holds of what [m] returns, and of the state it leaves, when it is run
    from a state that [s] reaches quietly. *)
Definition after {A} (s : state) (m : Py A) (Q : A -> state -> Prop) : Prop :=
  forall s0 a s', quiet s s0 -> m s0 = (Ret a, s') -> Q a s'.

(** Where the products and the message returned under each name come from, in
    a search started in [s]. *)
Definition result_source {lib : PyLib} (w : World) (s : state)
    (emotion query method : string) (products : list product) (msg : string) : Prop :=
  (method = "Local Business"
   /\ produced_after s (search_business_products w emotion query) products
   /\ msg = "🏪 Found " ++ PyStr.of_nat (List.length products)
              ++ " products from caring local businesses")
  \/ (method = "Historical Pattern"
      /\ exists hs fan,
           produced_after s (get_successful_recommendations w query emotion) (Some hs)
           /\ 2 < success_count hs
           /\ produced_after s (pattern_fan_out w (categories hs)) fan
           /\ products = firstn 6 fan
           /\ msg = pattern_message hs)
  \/ (method = "Semantic AI"
      /\ (3 < PyStr.len (PyStr.strip query))%nat
      /\ produced_after s (semantic_product_search w query 6) products
      /\ msg = "🧠 AI generated perfect matches for your needs")
  \/ (method = "Web Search"
      /\ PyStr.strip query <> ""
      /\ produced_after s (search_web_products w query 6) products
      /\ msg = "🌐 Found real products from across the web")
  \/ (method = "Context AI"
      /\ produced_after s (context_aware_ai_search w emotion query) (products, msg))
  \/ (method = "AI Fallback"
      /\ exists text,
           let category := str_lower (PyStr.strip text) in
           produced_after s (generate_content w (FallbackPrompt query emotion)) text
           /\ (produced_after s (fetch_products_dummyjson w "" category 6) products
               \/ (produced_after s (fetch_products_dummyjson w "" category 6) []
                   /\ produced_after s (fetch_products_fakestore w "" category 6) products))
           /\ msg = "🤖 AI chose " ++ category ++ " products for your " ++ emotion ++ " mood")
  \/ (method = "Safety Fallback"
      /\ produced_after s (fetch_products_dummyjson w "" "" 6) products
      /\ msg = "🛍️ Here are some general products while I learn your preferences")
  \/ (method = "No Results"
      /\ produced_after s (fetch_products_dummyjson w "" "" 6) []).

(** The run ended by logging an attempt under a name that tells where the
    result comes from. *)
Definition sourced_result {lib : PyLib} (w : World) (s : state) (emotion query : string)
    (r : list product * string) (s' : state) : Prop :=
  exists cs method n rt,
    calls s' = (cs ++ [Call_log_recommendation_analytics query emotion method n rt])%list
    /\ result_source w s emotion query method (fst r) (snd r)
    /\ (fst r = [] <-> method = "No Results").

(** The calls of the semantic generator: of the adapter, and of the
    completion service with its prompt. *)
Definition generation_call (c : call) : bool :=
  match c with
  | Call_semantic_product_search _ _ => true
  | Call_generate_content (SemanticPrompt _ _) => true
  | _ => false
  end.

(** The calls of the web search. *)
Definition web_call (c : call) : bool :=
  match c with
  | Call_search_web_products _ _ => true
  | _ => false
  end.

(** The row satisfies the WHERE clause of [get_successful_recommendations]
    for [query] and [emotion]: it has the emotion, and its query pattern is
    LIKE one of the words of the lowercased query, between two [%]. *)
Definition pattern_matches {lib : PyLib} (query emotion : string) (r : pattern_row) : Prop :=
  sp_emotion r = emotion
  /\ exists word, In word (PyStr.split (str_lower query))
                  /\ sql_like (like_param word) (sp_query_pattern r) = true.






(** The order of two rows that [ORDER BY bp.created_date DESC] leaves as they
    are: the second is not strictly more recent than the first. *)
Definition newest_first (x y : business_product * business) : Prop :=
  date_before (bp_created_date (fst y)) (bp_created_date (fst x)) = false.

(** The text under [key] in a card, when there is one, has at most [n]
    characters. *)
Definition field_within (key : string) (n : nat) (card : product) : Prop :=
  forall text, dict_get key card = Some (PStr text) -> (PyStr.len text <= n)%nat.

(** The successes counted by the row that the SELECT of
    [save_successful_pattern] finds for a key; 0 when it finds none. *)
Definition selected_count (query_pattern emotion categories_str : string)
    (t : list pattern_row) : Z :=
  match sql_select_pattern query_pattern emotion categories_str t with
  | Some row => sp_success_count row
  | None => 0
  end.

(** The shapes of a character: a byte of the ASCII range, or a byte outside
    it followed by continuation bytes only. *)
Fixpoint all_cont (s : string) : bool :=
  match s with
  | EmptyString => true
  | String c s' => PyStr.is_cont c && all_cont s'
  end.

Definition ascii_character (k : string) : bool :=
  match k with
  | String c EmptyString => PyStr.is_ascii c
  | _ => false
  end.

Definition other_character (k : string) : bool :=
  match k with
  | String c rest => negb (PyStr.is_ascii c) && all_cont rest
  | EmptyString => false
  end.

(** A list of characters as [PyStr.characters] gives them: no continuation
    byte is left after a character that takes them. *)
Fixpoint spelled (l : list string) : bool :=
  match l with
  | [] => true
  | k :: l' =>
      (ascii_character k
       || other_character k
          && negb (match l' with
                   | k' :: _ => PyStr.starts_cont k'
                   | [] => false
                   end))
      && spelled l'
  end.

(* ================================================================== *)
(** * Proofs *)

(** ** The monad *)

Lemma bind_ret_eq {A B} (m : Py A) (k : A -> Py B) s a s' :
  m s = (Ret a, s') -> bind m k s = k a s'.
Proof. intros E. unfold bind. rewrite E. reflexivity. Qed.

Lemma quiet_refl s : quiet s s.
Proof. unfold quiet. auto. Qed.

Lemma quiet_trans s1 s2 s3 : quiet s1 s2 -> quiet s2 s3 -> quiet s1 s3.
Proof.
  unfold quiet. intros (D1 & L1 & T1) (D2 & L2 & T2).
  repeat split; [congruence | congruence | lia].
Qed.

Lemma keeps_ret {A} (a : A) : keeps (ret a).
Proof. intros s. apply quiet_refl. Qed.

Lemma keeps_raise {A} : keeps (@raise A).
Proof. intros s. apply quiet_refl. Qed.

Lemma keeps_lift {A} (o : option A) : keeps (lift o).
Proof. destruct o; [apply keeps_ret | apply keeps_raise]. Qed.

Lemma keeps_get_db : keeps get_db.
Proof. intros s. apply quiet_refl. Qed.

Lemma keeps_external {A} (oracle : nat -> A) : keeps (external oracle).
Proof. intros s. unfold quiet. simpl. auto. Qed.

Lemma logged_app cs c : logged (cs ++ [c]) = (logged cs ++ (if is_log c then [c] else []))%list.
Proof. unfold logged. rewrite filter_app. simpl. destruct (is_log c); reflexivity. Qed.

Lemma keeps_record_call c : is_log c = false -> keeps (record_call c).
Proof.
  intros H s. unfold quiet. simpl. rewrite logged_app, H, app_nil_r. auto.
Qed.

Lemma keeps_bind {A B} (m : Py A) (k : A -> Py B) :
  keeps m -> (forall a, keeps (k a)) -> keeps (bind m k).
Proof.
  intros Hm Hk s. unfold bind. specialize (Hm s).
  destruct (m s) as [[a|] s1]; simpl in *; [|assumption].
  eapply quiet_trans; [eassumption | apply Hk].
Qed.

Lemma keeps_try {A} (m h : Py A) : keeps m -> keeps h -> keeps (try_except m h).
Proof.
  intros Hm Hh s. unfold try_except. specialize (Hm s).
  destruct (m s) as [[a|] s1]; simpl in *; [assumption|].
  eapply quiet_trans; [eassumption | apply Hh].
Qed.

Lemma keeps_for_each {A B} (l : list A) (body : B -> A -> Py B) :
  (forall acc x, keeps (body acc x)) -> forall acc, keeps (for_each l acc body).
Proof.
  intros Hb. induction l as [|x l IH]; intros acc; simpl.
  - apply keeps_ret.
  - apply keeps_bind; [apply Hb | intros; apply IH].
Qed.

Lemma returns_try_ret {A} (m : Py A) (a : A) : returns (try_except m (ret a)).
Proof.
  intros s. unfold try_except. destruct (m s) as [[x|] s1]; simpl; eauto.
Qed.

Lemma returns_bind {A B} (m : Py A) (k : A -> Py B) :
  returns m -> (forall a, returns (k a)) -> returns (bind m k).
Proof.
  intros Hm Hk s. unfold bind. destruct (Hm s) as [a Ea].
  destruct (m s) as [[x|] s1]; simpl in *; [apply Hk | discriminate].
Qed.

Lemma returns_record_call c : returns (record_call c).
Proof. intros s. simpl. eauto. Qed.

(** A computation that returns and is quiet hands over a value and a state. *)
Lemma run_quietly {A} (m : Py A) :
  returns m -> keeps m -> forall s, exists a s', m s = (Ret a, s') /\ quiet s s'.
Proof.
  intros R K s. destruct (R s) as [a Ea]. specialize (K s).
  destruct (m s) as [o s']; simpl in *; subst. eauto.
Qed.

Create HintDb py.

Ltac keeps_step :=
  lazymatch goal with
  | |- keeps (bind _ _) => apply keeps_bind; [| intros]
  | |- keeps (try_except _ _) => apply keeps_try
  | |- keeps (ret _) => apply keeps_ret
  | |- keeps raise => apply keeps_raise
  | |- keeps (lift _) => apply keeps_lift
  | |- keeps (external _) => apply keeps_external
  | |- keeps get_db => apply keeps_get_db
  | |- keeps (record_call _) => apply keeps_record_call; reflexivity
  | |- keeps (for_each _ _ _) => apply keeps_for_each; intros
  | |- keeps (if ?b then _ else _) => destruct b
  | |- keeps (match ?x with _ => _ end) => destruct x
  | |- keeps (let _ := _ in _) => cbv zeta
  end.

Ltac keeps_tac := repeat keeps_step.

Section Adapters.

Context {lib : PyLib} (w : World).

Lemma keeps_sqlite3_connect : keeps (sqlite3_connect w).
Proof. unfold sqlite3_connect. keeps_tac. Qed.

Lemma keeps_requests_get_json req : keeps (requests_get_json w req).
Proof. unfold requests_get_json. keeps_tac. Qed.

Lemma keeps_generate_content p : keeps (generate_content w p).
Proof. unfold generate_content. keeps_tac. Qed.

Hint Resolve keeps_sqlite3_connect keeps_requests_get_json keeps_generate_content : py.

(** *** Every adapter returns, and is quiet *)

Lemma keeps_search_business_products emotion query :
  keeps (search_business_products w emotion query).
Proof. unfold search_business_products. keeps_tac; auto with py. Qed.

Lemma returns_search_business_products emotion query :
  returns (search_business_products w emotion query).
Proof.
  unfold search_business_products.
  apply returns_bind; [apply returns_record_call | intros; apply returns_try_ret].
Qed.

Lemma keeps_get_successful_recommendations query emotion :
  keeps (get_successful_recommendations w query emotion).
Proof. unfold get_successful_recommendations. keeps_tac; auto with py. Qed.

Lemma returns_get_successful_recommendations query emotion :
  returns (get_successful_recommendations w query emotion).
Proof.
  unfold get_successful_recommendations.
  apply returns_bind; [apply returns_record_call | intros; apply returns_try_ret].
Qed.

Lemma keeps_fetch_products_dummyjson query category limit :
  keeps (fetch_products_dummyjson w query category limit).
Proof. unfold fetch_products_dummyjson. keeps_tac; auto with py. Qed.

Lemma returns_fetch_products_dummyjson query category limit :
  returns (fetch_products_dummyjson w query category limit).
Proof.
  unfold fetch_products_dummyjson.
  apply returns_bind; [apply returns_record_call | intros; apply returns_try_ret].
Qed.

Lemma keeps_fetch_products_fakestore query category limit :
  keeps (fetch_products_fakestore w query category limit).
Proof. unfold fetch_products_fakestore. keeps_tac; auto with py. Qed.

Lemma returns_fetch_products_fakestore query category limit :
  returns (fetch_products_fakestore w query category limit).
Proof.
  unfold fetch_products_fakestore.
  apply returns_bind; [apply returns_record_call | intros; apply returns_try_ret].
Qed.

Lemma keeps_semantic_product_search query limit :
  keeps (semantic_product_search w query limit).
Proof. unfold semantic_product_search. keeps_tac; auto with py. Qed.

Lemma returns_semantic_product_search query limit :
  returns (semantic_product_search w query limit).
Proof.
  unfold semantic_product_search.
  apply returns_bind; [apply returns_record_call | intros; apply returns_try_ret].
Qed.

Lemma keeps_search_web_products query limit :
  keeps (search_web_products w query limit).
Proof. unfold search_web_products. keeps_tac; auto with py. Qed.

Lemma returns_search_web_products query limit :
  returns (search_web_products w query limit).
Proof.
  unfold search_web_products.
  apply returns_bind; [apply returns_record_call | intros; apply returns_try_ret].
Qed.

Hint Resolve keeps_fetch_products_dummyjson keeps_fetch_products_fakestore : py.

Lemma keeps_context_aware_ai_search emotion query :
  keeps (context_aware_ai_search w emotion query).
Proof. unfold context_aware_ai_search, datetime_now. keeps_tac; auto with py. Qed.

Lemma returns_context_aware_ai_search emotion query :
  returns (context_aware_ai_search w emotion query).
Proof.
  unfold context_aware_ai_search.
  apply returns_bind; [apply returns_record_call | intros; apply returns_try_ret].
Qed.

Lemma keeps_pattern_fan_out categories : keeps (pattern_fan_out w categories).
Proof. unfold pattern_fan_out. keeps_tac; auto with py. Qed.

Lemma returns_for_each {A B} (l : list A) (body : B -> A -> Py B) :
  (forall acc x, returns (body acc x)) -> forall acc, returns (for_each l acc body).
Proof.
  intros Hb. induction l as [|x l IH]; intros acc; simpl.
  - intros s. simpl. eauto.
  - apply returns_bind; [apply Hb | intros; apply IH].
Qed.

Lemma returns_pattern_fan_out categories : returns (pattern_fan_out w categories).
Proof.
  unfold pattern_fan_out. apply returns_for_each. intros acc x.
  apply returns_bind; [apply returns_fetch_products_dummyjson |].
  intros a s. simpl. eauto.
Qed.

End Adapters.

(** ** One attempt is logged on every path of the chain *)

Section Chain.

Context {lib : PyLib} (w : World).
Variables (start_time : float) (emotion query : string).

Lemma log_attempt_spec method n s :
  exists s',
    log_attempt w start_time query emotion method n s = (Ret tt, s')
    /\ calls s' =
         (calls s ++
          [Call_log_recommendation_analytics query emotion method n
             (PrimFloat.sub (w_time w (tick s)) start_time)])%list
    /\ db s' = db_after_log w (S (tick s)) query emotion method n
                 (PrimFloat.sub (w_time w (tick s)) start_time) (db s).
Proof.
  unfold log_attempt, time_time, log_recommendation_analytics, sqlite3_connect,
    datetime_now, db_after_log, bind, try_except, external, record_call, modify_db,
    ret, raise.
  simpl. destruct (w_db_fault w (S (tick s))); simpl; eauto.
Qed.

Lemma attempt_after_quiet allowed s s1 r :
  quiet s s1 ->
  attempt_recorded w start_time query emotion allowed s1 r ->
  attempt_recorded w start_time query emotion allowed s r.
Proof.
  intros (D & L & T) (products & msg & s' & method & n & t_end & E & I & T' & L' & D' & C).
  exists products, msg, s', method, n, t_end.
  repeat split; try assumption; [lia | congruence | congruence].
Qed.

Lemma attempt_weaken allowed allowed' s r :
  incl allowed allowed' ->
  attempt_recorded w start_time query emotion allowed s r ->
  attempt_recorded w start_time query emotion allowed' s r.
Proof.
  intros Hi (products & msg & s' & method & n & t_end & E & I & R).
  exists products, msg, s', method, n, t_end. split; [assumption|].
  split; [apply Hi; assumption | assumption].
Qed.

(** The two lines before every [return]. *)
Lemma log_then_return allowed method products msg n s :
  In method allowed ->
  (n = List.length products
   \/ (method = "Historical Pattern" /\ List.length products = Nat.min 6 n)) ->
  attempt_recorded w start_time query emotion allowed s
    (bind (log_attempt w start_time query emotion method n)
          (fun _ => ret (products, msg)) s).
Proof.
  intros I C. destruct (log_attempt_spec method n s) as (s' & E & Cs & D).
  rewrite (bind_ret_eq _ _ _ _ _ E).
  exists products, msg, s', method, n, (tick s).
  repeat split; try assumption; [lia|].
  rewrite Cs, logged_app. reflexivity.
Qed.

Ltac named := unfold methods_from_semantic; simpl; tauto.

Lemma step_safety_fallback_attempt s :
  attempt_recorded w start_time query emotion methods_from_semantic s
    (step_safety_fallback w start_time emotion query s).
Proof.
  unfold step_safety_fallback.
  destruct (run_quietly _ (returns_fetch_products_dummyjson w "" "" 6)
              (keeps_fetch_products_dummyjson w "" "" 6) s) as (ps & s1 & E & Q).
  rewrite (bind_ret_eq _ _ _ _ _ E).
  apply attempt_after_quiet with s1; [assumption|].
  destruct (nonempty ps); apply log_then_return; auto; named.
Qed.

(** The [try] block of step 6 either returns after one attempt or leaves
    everything as it was. *)
Lemma step_ai_fallback_attempt s :
  attempt_recorded w start_time query emotion methods_from_semantic s
    (step_ai_fallback w start_time emotion query s).
Proof.
  unfold step_ai_fallback.
  pose proof (keeps_generate_content w (FallbackPrompt query emotion) s) as Q0.
  unfold bind at 1. unfold try_except. unfold bind at 1.
  destruct (generate_content w (FallbackPrompt query emotion) s) as [[text|] s0];
    simpl in Q0.
  2:{ simpl. apply attempt_after_quiet with s0; [assumption|].
      apply step_safety_fallback_attempt. }
  set (category := str_lower (PyStr.strip text)).
  destruct (run_quietly _ (returns_fetch_products_dummyjson w "" category 6)
              (keeps_fetch_products_dummyjson w "" category 6) s0) as (ps & s1 & E1 & Q1).
  rewrite (bind_ret_eq _ _ _ _ _ E1).
  assert (exists ps' s2,
            (if negb (nonempty ps) then fetch_products_fakestore w "" category 6
             else ret ps) s1 = (Ret ps', s2) /\ quiet s1 s2) as (ps' & s2 & E2 & Q2).
  { destruct (nonempty ps); simpl.
    - exists ps, s1. split; [reflexivity | apply quiet_refl].
    - apply run_quietly;
        [apply returns_fetch_products_fakestore | apply keeps_fetch_products_fakestore]. }
  rewrite (bind_ret_eq _ _ _ _ _ E2).
  assert (quiet s s2) as Q by (eauto using quiet_trans).
  destruct (nonempty ps').
  - destruct (log_attempt_spec "AI Fallback" (List.length ps') s2) as (s3 & E3 & Cs & D).
    rewrite (bind_ret_eq _ _ _ _ _ E3). simpl.
    apply attempt_after_quiet with s2; [assumption|].
    eexists ps', _, s3, "AI Fallback", (List.length ps'), (tick s2).
    repeat split; try eassumption; [named | lia | | auto].
    rewrite Cs, logged_app. reflexivity.
  - simpl. apply attempt_after_quiet with s2; [assumption|].
    apply step_safety_fallback_attempt.
Qed.

Lemma step_context_ai_attempt s :
  attempt_recorded w start_time query emotion methods_from_semantic s
    (step_context_ai w start_time emotion query s).
Proof.
  unfold step_context_ai.
  destruct (run_quietly _ (returns_context_aware_ai_search w emotion query)
              (keeps_context_aware_ai_search w emotion query) s)
    as ([ps msg] & s1 & E & Q).
  rewrite (bind_ret_eq _ _ _ _ _ E).
  apply attempt_after_quiet with s1; [assumption|].
  destruct (nonempty ps).
  - apply log_then_return; auto; named.
  - apply step_ai_fallback_attempt.
Qed.

Lemma step_web_search_attempt s :
  attempt_recorded w start_time query emotion methods_from_semantic s
    (step_web_search w start_time emotion query s).
Proof.
  unfold step_web_search.
  destruct (PyStr.truthy (PyStr.strip query)); [| apply step_context_ai_attempt].
  destruct (run_quietly _ (returns_search_web_products w query 6)
              (keeps_search_web_products w query 6) s) as (ps & s1 & E & Q).
  rewrite (bind_ret_eq _ _ _ _ _ E).
  apply attempt_after_quiet with s1; [assumption|].
  destruct (nonempty ps && (3 <=? List.length ps)%nat).
  - apply log_then_return; auto; named.
  - apply step_context_ai_attempt.
Qed.

Lemma step_semantic_ai_attempt s :
  attempt_recorded w start_time query emotion methods_from_semantic s
    (step_semantic_ai w start_time emotion query s).
Proof.
  unfold step_semantic_ai.
  destruct (PyStr.truthy (PyStr.strip query)
            && (3 <? PyStr.len (PyStr.strip query))%nat);
    [| apply step_web_search_attempt].
  destruct (run_quietly _ (returns_semantic_product_search w query 6)
              (keeps_semantic_product_search w query 6) s) as (ps & s1 & E & Q).
  rewrite (bind_ret_eq _ _ _ _ _ E).
  apply attempt_after_quiet with s1; [assumption|].
  destruct (nonempty ps && (3 <=? List.length ps)%nat).
  - apply log_then_return; auto; named.
  - apply step_web_search_attempt.
Qed.

Lemma from_semantic_incl_historical : incl methods_from_semantic methods_from_historical.
Proof. unfold methods_from_historical. apply incl_tl, incl_refl. Qed.

Lemma from_historical_incl_methods : incl methods_from_historical methods.
Proof. unfold methods. apply incl_tl, incl_refl. Qed.

Lemma step_historical_pattern_attempt s :
  attempt_recorded w start_time query emotion methods_from_historical s
    (step_historical_pattern w start_time emotion query s).
Proof.
  unfold step_historical_pattern.
  destruct (run_quietly _ (returns_get_successful_recommendations w query emotion)
              (keeps_get_successful_recommendations w query emotion) s)
    as (h & s1 & E & Q).
  rewrite (bind_ret_eq _ _ _ _ _ E).
  apply attempt_after_quiet with s1; [assumption|].
  pose proof (fun s => attempt_weaken _ _ s _ from_semantic_incl_historical
                         (step_semantic_ai_attempt s)) as Next.
  destruct h as [hs|]; [| apply Next].
  destruct (2 <? success_count hs); [| apply Next].
  destruct (run_quietly _ (returns_pattern_fan_out w (categories hs))
              (keeps_pattern_fan_out w (categories hs)) s1) as (ps & s2 & E2 & Q2).
  rewrite (bind_ret_eq _ _ _ _ _ E2).
  apply attempt_after_quiet with s2; [assumption|].
  destruct (nonempty ps); [| apply Next].
  apply log_then_return.
  - unfold methods_from_historical. simpl. auto.
  - right. split; [reflexivity|]. rewrite length_firstn. reflexivity.
Qed.

Lemma step_local_business_attempt s :
  attempt_recorded w start_time query emotion methods s
    (step_local_business w start_time emotion query s).
Proof.
  unfold step_local_business.
  destruct (run_quietly _ (returns_search_business_products w emotion query)
              (keeps_search_business_products w emotion query) s) as (ps & s1 & E & Q).
  rewrite (bind_ret_eq _ _ _ _ _ E).
  apply attempt_after_quiet with s1; [assumption|].
  destruct (nonempty ps).
  - apply log_then_return; auto. unfold methods. simpl. auto.
  - eapply attempt_weaken; [apply from_historical_incl_methods |].
    apply step_historical_pattern_attempt.
Qed.

End Chain.

(** ** Calls made by the stores *)

Lemma silent_ret {A} (a : A) : silent (ret a).
Proof. intros s. reflexivity. Qed.

Lemma silent_raise {A} : silent (@raise A).
Proof. intros s. reflexivity. Qed.

Lemma silent_lift {A} (o : option A) : silent (lift o).
Proof. destruct o; [apply silent_ret | apply silent_raise]. Qed.

Lemma silent_get_db : silent get_db.
Proof. intros s. reflexivity. Qed.

Lemma silent_modify_db f : silent (modify_db f).
Proof. intros s. reflexivity. Qed.

Lemma silent_external {A} (oracle : nat -> A) : silent (external oracle).
Proof. intros s. reflexivity. Qed.

Lemma silent_bind {A B} (m : Py A) (k : A -> Py B) :
  silent m -> (forall a, silent (k a)) -> silent (bind m k).
Proof.
  intros Hm Hk s. unfold bind. specialize (Hm s).
  destruct (m s) as [[a|] s1]; simpl in *; [|assumption].
  rewrite Hk. assumption.
Qed.

Lemma silent_try {A} (m h : Py A) : silent m -> silent h -> silent (try_except m h).
Proof.
  intros Hm Hh s. unfold try_except. specialize (Hm s).
  destruct (m s) as [[a|] s1]; simpl in *; [assumption|].
  rewrite Hh. assumption.
Qed.

Ltac silent_step :=
  lazymatch goal with
  | |- silent (bind _ _) => apply silent_bind; [| intros]
  | |- silent (try_except _ _) => apply silent_try
  | |- silent (ret _) => apply silent_ret
  | |- silent raise => apply silent_raise
  | |- silent (lift _) => apply silent_lift
  | |- silent (external _) => apply silent_external
  | |- silent get_db => apply silent_get_db
  | |- silent (modify_db _) => apply silent_modify_db
  | |- silent (if ?b then _ else _) => destruct b
  | |- silent (match ?x with _ => _ end) => destruct x
  | |- silent (let _ := _ in _) => cbv zeta
  end.

(** A function that records its call and then runs a silent body adds that
    one call. *)
Lemma one_call {A} (c : call) (body : Py A) s :
  silent body -> calls (snd (bind (record_call c) (fun _ => body) s)) = (calls s ++ [c])%list.
Proof. intros H. unfold bind, record_call. rewrite H. reflexivity. Qed.

Section StoreCalls.

Context {lib : PyLib} (w : World).

Lemma calls_search_business_products emotion query s :
  calls (snd (search_business_products w emotion query s))
  = (calls s ++ [Call_search_business_products emotion query])%list.
Proof.
  unfold search_business_products. apply one_call.
  unfold sqlite3_connect. repeat silent_step.
Qed.

Lemma calls_save_successful_pattern query emotion categories s :
  calls (snd (save_successful_pattern w query emotion categories s))
  = (calls s ++ [Call_save_successful_pattern query emotion categories])%list.
Proof.
  unfold save_successful_pattern. apply one_call.
  unfold sqlite3_connect, datetime_now. repeat silent_step.
Qed.

Lemma calls_get_successful_recommendations query emotion s :
  calls (snd (get_successful_recommendations w query emotion s))
  = (calls s ++ [Call_get_successful_recommendations query emotion])%list.
Proof.
  unfold get_successful_recommendations. apply one_call.
  unfold sqlite3_connect. repeat silent_step.
Qed.

Lemma calls_fetch_products_dummyjson query category limit s :
  calls (snd (fetch_products_dummyjson w query category limit s))
  = (calls s ++ [Call_fetch_products_dummyjson query category limit])%list.
Proof.
  unfold fetch_products_dummyjson. apply one_call.
  unfold requests_get_json. repeat silent_step.
Qed.

(** The fan-out asks the catalogue once per category, three products each. *)
Lemma calls_pattern_fan_out categories s :
  calls (snd (pattern_fan_out w categories s))
  = (calls s ++ map (fun category => Call_fetch_products_dummyjson "" category 3)
                    (firstn 2 categories))%list.
Proof.
  unfold pattern_fan_out. generalize (@nil product) as acc. revert s.
  induction (firstn 2 categories) as [|category l IH]; intros s acc; simpl.
  - rewrite app_nil_r. reflexivity.
  - pose proof (calls_fetch_products_dummyjson "" category 3 s) as C.
    destruct (returns_fetch_products_dummyjson w "" category 3 s) as [ps R].
    unfold bind at 1 2.
    destruct (fetch_products_dummyjson w "" category 3 s) as [o s1].
    simpl in R, C. subst o. simpl. rewrite IH, C, <- app_assoc. reflexivity.
Qed.

Lemma time_time_then {A} (k : float -> Py A) s :
  bind (time_time w) k s = k (w_time w (tick s)) (ticked s).
Proof. reflexivity. Qed.

Lemma nonempty_true {A} (l : list A) : l <> [] -> nonempty l = true.
Proof. destruct l; [congruence | reflexivity]. Qed.

End StoreCalls.

(* ================================================================== *)
(** * The claims *)

(** C1. Priority of the local business catalogue: whatever the world, when
    [search_business_products], called by the orchestrator, returns at least
    one product, [neurochat_product_search] returns exactly these products
    with the message of step 1, and the only calls it makes are the one of
    the local business adapter and the one of the analytics sink, under the
    name "Local Business": no later adapter is called. *)
Theorem local_business_priority {lib : PyLib} (w : World) (emotion query : string)
    (s s1 : state) (business_products : list product) :
  search_business_products w emotion query (ticked s) = (Ret business_products, s1) ->
  business_products <> [] ->
  exists s',
    neurochat_product_search w emotion query s
    = (Ret (business_products,
            "🏪 Found " ++ PyStr.of_nat (List.length business_products)
              ++ " products from caring local businesses"), s')
    /\ calls s'
       = (calls s ++
          [ Call_search_business_products emotion query;
            Call_log_recommendation_analytics query emotion "Local Business"
              (List.length business_products)
              (PrimFloat.sub (w_time w (tick s1)) (w_time w (tick s))) ])%list.
Proof.
  intros E NE. unfold neurochat_product_search. rewrite time_time_then.
  unfold step_local_business. rewrite (bind_ret_eq _ _ _ _ _ E).
  rewrite (nonempty_true _ NE).
  destruct (log_attempt_spec w (w_time w (tick s)) emotion query "Local Business"
              (List.length business_products) s1) as (s' & El & Cs & _).
  rewrite (bind_ret_eq _ _ _ _ _ El). exists s'. split; [reflexivity|].
  rewrite Cs. pose proof (calls_search_business_products w emotion query (ticked s)) as C.
  rewrite E in C. simpl in C. rewrite C, <- app_assoc. reflexivity.
Qed.

(** The shop's tea is found at step 1 although every other source answers. *)
Lemma local_business_priority_witness :
  exists s',
    neurochat_product_search (lib := Examples.lib) Examples.online "happy" "tea"
      (Examples.fresh Examples.shop_db)
    = (Ret ([Examples.green_tea], "🏪 Found 1 products from caring local businesses"), s')
    /\ List.length (calls s') = 2%nat.
Proof.
  destruct (local_business_priority (lib := Examples.lib) Examples.online "happy" "tea"
              (Examples.fresh Examples.shop_db)
              (snd (search_business_products (lib := Examples.lib) Examples.online
                      "happy" "tea"
                      (ticked (Examples.fresh Examples.shop_db))))
              [Examples.green_tea]) as (s' & E & C).
  - vm_compute. reflexivity.
  - discriminate.
  - exists s'. split; [exact E | rewrite C; reflexivity].
Defined.

(** C3. Every run of [neurochat_product_search] returns (it never raises),
    under one of the eight names of the chain, and logs exactly one attempt:
    one call of [log_recommendation_analytics] with the query, the emotion,
    the name, a count and the time elapsed between two readings of the clock.
    The count is the number of products returned, except under "Historical
    Pattern" where it is the size of the fan-out before the cut at six. The
    sink stores the attempt as one row, unless its transaction fails. *)
Theorem one_attempt_per_search {lib : PyLib} (w : World) (emotion query : string)
    (s : state) :
  exists products msg s' method n t_end,
    neurochat_product_search w emotion query s = (Ret (products, msg), s')
    /\ In method methods
    /\ (tick s < t_end)%nat
    /\ logged (calls s')
       = (logged (calls s) ++
          [ Call_log_recommendation_analytics query emotion method n
              (PrimFloat.sub (w_time w t_end) (w_time w (tick s))) ])%list
    /\ db s' = db_after_log w (S t_end) query emotion method n
                 (PrimFloat.sub (w_time w t_end) (w_time w (tick s))) (db s)
    /\ (n = List.length products
        \/ (method = "Historical Pattern" /\ List.length products = Nat.min 6 n)).
Proof.
  unfold neurochat_product_search. rewrite time_time_then.
  destruct (step_local_business_attempt w (w_time w (tick s)) emotion query (ticked s))
    as (products & msg & s' & method & n & t_end & E & I & T & L & D & C).
  exists products, msg, s', method, n, t_end. simpl in T.
  repeat split; assumption.
Qed.

(** ** Step 2 and its threshold *)

Section Threshold.

Context {lib : PyLib} (w : World).
Variables (emotion query : string).

Lemma reach_step_2 s s0 :
  search_business_products w emotion query (ticked s) = (Ret [], s0) ->
  neurochat_product_search w emotion query s
  = step_historical_pattern w (w_time w (tick s)) emotion query s0.
Proof.
  intros E. unfold neurochat_product_search. rewrite time_time_then.
  unfold step_local_business. rewrite (bind_ret_eq _ _ _ _ _ E). reflexivity.
Qed.

Lemma below_threshold start_time s0 hs s1 :
  get_successful_recommendations w query emotion s0 = (Ret (Some hs), s1) ->
  success_count hs <= 2 ->
  step_historical_pattern w start_time emotion query s0
  = step_semantic_ai w start_time emotion query s1.
Proof.
  intros E H. unfold step_historical_pattern. rewrite (bind_ret_eq _ _ _ _ _ E).
  replace (2 <? success_count hs) with false by (symmetry; apply Z.ltb_ge; assumption).
  reflexivity.
Qed.

Lemma above_threshold_hit start_time s0 hs s1 fan s2 :
  get_successful_recommendations w query emotion s0 = (Ret (Some hs), s1) ->
  2 < success_count hs ->
  pattern_fan_out w (categories hs) s1 = (Ret fan, s2) ->
  fan <> [] ->
  exists s',
    step_historical_pattern w start_time emotion query s0
    = (Ret (firstn 6 fan, pattern_message hs), s')
    /\ calls s'
       = (calls s2 ++
          [ Call_log_recommendation_analytics query emotion "Historical Pattern"
              (List.length fan) (PrimFloat.sub (w_time w (tick s2)) start_time) ])%list.
Proof.
  intros E H F NE. unfold step_historical_pattern. rewrite (bind_ret_eq _ _ _ _ _ E).
  replace (2 <? success_count hs) with true by (symmetry; apply Z.ltb_lt; assumption).
  rewrite (bind_ret_eq _ _ _ _ _ F), (nonempty_true _ NE).
  destruct (log_attempt_spec w start_time emotion query "Historical Pattern"
              (List.length fan) s2) as (s' & El & Cs & _).
  rewrite (bind_ret_eq _ _ _ _ _ El). exists s'. split; [reflexivity | exact Cs].
Qed.

Lemma above_threshold_miss start_time s0 hs s1 s2 :
  get_successful_recommendations w query emotion s0 = (Ret (Some hs), s1) ->
  2 < success_count hs ->
  pattern_fan_out w (categories hs) s1 = (Ret [], s2) ->
  step_historical_pattern w start_time emotion query s0
  = step_semantic_ai w start_time emotion query s2.
Proof.
  intros E H F. unfold step_historical_pattern. rewrite (bind_ret_eq _ _ _ _ _ E).
  replace (2 <? success_count hs) with true by (symmetry; apply Z.ltb_lt; assumption).
  rewrite (bind_ret_eq _ _ _ _ _ F). reflexivity.
Qed.

Lemma not_historical method : In method methods_from_semantic -> method <> "Historical Pattern".
Proof.
  unfold methods_from_semantic. simpl.
  intros [H|[H|[H|[H|[H|[H|[]]]]]]]; subst; discriminate.
Qed.

(** A run is either logged under a name other than "Historical Pattern", or
    went through every gate of step 2. *)
Lemma step_local_business_cases s :
  attempt_recorded w (w_time w (tick s)) query emotion
    ("Local Business" :: methods_from_semantic) (ticked s)
    (neurochat_product_search w emotion query s)
  \/ exists s0 hs s1 fan s2 s',
       search_business_products w emotion query (ticked s) = (Ret [], s0)
       /\ get_successful_recommendations w query emotion s0 = (Ret (Some hs), s1)
       /\ 2 < success_count hs
       /\ pattern_fan_out w (categories hs) s1 = (Ret fan, s2)
       /\ fan <> []
       /\ neurochat_product_search w emotion query s
          = (Ret (firstn 6 fan, pattern_message hs), s').
Proof.
  set (start_time := w_time w (tick s)).
  assert (forall s1, quiet (ticked s) s1 ->
            attempt_recorded w start_time query emotion
              ("Local Business" :: methods_from_semantic) (ticked s)
              (step_semantic_ai w start_time emotion query s1)) as Next.
  { intros s1 Q. apply attempt_after_quiet with s1; [assumption|].
    eapply attempt_weaken; [| apply step_semantic_ai_attempt]. apply incl_tl, incl_refl. }
  destruct (run_quietly _ (returns_search_business_products w emotion query)
              (keeps_search_business_products w emotion query) (ticked s))
    as (ps & s0 & E0 & Q0).
  destruct ps as [|p ps].
  2:{ left. unfold neurochat_product_search. rewrite time_time_then.
      unfold step_local_business. rewrite (bind_ret_eq _ _ _ _ _ E0).
      apply attempt_after_quiet with s0; [assumption|].
      apply log_then_return; simpl; auto. }
  rewrite (reach_step_2 _ _ E0).
  destruct (run_quietly _ (returns_get_successful_recommendations w query emotion)
              (keeps_get_successful_recommendations w query emotion) s0)
    as (h & s1 & E1 & Q1).
  assert (quiet (ticked s) s1) as Q01 by (eauto using quiet_trans).
  destruct h as [hs|].
  2:{ left. unfold step_historical_pattern. rewrite (bind_ret_eq _ _ _ _ _ E1).
      apply Next. assumption. }
  destruct (Z.le_gt_cases (success_count hs) 2) as [Hle|Hgt].
  { left. rewrite (below_threshold _ _ _ _ E1 Hle). apply Next. assumption. }
  destruct (run_quietly _ (returns_pattern_fan_out w (categories hs))
              (keeps_pattern_fan_out w (categories hs)) s1) as (fan & s2 & E2 & Q2).
  destruct fan as [|x fan].
  { left. rewrite (above_threshold_miss _ _ _ _ _ E1 Hgt E2). apply Next.
    eauto using quiet_trans. }
  right.
  destruct (above_threshold_hit start_time _ _ _ _ _ E1 Hgt E2) as (s' & E & _);
    [discriminate|].
  exists s0, hs, s1, (x :: fan), s2, s'. repeat split; try assumption. discriminate.
Qed.

End Threshold.

(** C2. The threshold of step 2. (1) When the pattern store returns a row whose
    success count is at most 2, the search goes on with step 3 from the state
    in which the lookup left it: no catalogue was asked, and the attempt is
    logged under another name than "Historical Pattern". (2) When the count
    is above 2, the fan-out (the catalogue asked for at most three products of
    each of the first two categories) decides: not empty, its first six
    products are returned and the attempt is logged as "Historical Pattern";
    empty, the search goes on with step 3. (3) A search logged as "Historical
    Pattern" went through all of this: no local product, a row counting more
    than 2, a fan-out that is not empty and whose first six products are the
    result. (4) The fan-out calls the catalogue for the first two categories
    of the row and for nothing else, asking three products of each. *)
Theorem historical_pattern_threshold {lib : PyLib} (w : World) (emotion query : string)
    (s : state) :
  (forall s0 hs s1,
      search_business_products w emotion query (ticked s) = (Ret [], s0) ->
      get_successful_recommendations w query emotion s0 = (Ret (Some hs), s1) ->
      success_count hs <= 2 ->
      neurochat_product_search w emotion query s
      = step_semantic_ai w (w_time w (tick s)) emotion query s1
      /\ calls s1 = (calls s ++ [ Call_search_business_products emotion query;
                                  Call_get_successful_recommendations query emotion ])%list
      /\ exists products msg s' method n rt,
           neurochat_product_search w emotion query s = (Ret (products, msg), s')
           /\ logged (calls s')
              = (logged (calls s) ++
                 [Call_log_recommendation_analytics query emotion method n rt])%list
           /\ method <> "Historical Pattern")
  /\ (forall s0 hs s1 fan s2,
      search_business_products w emotion query (ticked s) = (Ret [], s0) ->
      get_successful_recommendations w query emotion s0 = (Ret (Some hs), s1) ->
      2 < success_count hs ->
      pattern_fan_out w (categories hs) s1 = (Ret fan, s2) ->
      (fan <> [] ->
       exists s',
         neurochat_product_search w emotion query s
         = (Ret (firstn 6 fan, pattern_message hs), s')
         /\ logged (calls s')
            = (logged (calls s) ++
               [Call_log_recommendation_analytics query emotion "Historical Pattern"
                  (List.length fan)
                  (PrimFloat.sub (w_time w (tick s2)) (w_time w (tick s)))])%list)
      /\ (fan = [] ->
          neurochat_product_search w emotion query s
          = step_semantic_ai w (w_time w (tick s)) emotion query s2))
  /\ (forall products msg s' n rt,
      neurochat_product_search w emotion query s = (Ret (products, msg), s') ->
      logged (calls s')
      = (logged (calls s) ++
         [Call_log_recommendation_analytics query emotion "Historical Pattern" n rt])%list ->
      exists s0 hs s1 fan s2,
        search_business_products w emotion query (ticked s) = (Ret [], s0)
        /\ get_successful_recommendations w query emotion s0 = (Ret (Some hs), s1)
        /\ 2 < success_count hs
        /\ pattern_fan_out w (categories hs) s1 = (Ret fan, s2)
        /\ fan <> []
        /\ products = firstn 6 fan
        /\ (List.length products <= 6)%nat)
  /\ (forall categories s1,
      calls (snd (pattern_fan_out w categories s1))
      = (calls s1 ++ map (fun category => Call_fetch_products_dummyjson "" category 3)
                       (firstn 2 categories))%list).
Proof.
  split; [| split; [| split; [| apply calls_pattern_fan_out]]].
  - intros s0 hs s1 E0 E1 Hle.
    rewrite (reach_step_2 w _ _ _ _ E0), (below_threshold w _ _ _ _ _ _ E1 Hle).
    split; [reflexivity|]. split.
    + pose proof (calls_get_successful_recommendations w query emotion s0) as C1.
      pose proof (calls_search_business_products w emotion query (ticked s)) as C0.
      rewrite E1 in C1. rewrite E0 in C0. simpl in C0, C1.
      rewrite C1, C0, <- app_assoc. reflexivity.
    + destruct (step_semantic_ai_attempt w (w_time w (tick s)) emotion query s1)
        as (products & msg & s' & method & n & t_end & E & I & _ & L & _).
      exists products, msg, s', method, n,
        (PrimFloat.sub (w_time w t_end) (w_time w (tick s))).
      split; [assumption|]. split; [| apply not_historical; assumption].
      rewrite L. f_equal.
      pose proof (keeps_get_successful_recommendations w query emotion s0) as Q1.
      pose proof (keeps_search_business_products w emotion query (ticked s)) as Q0.
      rewrite E1 in Q1. rewrite E0 in Q0. simpl in Q0, Q1.
      destruct Q0 as (_ & L0 & _). destruct Q1 as (_ & L1 & _).
      rewrite L1, L0. reflexivity.
  - intros s0 hs s1 fan s2 E0 E1 Hgt E2. rewrite (reach_step_2 w _ _ _ _ E0). split.
    + intros NE.
      destruct (above_threshold_hit w emotion query (w_time w (tick s)) _ _ _ _ _
                  E1 Hgt E2 NE) as (s' & E & C).
      exists s'. split; [assumption|].
      rewrite C, logged_app. simpl. f_equal.
      pose proof (keeps_pattern_fan_out w (categories hs) s1) as Q2.
      pose proof (keeps_get_successful_recommendations w query emotion s0) as Q1.
      pose proof (keeps_search_business_products w emotion query (ticked s)) as Q0.
      rewrite E2 in Q2. rewrite E1 in Q1. rewrite E0 in Q0. simpl in Q0, Q1, Q2.
      destruct Q0 as (_ & L0 & _). destruct Q1 as (_ & L1 & _). destruct Q2 as (_ & L2 & _).
      rewrite L2, L1, L0. reflexivity.
    + intros ->. apply (above_threshold_miss w _ _ _ _ _ _ _ E1 Hgt E2).
  - intros products msg s' n rt E L.
    destruct (step_local_business_cases w emotion query s)
      as [(products' & msg' & s'' & method & n' & t_end & E' & I & _ & L' & _)
         | (s0 & hs & s1 & fan & s2 & s'' & E0 & E1 & Hgt & E2 & NE & E')].
    + exfalso. rewrite E in E'. injection E' as -> -> ->.
      simpl in L'. rewrite L in L'. apply app_inj_tail in L' as [_ L'].
      injection L' as <- _ _. destruct I as [I|I]; [discriminate|].
      apply not_historical in I. congruence.
    + rewrite E in E'. assert (products = firstn 6 fan) as -> by congruence.
      exists s0, hs, s1, fan, s2. repeat split; try assumption.
      rewrite length_firstn. apply Nat.le_min_l.
Qed.

(** The threshold at work: the same query on a store whose pattern counts 2,
    then 3, with a catalogue that always answers. *)
Lemma historical_pattern_threshold_witness :
  (exists products msg s' method n rt,
      neurochat_product_search (lib := Examples.lib) Examples.online "happy" "I need a gift"
        (Examples.fresh (Examples.pattern_db 2)) = (Ret (products, msg), s')
      /\ logged (calls s')
         = [Call_log_recommendation_analytics "I need a gift" "happy" method n rt]
      /\ method <> "Historical Pattern")
  /\ (exists fan s',
         List.length fan = 6%nat
         /\ neurochat_product_search (lib := Examples.lib) Examples.online "happy"
              "I need a gift" (Examples.fresh (Examples.pattern_db 3))
            = (Ret (firstn 6 fan, "📊 Using proven successful pattern (used 3 times)"), s')).
Proof.
  split.
  - destruct (historical_pattern_threshold (lib := Examples.lib) Examples.online
                "happy" "I need a gift" (Examples.fresh (Examples.pattern_db 2)))
      as (Below & _).
    set (s0 := snd (search_business_products (lib := Examples.lib) Examples.online
                      "happy" "I need a gift"
                      (ticked (Examples.fresh (Examples.pattern_db 2))))).
    set (s1 := snd (get_successful_recommendations (lib := Examples.lib) Examples.online
                      "I need a gift" "happy" s0)).
    destruct (Below s0 {| categories := ["furniture"; "beauty"]; success_count := 2 |} s1)
      as (_ & _ & H).
    + vm_compute. reflexivity.
    + vm_compute. reflexivity.
    + simpl. lia.
    + exact H.
  - destruct (historical_pattern_threshold (lib := Examples.lib) Examples.online
                "happy" "I need a gift" (Examples.fresh (Examples.pattern_db 3)))
      as (_ & Above & _).
    set (s0 := snd (search_business_products (lib := Examples.lib) Examples.online
                      "happy" "I need a gift"
                      (ticked (Examples.fresh (Examples.pattern_db 3))))).
    set (s1 := snd (get_successful_recommendations (lib := Examples.lib) Examples.online
                      "I need a gift" "happy" s0)).
    set (run := pattern_fan_out (lib := Examples.lib) Examples.online
                  ["furniture"; "beauty"] s1).
    set (fan := match fst run with Ret l => l | Exn => [] end).
    destruct (Above s0 {| categories := ["furniture"; "beauty"]; success_count := 3 |}
                s1 fan (snd run)) as (Hit & _).
    + vm_compute. reflexivity.
    + vm_compute. reflexivity.
    + simpl. lia.
    + vm_compute. reflexivity.
    + destruct Hit as (s' & E & _); [vm_compute; discriminate|].
      exists fan, s'. split; [vm_compute; reflexivity | exact E].
Defined.

(** ** The order of floats *)

Lemma SFcompare_antisym x y : SFcompare y x = option_map CompOpp (SFcompare x y).
Proof.
  destruct x as [s1|s1| |s1 m1 e1], y as [s2|s2| |s2 m2 e2]; simpl;
    try destruct s1; try destruct s2; try reflexivity.
  - rewrite (Z.compare_antisym e1 e2). destruct (e1 ?= e2); simpl; try reflexivity.
    rewrite (Pos.compare_cont_antisym m1 m2 Eq). simpl.
    destruct (Pos.compare_cont Eq m2 m1); reflexivity.
  - rewrite (Z.compare_antisym e1 e2). destruct (e1 ?= e2); simpl; try reflexivity.
    rewrite (Pos.compare_cont_antisym m1 m2 Eq). simpl.
    destruct (Pos.compare_cont Eq m2 m1); reflexivity.
Qed.

Lemma fle_not_flt x y : (x <=? y)%float = true -> (y <? x)%float = false.
Proof.
  rewrite ltb_spec, leb_spec. unfold SFltb, SFleb.
  rewrite (SFcompare_antisym (Prim2SF x) (Prim2SF y)).
  destruct (SFcompare (Prim2SF x) (Prim2SF y)) as [[]|]; simpl; congruence.
Qed.

Lemma SFcompare_none x y : SFcompare x y = None -> is_nan_sf x = true \/ is_nan_sf y = true.
Proof.
  destruct x as [s1|s1| |s1 m1 e1], y as [s2|s2| |s2 m2 e2]; simpl; auto; discriminate.
Qed.

(** [x] is below something, so it is a number; when [y] is one too they
    compare. *)
Lemma flt_total x y z :
  (x <? z)%float = true -> is_nan_sf (Prim2SF y) = false ->
  (x <? y)%float = false -> (y <=? x)%float = true.
Proof.
  rewrite !ltb_spec, leb_spec. unfold SFltb, SFleb. intros Hz Hy.
  rewrite (SFcompare_antisym (Prim2SF x) (Prim2SF y)).
  destruct (SFcompare (Prim2SF x) (Prim2SF y)) as [[]|] eqn:E; simpl; try congruence.
  apply SFcompare_none in E as [E|E]; [|congruence].
  destruct (Prim2SF x); simpl in *; discriminate.
Qed.

Lemma below_negative_not_above_positive p c d :
  negative_sf (Prim2SF c) = true -> positive_sf (Prim2SF d) = true ->
  (p <? c)%float = true -> (d <? p)%float = false.
Proof.
  rewrite !ltb_spec. unfold SFltb.
  destruct (Prim2SF c) as [|?| |[] mc ec]; try discriminate.
  destruct (Prim2SF d) as [|?| |[] md ed]; try discriminate.
  intros _ _.
  destruct (Prim2SF p) as [s|s| |s m e]; simpl; try destruct s;
    try reflexivity; try discriminate.
Qed.

Lemma minus_01_negative : negative_sf (Prim2SF (-0.1)%float) = true.
Proof. vm_compute. reflexivity. Qed.

Lemma minus_03_negative : negative_sf (Prim2SF (-0.3)%float) = true.
Proof. vm_compute. reflexivity. Qed.

Lemma plus_03_positive : positive_sf (Prim2SF 0.3%float) = true.
Proof. vm_compute. reflexivity. Qed.

Lemma minus_03_number : is_nan_sf (Prim2SF (-0.3)%float) = false.
Proof. vm_compute. reflexivity. Qed.

Lemma not_positive_below_minus_03 p :
  (p <? -0.3)%float = true -> float_gt p 0.3 = false.
Proof.
  apply below_negative_not_above_positive;
    [apply minus_03_negative | apply plus_03_positive].
Qed.

Lemma not_positive_below_minus_01 p :
  (p <? -0.1)%float = true -> float_gt p 0.3 = false.
Proof.
  apply below_negative_not_above_positive;
    [apply minus_01_negative | apply plus_03_positive].
Qed.

(** Below -0.1 and not below -0.3 is the band from -0.3 on. *)
Lemma band_from_minus_03 p :
  (p <? -0.1)%float = true -> (p <? -0.3)%float = false -> (-0.3 <=? p)%float = true.
Proof. intros H1 H3. apply (flt_total p _ _ H1 minus_03_number H3). Qed.

(** ** The emotion classifier *)

Lemma detect_emotion_is_first_match {lib : PyLib} scorer text :
  detect_emotion scorer text = classifyEmotion_spec scorer text.
Proof.
  unfold detect_emotion, classifyEmotion_spec.
  destruct (scorer text) as [blob|]; [|reflexivity].
  cbv zeta. set (p := polarity blob). set (t := str_lower text).
  unfold emotion_rules, first_match, rule_applies; cbn [rule_polarity rule_lexicon rule_label rule_glyph].
  fold t.
  destruct (float_gt p 0.3) eqn:G; cbn [andb].
  { destruct (PyStr.any_in excited_words t); reflexivity. }
  destruct (p <? -0.3)%float eqn:L; cbn [andb].
  { destruct (PyStr.any_in stress_words t); [reflexivity|].
    destruct (PyStr.any_in frustration_words t); [reflexivity|].
    destruct (PyStr.any_in fatigue_words t); reflexivity. }
  destruct (p <? -0.1)%float eqn:C.
  - rewrite (band_from_minus_03 p C L). reflexivity.
  - rewrite andb_false_r. reflexivity.
Qed.

(** C4. [detect_emotion] is a function of the text and of the scorer's
    answer, equal to the ordered rule of the specification (first match wins),
    with strict thresholds: (1) it is the first-match classifier; (2) above
    0.3, strictly, the label is excited or happy; (3) below -0.3, strictly, it
    is stressed, frustrated, tired or sad; (4) from -0.3 on and below -0.1 it
    is confused; in these three cases the confidence is the absolute
    polarity; (5) otherwise the answer is neutral with confidence 0.3;
    (6) polarity exactly 0.3 is neutral and exactly -0.3 is confused; (7) a
    scorer that fails gives neutral with confidence 0.3; (8) the confidence is
    the absolute polarity for every label but neutral; (9) scorers that agree
    on the text give the same answer. *)
Theorem detect_emotion_ordered_rule {lib : PyLib} (scorer : string -> option sentiment)
    (text : string) :
  detect_emotion scorer text = classifyEmotion_spec scorer text
  /\ (forall blob, scorer text = Some blob ->
      let p := polarity blob in
      let r := detect_emotion scorer text in
      (float_gt p 0.3 = true ->
       In (label_of r) ["excited"; "happy"] /\ confidence_of r = PrimFloat.abs p)
      /\ ((p <? -0.3)%float = true ->
          In (label_of r) ["stressed"; "frustrated"; "tired"; "sad"]
          /\ confidence_of r = PrimFloat.abs p)
      /\ ((-0.3 <=? p)%float = true -> (p <? -0.1)%float = true ->
          r = ("confused", PrimFloat.abs p, "🤔"))
      /\ (float_gt p 0.3 = false -> (p <? -0.3)%float = false ->
          ((-0.3 <=? p) && (p <? -0.1))%float = false ->
          r = ("neutral", 0.3%float, "😐"))
      /\ (p = 0.3%float -> r = ("neutral", 0.3%float, "😐"))
      /\ (p = (-0.3)%float -> r = ("confused", PrimFloat.abs (-0.3), "🤔"))
      /\ (label_of r <> "neutral" -> confidence_of r = PrimFloat.abs p)
      /\ (label_of r = "neutral" -> confidence_of r = 0.3%float))
  /\ (scorer text = None -> detect_emotion scorer text = ("neutral", 0.3%float, "😐"))
  /\ (forall scorer' : string -> option sentiment,
      scorer' text = scorer text -> detect_emotion scorer' text = detect_emotion scorer text).
Proof.
  split; [apply detect_emotion_is_first_match|].
  split; [| split].
  - intros blob Hs p r.
    assert (r = detect_emotion scorer text) as Hr by reflexivity.
    unfold detect_emotion in Hr. rewrite Hs in Hr. cbv zeta in Hr. fold p in Hr.
    clearbody r. set (t := str_lower text) in Hr.
    destruct (float_gt p 0.3) eqn:G.
    { (* above 0.3 *)
      assert ((p <? -0.3)%float = false) as L.
      { destruct (p <? -0.3)%float eqn:L; [|reflexivity].
        apply not_positive_below_minus_03 in L. congruence. }
      assert ((p <? -0.1)%float = false) as C.
      { destruct (p <? -0.1)%float eqn:C; [|reflexivity].
        apply not_positive_below_minus_01 in C. congruence. }
      assert (p <> 0.3%float) as N3 by (intros ->; vm_compute in G; discriminate).
      assert (p <> (-0.3)%float) as N3' by (intros ->; vm_compute in G; discriminate).
      destruct (PyStr.any_in excited_words t); subst r; unfold label_of, confidence_of;
        cbn [fst snd];
        (repeat split; intros; try congruence; try discriminate; simpl; auto). }
    destruct (p <? -0.3)%float eqn:L.
    { (* below -0.3 *)
      assert ((-0.3 <=? p)%float = false) as B.
      { destruct (-0.3 <=? p)%float eqn:B; [|reflexivity].
        apply fle_not_flt in B. congruence. }
      assert (p <> 0.3%float) as N3 by (intros ->; vm_compute in L; discriminate).
      assert (p <> (-0.3)%float) as N3' by (intros ->; vm_compute in L; discriminate).
      destruct (PyStr.any_in stress_words t);
        [| destruct (PyStr.any_in frustration_words t);
           [| destruct (PyStr.any_in fatigue_words t)]];
        subst r; unfold label_of, confidence_of; cbn [fst snd];
        (repeat split; intros; try congruence; try discriminate; simpl; auto 6). }
    destruct (p <? -0.1)%float eqn:C.
    { (* the band *)
      pose proof (band_from_minus_03 p C L) as B.
      assert (p <> 0.3%float) as N3 by (intros ->; vm_compute in C; discriminate).
      subst r; unfold label_of, confidence_of; cbn [fst snd].
      repeat split; intros; try congruence; try discriminate.
      rewrite B in *. discriminate. }
    (* otherwise *)
    assert (p <> (-0.3)%float) as N3' by (intros ->; vm_compute in C; discriminate).
    subst r; unfold label_of, confidence_of; cbn [fst snd].
    repeat split; intros; try congruence; try discriminate.
  - intros Hs. unfold detect_emotion. rewrite Hs. reflexivity.
  - intros scorer' H. unfold detect_emotion. rewrite H. reflexivity.
Qed.

(** The scenario of the specification: a birthday gift, scored 0.5. *)
Lemma detect_emotion_ordered_rule_witness :
  let scorer := fun _ : string => Some {| polarity := 0.5%float; subjectivity := 0.5%float |} in
  let r := detect_emotion (lib := Examples.lib) scorer "I need a birthday gift" in
  float_gt 0.5%float 0.3 = true
  /\ In (label_of r) ["excited"; "happy"]
  /\ confidence_of r = PrimFloat.abs 0.5
  /\ r = ("happy", 0.5%float, "😊").
Proof.
  intros scorer r.
  destruct (detect_emotion_ordered_rule (lib := Examples.lib) scorer
              "I need a birthday gift") as (_ & Cases & _).
  destruct (Cases {| polarity := 0.5%float; subjectivity := 0.5%float |} eq_refl)
    as (Above & _).
  destruct Above as (Label & Confidence); [vm_compute; reflexivity|].
  split; [vm_compute; reflexivity|].
  split; [exact Label|]. split; [exact Confidence|].
  vm_compute. reflexivity.
Defined.

(** ** The pattern store and the feedback recorder *)

Section Stores.

Context {lib : PyLib} (w : World).

Lemma save_successful_pattern_run query emotion categories s :
  save_successful_pattern w query emotion categories s
  = (Ret tt,
     if w_db_fault w (tick s)
     then {| db := db s; tick := S (tick s);
             calls := (calls s ++ [Call_save_successful_pattern query emotion categories])%list |}
     else {| db := set_successful_patterns
                     (pattern_recorded query emotion categories
                        (dt_isoformat (w_now w (S (tick s)))) (successful_patterns (db s)))
                     (db s);
             tick := S (S (tick s));
             calls := (calls s ++ [Call_save_successful_pattern query emotion categories])%list |}).
Proof.
  unfold save_successful_pattern, pattern_recorded, sqlite3_connect, datetime_now, bind,
    try_except, external, record_call, modify_db, get_db, ret, raise.
  simpl. destruct (w_db_fault w (tick s)); simpl; [reflexivity|].
  destruct (sql_select_pattern _ _ _ _); reflexivity.
Qed.

Lemma save_successful_pattern_pair query emotion categories s :
  save_successful_pattern w query emotion categories s
  = (Ret tt, snd (save_successful_pattern w query emotion categories s)).
Proof. rewrite save_successful_pattern_run. reflexivity. Qed.

Lemma save_product_feedback_run product_name user_query feedback_type source s :
  save_product_feedback w product_name user_query feedback_type source s
  = if w_db_fault w (tick s) then (Ret false, ticked s)
    else
      let s1 := feedback_recorded w product_name user_query feedback_type source s in
      (Ret true,
       if String.eqb feedback_type "perfect_match"
       then snd (save_successful_pattern w user_query
                   (label_of (detect_emotion (w_sentiment w) user_query)) ["general"] s1)
       else s1).
Proof.
  unfold save_product_feedback. unfold try_except, bind at 1 2 3.
  unfold sqlite3_connect, datetime_now, external, modify_db, bind, ret, raise.
  simpl. destruct (w_db_fault w (tick s)); [reflexivity|]. cbv zeta.
  unfold feedback_recorded.
  destruct (String.eqb feedback_type "perfect_match"); [|reflexivity].
  unfold label_of.
  destruct (detect_emotion (w_sentiment w) user_query) as [[emotion confidence] glyph].
  simpl. rewrite save_successful_pattern_pair. reflexivity.
Qed.

End Stores.

(** *** Rows and keys *)

Lemma find_none_of_filter_nil {A} (f : A -> bool) (l : list A) :
  filter f l = [] -> find f l = None.
Proof.
  induction l as [|x l IH]; simpl; [reflexivity|].
  destruct (f x); [discriminate | exact IH].
Qed.

Lemma find_app_none {A} (f : A -> bool) (l l' : list A) :
  find f l = None -> find f (l ++ l') = find f l'.
Proof.
  induction l as [|x l IH]; simpl; [reflexivity|].
  destruct (f x); [discriminate | exact IH].
Qed.

Lemma next_rowid_above ids i : In i ids -> i < next_rowid ids.
Proof.
  unfold next_rowid. induction ids as [|j ids IH]; simpl; [contradiction|].
  intros [->|H]; [lia | specialize (IH H); lia].
Qed.

Lemma update_other_rows id now t :
  (forall r, In r t -> sp_id r <> id) -> sql_update_pattern id now t = t.
Proof.
  intros H. unfold sql_update_pattern. rewrite <- (map_id t) at 2.
  apply map_ext_in. intros r Hr. apply H in Hr.
  destruct (sp_id r =? id) eqn:E; [apply Z.eqb_eq in E; contradiction | reflexivity].
Qed.

Lemma sql_update_pattern_app id now t t' :
  sql_update_pattern id now (t ++ t')
  = (sql_update_pattern id now t ++ sql_update_pattern id now t')%list.
Proof. unfold sql_update_pattern. apply map_app. Qed.

Lemma has_key_row_of {lib : PyLib} id query emotion categories n now :
  has_key (pattern_of_query query) emotion (categories_str_of categories)
    (pattern_row_of id query emotion categories n now) = true.
Proof. unfold has_key, pattern_row_of. simpl. rewrite !String.eqb_refl. reflexivity. Qed.

(** C5. Two calls of [save_successful_pattern] in a row, with the same
    arguments, on a store without a row for their key (the first three
    lowercased words of the query, the emotion, the joined categories), both
    transactions going through: the first call appends one row counting 1,
    the second increments this row and sets its time anew, so that the table
    is the old one followed by a single row that counts 2, and this row is the
    only one of the key. *)
Theorem record_success_twice {lib : PyLib} (w : World) (query emotion : string)
    (categories : list string) (s : state) :
  let t := successful_patterns (db s) in
  let row := pattern_row_of (next_rowid (map sp_id t)) query emotion categories in
  let s1 := snd (save_successful_pattern w query emotion categories s) in
  let s2 := snd (save_successful_pattern w query emotion categories s1) in
  key_rows (pattern_of_query query) emotion (categories_str_of categories) t = [] ->
  w_db_fault w (tick s) = false ->
  w_db_fault w (2 + tick s) = false ->
  successful_patterns (db s1) = (t ++ [row 1 (dt_isoformat (w_now w (1 + tick s)))])%list
  /\ successful_patterns (db s2) = (t ++ [row 2 (dt_isoformat (w_now w (3 + tick s)))])%list
  /\ key_rows (pattern_of_query query) emotion (categories_str_of categories)
       (successful_patterns (db s2))
     = [row 2 (dt_isoformat (w_now w (3 + tick s)))].
Proof.
  intros t row s1 s2 Hkey F1 F2.
  assert (sql_select_pattern (pattern_of_query query) emotion
            (categories_str_of categories) t = None) as Hsel
    by (apply find_none_of_filter_nil; exact Hkey).
  assert (successful_patterns (db s1)
          = (t ++ [row 1 (dt_isoformat (w_now w (1 + tick s)))])%list) as T1.
  { subst s1. rewrite save_successful_pattern_run, F1. simpl.
    unfold pattern_recorded. fold t. rewrite Hsel. reflexivity. }
  assert (tick s1 = (2 + tick s)%nat) as K1.
  { subst s1. rewrite save_successful_pattern_run, F1. reflexivity. }
  assert (successful_patterns (db s2)
          = (t ++ [row 2 (dt_isoformat (w_now w (3 + tick s)))])%list) as T2.
  { subst s2. rewrite save_successful_pattern_run, K1, F2. simpl.
    rewrite T1. unfold pattern_recorded, sql_select_pattern.
    rewrite (find_app_none _ _ _ Hsel). simpl.
    unfold row at 1. rewrite has_key_row_of.
    rewrite sql_update_pattern_app, update_other_rows.
    - unfold sql_update_pattern. simpl. rewrite Z.eqb_refl. reflexivity.
    - intros r Hr. simpl.
      pose proof (next_rowid_above (map sp_id t) (sp_id r) (in_map sp_id t r Hr)). lia. }
  split; [exact T1|]. split; [exact T2|].
  rewrite T2. unfold key_rows in *. rewrite filter_app, Hkey. simpl.
  unfold row. rewrite has_key_row_of. reflexivity.
Qed.

(** Two successes for a gift query on an empty store. *)
Lemma record_success_twice_witness :
  let save :=
    save_successful_pattern (lib := Examples.lib) Examples.online "I need a gift" "happy"
      ["general"] in
  let s1 := snd (save (Examples.fresh Examples.empty_db)) in
  let s2 := snd (save s1) in
  successful_patterns (db s2)
  = [ {| sp_id := 1; sp_query_pattern := "i need a"; sp_emotion := "happy";
         sp_successful_categories := "general"; sp_success_count := 2;
         sp_last_success := "2024-01-01T00:00:13" |} ].
Proof.
  intros save s1 s2.
  destruct (record_success_twice (lib := Examples.lib) Examples.online "I need a gift" "happy"
              ["general"] (Examples.fresh Examples.empty_db)) as (_ & T2 & _).
  - reflexivity.
  - reflexivity.
  - reflexivity.
  - exact T2.
Defined.

Lemma save_successful_pattern_keeps_feedback {lib : PyLib} (w : World) query emotion categories s :
  product_feedback (db (snd (save_successful_pattern w query emotion categories s)))
  = product_feedback (db s).
Proof.
  rewrite save_successful_pattern_run. simpl.
  destruct (w_db_fault w (tick s)); reflexivity.
Qed.

(** C7. Accepted feedback. Whatever the world, the only call that
    [save_product_feedback] makes for a "perfect_match" is one call of
    [save_successful_pattern], with the query, the emotion that
    [detect_emotion] gives for the query, and the categories ["general"],
    whatever the product and its source; it is made exactly when the feedback
    row was stored. When the function reports success, the feedback row was
    appended first, the pattern store was called in the state so obtained,
    and the row is still there. The function reports success unless its
    transaction failed, in which case nothing was written. *)
Theorem accepted_feedback_records_general {lib : PyLib} (w : World)
    (product_name user_query source : string) (s : state) :
  let emotion := label_of (detect_emotion (w_sentiment w) user_query) in
  let r := save_product_feedback w product_name user_query "perfect_match" source s in
  let s1 := feedback_recorded w product_name user_query "perfect_match" source s in
  calls (snd r)
  = (calls s ++
     if w_db_fault w (tick s) then []
     else [Call_save_successful_pattern user_query emotion ["general"]])%list
  /\ (fst r = Ret true ->
      product_feedback (db s1)
      = sql_insert_feedback product_name user_query "perfect_match" source
          (dt_isoformat (w_now w (S (tick s)))) (product_feedback (db s))
      /\ snd r = snd (save_successful_pattern w user_query emotion ["general"] s1)
      /\ product_feedback (db (snd r)) = product_feedback (db s1))
  /\ (fst r = Ret true
      \/ (fst r = Ret false /\ w_db_fault w (tick s) = true /\ db (snd r) = db s)).
Proof.
  intros emotion r s1. subst r. rewrite save_product_feedback_run.
  destruct (w_db_fault w (tick s)) eqn:F.
  - simpl. rewrite app_nil_r. split; [reflexivity|].
    split; [discriminate | right; auto].
  - cbv zeta. fold s1 emotion. simpl.
    split; [| split; [| left; reflexivity]].
    + rewrite calls_save_successful_pattern. reflexivity.
    + intros _. split; [reflexivity|]. split; [reflexivity|].
      apply save_successful_pattern_keeps_feedback.
Qed.

(** A desk is accepted for a gift query. *)
Lemma accepted_feedback_records_general_witness :
  let r := save_product_feedback (lib := Examples.lib) Examples.online "Desk" "I need a gift"
             "perfect_match" "Semantic AI Match" (Examples.fresh Examples.empty_db) in
  fst r = Ret true
  /\ calls (snd r) = [Call_save_successful_pattern "I need a gift" "happy" ["general"]]
  /\ List.length (product_feedback (db (snd r))) = 1%nat.
Proof.
  intros r.
  destruct (accepted_feedback_records_general (lib := Examples.lib) Examples.online
              "Desk" "I need a gift" "Semantic AI Match" (Examples.fresh Examples.empty_db))
    as (C & Ok & _).
  destruct Ok as (_ & _ & Fb); [vm_compute; reflexivity|].
  split; [vm_compute; reflexivity|]. split; [exact C|].
  subst r. rewrite Fb. reflexivity.
Defined.

(** C10. Feedback that is not "perfect_match": the function makes no call,
    leaves the pattern store, the analytics and the catalogue of the local
    businesses as they were, and appends one row to the feedback log, or
    nothing at all when its transaction fails. *)
Theorem other_feedback_keeps_patterns {lib : PyLib} (w : World)
    (product_name user_query feedback_type source : string) (s : state) :
  feedback_type <> "perfect_match" ->
  let r := save_product_feedback w product_name user_query feedback_type source s in
  successful_patterns (db (snd r)) = successful_patterns (db s)
  /\ calls (snd r) = calls s
  /\ recommendation_analytics (db (snd r)) = recommendation_analytics (db s)
  /\ businesses (db (snd r)) = businesses (db s)
  /\ business_products (db (snd r)) = business_products (db s)
  /\ (if w_db_fault w (tick s)
      then fst r = Ret false /\ product_feedback (db (snd r)) = product_feedback (db s)
      else fst r = Ret true
           /\ product_feedback (db (snd r))
              = sql_insert_feedback product_name user_query feedback_type source
                  (dt_isoformat (w_now w (S (tick s)))) (product_feedback (db s))).
Proof.
  intros H r. subst r. rewrite save_product_feedback_run.
  apply String.eqb_neq in H. rewrite H.
  destruct (w_db_fault w (tick s)); simpl; repeat split; reflexivity.
Qed.

(** A desk is rejected. *)
Lemma other_feedback_keeps_patterns_witness :
  let r := save_product_feedback (lib := Examples.lib) Examples.online "Desk" "I need a gift"
             "not_relevant" "Semantic AI Match" (Examples.fresh (Examples.pattern_db 3)) in
  successful_patterns (db (snd r)) = [Examples.gift_pattern 3]
  /\ calls (snd r) = []
  /\ List.length (product_feedback (db (snd r))) = 1%nat.
Proof.
  intros r.
  destruct (other_feedback_keeps_patterns (lib := Examples.lib) Examples.online "Desk"
              "I need a gift" "not_relevant" "Semantic AI Match"
              (Examples.fresh (Examples.pattern_db 3))) as (P & C & _).
  - discriminate.
  - split; [exact P|]. split; [exact C|]. vm_compute. reflexivity.
Defined.

(** ** Queries without a word *)

Lemma split_words_nil l : forall cur,
  PyStr.split_words cur l = [] -> cur = None /\ forallb PyStr.is_space l = true.
Proof.
  induction l as [|k l IH]; intros cur; simpl.
  - destruct cur; [discriminate | auto].
  - destruct (PyStr.is_space k).
    + destruct cur; [discriminate|]. intros H. apply IH in H as [_ H]. auto.
    + intros H. apply IH in H as [H _]. discriminate H.
Qed.

Lemma split_words_blank l :
  forallb PyStr.is_space l = true -> PyStr.split_words None l = [].
Proof.
  induction l as [|k l IH]; simpl; [reflexivity|].
  intros H. apply andb_prop in H as [Hk Hl]. rewrite Hk. auto.
Qed.

(** A string has no word exactly when it is made of blanks. *)
Lemma split_nil_iff_blank s : PyStr.split s = [] <-> blank s = true.
Proof.
  unfold PyStr.split, blank. split.
  - intros H. apply split_words_nil in H. tauto.
  - apply split_words_blank.
Qed.

Lemma no_word_lower {lib : PyLib} query :
  PyStr.split query = [] -> PyStr.split (str_lower query) = [].
Proof. intros H. rewrite (str_lower_blank _ H). exact H. Qed.

Lemma get_successful_recommendations_no_word {lib : PyLib} (w : World) query emotion s :
  PyStr.split query = [] ->
  fst (get_successful_recommendations w query emotion s) = Ret None
  /\ db (snd (get_successful_recommendations w query emotion s)) = db s.
Proof.
  intros H. apply no_word_lower in H.
  unfold get_successful_recommendations, sqlite3_connect, bind, try_except, external,
    record_call, get_db, ret, raise.
  simpl. destruct (w_db_fault w (tick s)); simpl; [auto|].
  rewrite H. simpl. auto.
Qed.

(** C9. A query without a word (empty, or blanks only): the words of the
    lowercased query are none, the statement of the lookup has an empty
    disjunction and is refused, [get_successful_recommendations] swallows the
    error and returns the empty dictionary without touching the database, and
    the search is never logged as "Historical Pattern". *)
Theorem no_word_no_pattern {lib : PyLib} (w : World) (emotion query : string) (s : state) :
  PyStr.split query = [] ->
  blank query = true
  /\ (forall t, sql_best_pattern emotion (PyStr.split (str_lower query)) t = None)
  /\ (forall s0,
        fst (get_successful_recommendations w query emotion s0) = Ret None
        /\ db (snd (get_successful_recommendations w query emotion s0)) = db s0)
  /\ exists products msg s' method n rt,
       neurochat_product_search w emotion query s = (Ret (products, msg), s')
       /\ logged (calls s')
          = (logged (calls s) ++
             [Call_log_recommendation_analytics query emotion method n rt])%list
       /\ method <> "Historical Pattern".
Proof.
  intros H. split; [apply split_nil_iff_blank; exact H|].
  split; [intros t; rewrite (no_word_lower _ H); reflexivity|].
  split; [intros s0; apply get_successful_recommendations_no_word; exact H|].
  destruct (step_local_business_cases w emotion query s)
    as [(products & msg & s' & method & n & t_end & E & I & _ & L & _)
       | (s0 & hs & s1 & fan & s2 & s' & _ & E1 & _)].
  - exists products, msg, s', method, n,
      (PrimFloat.sub (w_time w t_end) (w_time w (tick s))).
    split; [exact E|]. split; [exact L|].
    destruct I as [<-|I]; [discriminate | apply not_historical; exact I].
  - exfalso.
    destruct (get_successful_recommendations_no_word w query emotion s0 H) as [F _].
    rewrite E1 in F. discriminate.
Qed.

(** Three blanks, two of them outside ASCII, on a store whose pattern counts
    3 and a catalogue that answers. *)
Lemma no_word_no_pattern_witness :
  fst (get_successful_recommendations (lib := Examples.lib) Examples.online
         Examples.wide_blanks "happy" (Examples.fresh (Examples.pattern_db 3))) = Ret None
  /\ exists products msg s' method n rt,
       neurochat_product_search (lib := Examples.lib) Examples.online "happy"
         Examples.wide_blanks (Examples.fresh (Examples.pattern_db 3))
       = (Ret (products, msg), s')
       /\ logged (calls s')
          = [Call_log_recommendation_analytics Examples.wide_blanks "happy" method n rt]
       /\ method <> "Historical Pattern".
Proof.
  destruct (no_word_no_pattern (lib := Examples.lib) Examples.online "happy"
              Examples.wide_blanks (Examples.fresh (Examples.pattern_db 3)))
    as (_ & _ & Lookup & Search).
  - reflexivity.
  - split; [apply Lookup | exact Search].
Defined.

(** ** Adapters whose source fails *)

Section Failures.

Context {lib : PyLib} (w : World).

Lemma requests_get_json_failed req s :
  http_failed (w_http w (tick s) req) -> requests_get_json w req s = (Exn, ticked s).
Proof.
  unfold requests_get_json, http_failed, bind, external, lift, raise, ret. simpl.
  destruct (w_http w (tick s) req) as [| | |text]; try reflexivity.
  intros ->. reflexivity.
Qed.

Lemma semantic_product_search_failed query limit s :
  completion_failed (w_complete w (tick s) (SemanticPrompt query limit)) ->
  fst (semantic_product_search w query limit s) = Ret [].
Proof.
  unfold semantic_product_search, generate_content, completion_failed, bind, try_except,
    record_call, external, lift, raise, ret.
  simpl. destruct (w_complete w (tick s) (SemanticPrompt query limit)) as [text|];
    [|reflexivity].
  intros ->. reflexivity.
Qed.

Lemma search_web_products_failed query limit s :
  http_failed (w_http w (tick s) (web_request w query limit)) ->
  fst (search_web_products w query limit s) = Ret [].
Proof.
  intros H. unfold search_web_products. unfold bind at 1. unfold record_call at 1.
  unfold try_except. cbv zeta.
  destruct (negb (PyStr.truthy (w_getenv w "GOOGLE_SEARCH_API_KEY"))
            || negb (PyStr.truthy (w_getenv w "GOOGLE_SEARCH_ENGINE_ID"))); [reflexivity|].
  unfold bind at 1. rewrite requests_get_json_failed by exact H. reflexivity.
Qed.

Lemma search_business_products_failed emotion query s :
  w_db_fault w (tick s) = true ->
  fst (search_business_products w emotion query s) = Ret [].
Proof.
  intros H.
  unfold search_business_products, sqlite3_connect, bind, try_except, record_call, external,
    raise, ret.
  simpl. rewrite H. reflexivity.
Qed.

Lemma fetch_products_dummyjson_failed query category limit s :
  http_failed (w_http w (tick s) (dummyjson_request query category limit)) ->
  fst (fetch_products_dummyjson w query category limit s) = Ret [].
Proof.
  intros H. unfold fetch_products_dummyjson. unfold bind at 1. unfold record_call at 1.
  unfold try_except. unfold bind at 1.
  rewrite requests_get_json_failed by exact H. reflexivity.
Qed.

Lemma fetch_products_fakestore_failed query category limit s :
  http_failed (w_http w (tick s) (fakestore_request category)) ->
  fst (fetch_products_fakestore w query category limit s) = Ret [].
Proof.
  intros H. unfold fetch_products_fakestore. unfold bind at 1. unfold record_call at 1.
  unfold try_except. unfold bind at 1.
  rewrite requests_get_json_failed by exact H. reflexivity.
Qed.

Lemma context_aware_ai_search_failed emotion query s :
  w_complete w (S (tick s))
    (ContextPrompt query emotion (dt_weekday (w_now w (tick s)))
       (dt_month (w_now w (tick s))) (dt_hour (w_now w (tick s)))) = None ->
  fst (context_aware_ai_search w emotion query s) = Ret ([], "").
Proof.
  intros H.
  unfold context_aware_ai_search, datetime_now, generate_content. unfold bind at 1 2 3 4.
  unfold try_except, record_call, external, lift, raise, ret. simpl.
  unfold bind at 1. simpl. rewrite H. reflexivity.
Qed.

End Failures.

(** C8. No adapter raises, and a source that fails gives the empty list.
    (1) In every world and every state, each of the six adapters returns.
    (2) The semantic adapter returns the empty list when the completion
    service raises or its text is not a JSON document; the web adapter and the
    two catalogue adapters when their request raises (transport error,
    timeout), is answered by an error status, or has a body that is not JSON;
    the local business adapter when its database transaction fails; the
    context-aware adapter returns no product and no message when the
    completion service raises. *)
Theorem adapters_swallow_failures {lib : PyLib} (w : World) (emotion query category : string)
    (limit : nat) (s : state) :
  (returns (semantic_product_search w query limit)
   /\ returns (search_web_products w query limit)
   /\ returns (search_business_products w emotion query)
   /\ returns (fetch_products_dummyjson w query category limit)
   /\ returns (fetch_products_fakestore w query category limit)
   /\ returns (context_aware_ai_search w emotion query))
  /\ (completion_failed (w_complete w (tick s) (SemanticPrompt query limit)) ->
      fst (semantic_product_search w query limit s) = Ret [])
  /\ (http_failed (w_http w (tick s) (web_request w query limit)) ->
      fst (search_web_products w query limit s) = Ret [])
  /\ (w_db_fault w (tick s) = true ->
      fst (search_business_products w emotion query s) = Ret [])
  /\ (http_failed (w_http w (tick s) (dummyjson_request query category limit)) ->
      fst (fetch_products_dummyjson w query category limit s) = Ret [])
  /\ (http_failed (w_http w (tick s) (fakestore_request category)) ->
      fst (fetch_products_fakestore w query category limit s) = Ret [])
  /\ (w_complete w (S (tick s))
        (ContextPrompt query emotion (dt_weekday (w_now w (tick s)))
           (dt_month (w_now w (tick s))) (dt_hour (w_now w (tick s)))) = None ->
      fst (context_aware_ai_search w emotion query s) = Ret ([], "")).
Proof.
  split.
  { repeat split.
    - apply returns_semantic_product_search.
    - apply returns_search_web_products.
    - apply returns_search_business_products.
    - apply returns_fetch_products_dummyjson.
    - apply returns_fetch_products_fakestore.
    - apply returns_context_aware_ai_search. }
  split; [apply semantic_product_search_failed|].
  split; [apply search_web_products_failed|].
  split; [apply search_business_products_failed|].
  split; [apply fetch_products_dummyjson_failed|].
  split; [apply fetch_products_fakestore_failed|].
  apply context_aware_ai_search_failed.
Qed.

(** Every source is down: a timeout on each request, a completion service
    that raises, a database that cannot be opened. *)
Lemma adapters_swallow_failures_witness :
  let s := Examples.fresh Examples.shop_db in
  fst (semantic_product_search (lib := Examples.lib) Examples.broken "tea" 6 s) = Ret []
  /\ fst (search_web_products (lib := Examples.lib) Examples.broken "tea" 6 s) = Ret []
  /\ fst (search_business_products (lib := Examples.lib) Examples.broken "happy" "tea" s) = Ret []
  /\ fst (fetch_products_dummyjson (lib := Examples.lib) Examples.broken "tea" "groceries" 6 s)
     = Ret []
  /\ fst (fetch_products_fakestore (lib := Examples.lib) Examples.broken "tea" "groceries" 6 s)
     = Ret []
  /\ fst (context_aware_ai_search (lib := Examples.lib) Examples.broken "happy" "tea" s)
     = Ret ([], "").
Proof.
  intros s.
  destruct (adapters_swallow_failures (lib := Examples.lib) Examples.broken "happy" "tea"
              "groceries" 6 s) as (_ & Semantic & Web & Business & Dummy & Fake & Context).
  split; [apply Semantic; exact I|].
  split; [apply Web; exact I|].
  split; [apply Business; reflexivity|].
  split; [apply Dummy; exact I|].
  split; [apply Fake; exact I|].
  apply Context. reflexivity.
Defined.

(** ** Concurrent calls of [save_successful_pattern] *)

(** The two statements, one after the other, are the sequential function. *)
Lemma statements_in_sequence {lib : PyLib} query emotion categories now tbl :
  let t := {| Concurrent.th_now := now; Concurrent.th_progress := Concurrent.Started |} in
  let (t1, tbl1) := Concurrent.statement query emotion categories t tbl in
  snd (Concurrent.statement query emotion categories t1 tbl1)
  = pattern_recorded query emotion categories now tbl.
Proof.
  unfold Concurrent.statement, pattern_recorded. simpl.
  destruct (sql_select_pattern _ _ _ tbl); reflexivity.
Qed.

Section Interleavings.

Context {lib : PyLib}.

Import Concurrent.

Variables (query emotion : string) (categories : list string).

Local Abbreviation K := (has_key (pattern_of_query query) emotion (categories_str_of categories)).
Local Abbreviation rows := (Concurrent.rows query emotion categories).
Local Abbreviation total := (Concurrent.total query emotion categories).
Local Abbreviation key_ids := (Concurrent.key_ids query emotion categories).
Local Abbreviation statement := (Concurrent.statement query emotion categories).
Local Abbreviation step := (Concurrent.step query emotion categories).
Local Abbreviation run := (Concurrent.run query emotion categories).
Local Abbreviation selection_valid := (Concurrent.selection_valid query emotion categories).
Local Abbreviation invariant := (Concurrent.invariant query emotion categories).
Local Abbreviation row_kept := (Concurrent.row_kept query emotion categories).

(** *** The statements on the table *)

Lemma update_ids id now tbl : map sp_id (sql_update_pattern id now tbl) = map sp_id tbl.
Proof.
  unfold sql_update_pattern. rewrite map_map. apply map_ext.
  intros r. destruct (sp_id r =? id); reflexivity.
Qed.

Lemma update_key_ids id now tbl : key_ids (sql_update_pattern id now tbl) = key_ids tbl.
Proof.
  unfold Concurrent.key_ids, Concurrent.rows, key_rows.
  induction tbl as [|r tbl IH]; simpl; [reflexivity|].
  destruct (sp_id r =? id); unfold has_key in *; simpl;
    destruct (_ && _); simpl; rewrite ?IH; reflexivity.
Qed.

Lemma update_total id now tbl :
  NoDup (map sp_id tbl) -> In id (key_ids tbl) ->
  total (sql_update_pattern id now tbl) = total tbl + 1.
Proof.
  unfold Concurrent.key_ids, Concurrent.total, Concurrent.rows, key_total, key_rows.
  induction tbl as [|r tbl IH]; simpl; [contradiction|].
  intros ND Hin. inversion ND as [|x l Hnotin ND']; subst.
  destruct (sp_id r =? id) eqn:E.
  - apply Z.eqb_eq in E. subst id.
    rewrite update_other_rows.
    + unfold has_key at 1 3. simpl. fold (K r). destruct (K r); simpl.
      * lia.
      * exfalso. apply Hnotin. apply in_map_iff in Hin as (r' & Hid & Hr').
        apply filter_In in Hr' as [Hr' _]. rewrite <- Hid. apply in_map. exact Hr'.
    + intros r' Hr' Heq. apply Hnotin. rewrite <- Heq. apply in_map. exact Hr'.
  - destruct (K r) eqn:Kr; simpl in *.
    + destruct Hin as [Hin|Hin]; [apply Z.eqb_neq in E; contradiction|].
      rewrite IH by assumption. lia.
    + apply IH; assumption.
Qed.

Lemma insert_ids now tbl :
  map sp_id (sql_insert_pattern (pattern_of_query query) emotion
               (categories_str_of categories) now tbl)
  = (map sp_id tbl ++ [next_rowid (map sp_id tbl)])%list.
Proof. unfold sql_insert_pattern. rewrite map_app. reflexivity. Qed.

Lemma insert_key_ids now tbl :
  key_ids (sql_insert_pattern (pattern_of_query query) emotion
             (categories_str_of categories) now tbl)
  = (key_ids tbl ++ [next_rowid (map sp_id tbl)])%list.
Proof.
  unfold Concurrent.key_ids, Concurrent.rows, key_rows, sql_insert_pattern.
  rewrite filter_app, map_app. simpl.
  unfold has_key at 2. simpl. rewrite !String.eqb_refl. reflexivity.
Qed.

Lemma sum_app l l' :
  fold_right Z.add 0 (l ++ l') = fold_right Z.add 0 l + fold_right Z.add 0 l'.
Proof. induction l as [|x l IH]; simpl; [reflexivity | rewrite IH; lia]. Qed.

Lemma insert_total now tbl :
  total (sql_insert_pattern (pattern_of_query query) emotion
           (categories_str_of categories) now tbl)
  = total tbl + 1.
Proof.
  unfold Concurrent.total, key_total, key_rows, sql_insert_pattern.
  rewrite filter_app, map_app, sum_app. simpl.
  unfold has_key at 2. simpl. rewrite !String.eqb_refl. reflexivity.
Qed.

Lemma insert_nodup now tbl :
  NoDup (map sp_id tbl) ->
  NoDup (map sp_id (sql_insert_pattern (pattern_of_query query) emotion
                      (categories_str_of categories) now tbl)).
Proof.
  intros ND. rewrite insert_ids. apply NoDup_app; [exact ND | | ].
  - constructor; [intros [] | constructor].
  - intros i Hi [<-|[]]. apply next_rowid_above in Hi. lia.
Qed.

Lemma select_some_key_id tbl r :
  sql_select_pattern (pattern_of_query query) emotion (categories_str_of categories) tbl
  = Some r ->
  In (sp_id r) (key_ids tbl).
Proof.
  unfold sql_select_pattern. intros H. apply find_some in H as [Hin Hk].
  unfold Concurrent.key_ids, Concurrent.rows, key_rows.
  apply in_map. apply filter_In. auto.
Qed.

Lemma select_none_no_row tbl :
  sql_select_pattern (pattern_of_query query) emotion (categories_str_of categories) tbl
  = None ->
  key_ids tbl = [].
Proof.
  unfold sql_select_pattern, Concurrent.key_ids, Concurrent.rows, key_rows.
  induction tbl as [|r tbl IH]; simpl; [reflexivity|].
  destruct (K r); [discriminate | exact IH].
Qed.

(** *** The calls in flight *)

Lemma Forall_replace_nth {A} (P : A -> Prop) i x (l : list A) :
  Forall P l -> P x -> Forall P (replace_nth i x l).
Proof.
  intros H Hx. revert i. induction H as [|y l Hy Hl IH]; intros [|i]; simpl;
    constructor; auto.
Qed.

Lemma length_replace_nth {A} i (x : A) (l : list A) :
  List.length (replace_nth i x l) = List.length l.
Proof. revert i. induction l as [|y l IH]; intros [|i]; simpl; auto. Qed.

Lemma count_finished_replace i t t' ts :
  nth_error ts i = Some t ->
  (count_finished (replace_nth i t' ts) + (if finished t then 1 else 0)
   = count_finished ts + (if finished t' then 1 else 0))%nat.
Proof.
  unfold count_finished. revert i. induction ts as [|x ts IH]; intros [|i]; simpl;
    try discriminate.
  - intros [= ->]. destruct (finished t), (finished t'); simpl; lia.
  - intros H. specialize (IH i H). destruct (finished x); simpl; lia.
Qed.

Lemma selection_valid_mono tbl tbl' t :
  incl (key_ids tbl) (key_ids tbl') -> selection_valid tbl t -> selection_valid tbl' t.
Proof.
  unfold Concurrent.selection_valid. destruct (th_progress t) as [|[id|]|]; auto.
Qed.

Lemma step_invariant tbl0 sys i : invariant tbl0 sys -> invariant tbl0 (step sys i).
Proof.
  intros (ND & FA & TOT). unfold Concurrent.step.
  destruct (nth_error (threads sys) i) as [t|] eqn:N; [| repeat split; assumption].
  assert (selection_valid (table sys) t) as Vt
    by (eapply Forall_forall; [exact FA | eapply nth_error_In; exact N]).
  pose proof (count_finished_replace i t) as CF.
  unfold Concurrent.statement, Concurrent.selection_valid, finished in *.
  destruct (th_progress t) as [|[id|]|] eqn:P; unfold Concurrent.invariant; simpl.
  - (* the SELECT *)
    split; [exact ND|]. split.
    + apply Forall_replace_nth; [exact FA|]. simpl.
      destruct (sql_select_pattern _ _ _ (table sys)) as [r|] eqn:S; simpl; [|exact I].
      apply select_some_key_id. exact S.
    + specialize (CF {| th_now := th_now t;
                        th_progress := Selected (option_map sp_id
                          (sql_select_pattern (pattern_of_query query) emotion
                             (categories_str_of categories) (table sys))) |}
                     (threads sys) N).
      simpl in CF. rewrite TOT. f_equal. lia.
  - (* the UPDATE *)
    split; [rewrite update_ids; exact ND|]. split.
    + apply Forall_replace_nth; [| exact I].
      eapply Forall_impl; [| exact FA]. intros t0.
      apply selection_valid_mono. rewrite update_key_ids. apply incl_refl.
    + rewrite update_total by assumption.
      specialize (CF {| th_now := th_now t; th_progress := Finished |} (threads sys) N).
      simpl in CF. rewrite TOT. lia.
  - (* the INSERT *)
    split; [apply insert_nodup; exact ND|]. split.
    + apply Forall_replace_nth; [| exact I].
      eapply Forall_impl; [| exact FA]. intros t0.
      apply selection_valid_mono. rewrite insert_key_ids. apply incl_appl, incl_refl.
    + rewrite insert_total.
      specialize (CF {| th_now := th_now t; th_progress := Finished |} (threads sys) N).
      simpl in CF. rewrite TOT. lia.
  - (* nothing left to do *)
    split; [exact ND|]. split.
    + apply Forall_replace_nth; [exact FA|]. unfold Concurrent.selection_valid.
      rewrite P. exact I.
    + specialize (CF t (threads sys) N). rewrite P in CF. rewrite TOT. f_equal. lia.
Qed.

Lemma run_invariant tbl0 schedule : forall sys,
  invariant tbl0 sys -> invariant tbl0 (run schedule sys).
Proof.
  unfold Concurrent.run.
  induction schedule as [|i schedule IH]; intros sys H; simpl; [exact H|].
  apply IH, step_invariant, H.
Qed.

Lemma step_row_kept tbl0 sys i :
  key_ids tbl0 <> [] -> Forall (selection_valid (table sys)) (threads sys) ->
  row_kept tbl0 sys -> row_kept tbl0 (step sys i).
Proof.
  intros NE FA (KI & FR). unfold Concurrent.step.
  destruct (nth_error (threads sys) i) as [t|] eqn:N; [| split; assumption].
  assert (found_a_row t) as Ft
    by (eapply Forall_forall; [exact FR | eapply nth_error_In; exact N]).
  unfold Concurrent.statement, Concurrent.found_a_row in *.
  destruct (th_progress t) as [|[id|]|] eqn:P; unfold Concurrent.row_kept; simpl.
  - split; [exact KI|]. apply Forall_replace_nth; [exact FR|]. simpl.
    destruct (sql_select_pattern _ _ _ (table sys)) as [r|] eqn:S; simpl; [exact I|].
    apply select_none_no_row in S. congruence.
  - split; [rewrite update_key_ids; exact KI|].
    apply Forall_replace_nth; [exact FR | exact I].
  - contradiction.
  - split; [exact KI|]. apply Forall_replace_nth; [exact FR|].
    unfold Concurrent.found_a_row. rewrite P. exact I.
Qed.

Lemma run_row_kept tbl0 schedule : forall sys,
  key_ids tbl0 <> [] -> invariant tbl0 sys ->
  row_kept tbl0 sys -> row_kept tbl0 (run schedule sys).
Proof.
  unfold Concurrent.run.
  induction schedule as [|i schedule IH]; intros sys NE Inv H; simpl; [exact H|].
  apply IH; [exact NE | apply step_invariant; exact Inv |].
  apply step_row_kept; [exact NE | apply Inv | exact H].
Qed.

Lemma run_length schedule : forall sys,
  List.length (threads (run schedule sys)) = List.length (threads sys).
Proof.
  unfold Concurrent.run.
  induction schedule as [|i schedule IH]; intros sys; simpl; [reflexivity|].
  rewrite IH. unfold Concurrent.step.
  destruct (nth_error (threads sys) i) as [t|]; [|reflexivity].
  destruct (statement t (table sys)). simpl. apply length_replace_nth.
Qed.

Lemma all_finished_count ts :
  forallb finished ts = true -> count_finished ts = List.length ts.
Proof.
  unfold count_finished. induction ts as [|t ts IH]; simpl; [reflexivity|].
  destruct (finished t); simpl; [|discriminate]. intros H. rewrite IH; auto.
Qed.

Lemma start_invariant nows tbl : NoDup (map sp_id tbl) -> invariant tbl (start nows tbl).
Proof.
  intros ND. unfold Concurrent.invariant, start. simpl. split; [exact ND|]. split.
  - apply Forall_forall. intros t Ht. apply in_map_iff in Ht as (now & <- & _). exact I.
  - replace (count_finished _) with 0%nat; [simpl; lia|].
    unfold count_finished. induction nows as [|now nows IH]; simpl; auto.
Qed.

Lemma start_row_kept nows tbl : row_kept tbl (start nows tbl).
Proof.
  unfold Concurrent.row_kept, start. simpl. split; [reflexivity|].
  apply Forall_forall. intros t Ht. apply in_map_iff in Ht as (now & <- & _). exact I.
Qed.

End Interleavings.

(** C6, as the specification states it, fails: two calls for a key without a
    row, each running its SELECT before the other's INSERT, leave two rows
    that count 1 each, and no row that counts 2. This is so whatever the
    library's lowercase makes of the query. *)
Lemma lost_update_on_first_success :
  (forall lib : PyLib,
      Concurrent.table
        (Concurrent.run "gift" "happy" ["general"] [0; 1; 0; 1]%nat
           (Concurrent.start ["10:00:01"; "10:00:02"] []))
      = [ pattern_row_of 1 "gift" "happy" ["general"] 1 "10:00:01";
          pattern_row_of 2 "gift" "happy" ["general"] 1 "10:00:02" ])
  /\ ~ exists lib : PyLib, Concurrent.no_lost_updates.
Proof.
  assert (forall lib : PyLib,
             Concurrent.table
               (Concurrent.run "gift" "happy" ["general"] [0; 1; 0; 1]%nat
                  (Concurrent.start ["10:00:01"; "10:00:02"] []))
             = [ pattern_row_of 1 "gift" "happy" ["general"] 1 "10:00:01";
                 pattern_row_of 2 "gift" "happy" ["general"] 1 "10:00:02" ]) as T
    by (intros lib; reflexivity).
  split; [exact T|].
  intros [lib H].
  destruct (H "gift" "happy" ["general"] ["10:00:01"; "10:00:02"] [0; 1; 0; 1]%nat [])
    as (r & Hr & _).
  - discriminate.
  - reflexivity.
  - reflexivity.
  - rewrite T in Hr. unfold Concurrent.rows, key_rows in Hr. simpl in Hr.
    rewrite !has_key_row_of in Hr. discriminate.
Qed.

(** C6, amended. Calls with one key, interleaved statement by statement in
    any order, each statement atomic and successful: when all the calls are
    done, the rows of the key count together as many successes more as there
    were calls, so that no success is lost; and when the key had exactly one
    row before the calls started, it still has exactly this row, which counts
    as many successes more as there were calls. (Without such a row the calls
    may insert several rows, which share the successes.) *)
Theorem concurrent_successes_are_counted {lib : PyLib} (query emotion : string)
    (categories : list string) (nows : list string) (schedule : list nat)
    (tbl : list pattern_row) :
  NoDup (map sp_id tbl) ->
  let final := Concurrent.run query emotion categories schedule (Concurrent.start nows tbl) in
  Concurrent.all_finished final = true ->
  Concurrent.total query emotion categories (Concurrent.table final)
  = Concurrent.total query emotion categories tbl + Z.of_nat (List.length nows)
  /\ forall r0,
       Concurrent.rows query emotion categories tbl = [r0] ->
       exists r,
         Concurrent.rows query emotion categories (Concurrent.table final) = [r]
         /\ sp_id r = sp_id r0
         /\ sp_success_count r = sp_success_count r0 + Z.of_nat (List.length nows).
Proof.
  intros ND final Fin.
  pose proof (run_invariant query emotion categories tbl schedule _
                (start_invariant query emotion categories nows tbl ND)) as Inv.
  fold final in Inv. destruct Inv as (_ & _ & Tot).
  assert (Concurrent.count_finished (Concurrent.threads final) = List.length nows) as Cnt.
  { rewrite all_finished_count by exact Fin. unfold final.
    rewrite run_length. unfold Concurrent.start. simpl. apply length_map. }
  rewrite Cnt in Tot. split; [exact Tot|].
  intros r0 Hr0.
  assert (Concurrent.key_ids query emotion categories tbl = [sp_id r0]) as K0
    by (unfold Concurrent.key_ids; rewrite Hr0; reflexivity).
  destruct (run_row_kept query emotion categories tbl schedule
              (Concurrent.start nows tbl)) as (Kf & _).
  - rewrite K0. discriminate.
  - apply start_invariant. exact ND.
  - apply start_row_kept.
  - fold final in Kf. rewrite K0 in Kf. unfold Concurrent.key_ids in Kf.
    unfold Concurrent.total, key_total in Tot.
    fold (Concurrent.rows query emotion categories (Concurrent.table final)) in Tot.
    fold (Concurrent.rows query emotion categories tbl) in Tot.
    rewrite Hr0 in Tot.
    destruct (Concurrent.rows query emotion categories (Concurrent.table final))
      as [|r [|r' l]]; simpl in Kf; try discriminate.
    injection Kf as Kf. exists r. simpl in Tot. repeat split; [exact Kf | lia].
Qed.

(** Three calls interleaved on a store whose gift pattern counts 5. *)
Lemma concurrent_successes_are_counted_witness :
  exists r,
    Concurrent.rows (lib := Examples.lib) "I need a gift" "happy" ["furniture"; "beauty"]
      (Concurrent.table
         (Concurrent.run (lib := Examples.lib) "I need a gift" "happy" ["furniture"; "beauty"]
            [0; 1; 2; 2; 1; 0]%nat
            (Concurrent.start ["10:00:01"; "10:00:02"; "10:00:03"]
               [Examples.gift_pattern 5]))) = [r]
    /\ sp_success_count r = 8.
Proof.
  destruct (concurrent_successes_are_counted (lib := Examples.lib) "I need a gift" "happy"
              ["furniture"; "beauty"]
              ["10:00:01"; "10:00:02"; "10:00:03"] [0; 1; 2; 2; 1; 0]%nat
              [Examples.gift_pattern 5]) as (_ & One).
  - constructor; [intros [] | constructor].
  - vm_compute. reflexivity.
  - destruct (One (Examples.gift_pattern 5)) as (r & Hr & _ & Hc); [reflexivity|].
    exists r. split; [exact Hr | exact Hc].
Defined.

(** ** Scenarios of the specification, run on the model *)

(** Every source is empty: the answer is empty, with the "still learning"
    message, and the one attempt is logged as "No Results". *)
Example all_sources_empty :
  let r := neurochat_product_search (lib := Examples.lib) Examples.offline "happy" "coffee"
             (Examples.fresh Examples.shop_db) in
  fst r = Ret ([], "🧠 I'm still learning! Try describing what you need differently.")
  /\ logged (calls (snd r))
     = [Call_log_recommendation_analytics "coffee" "happy" "No Results" 0 0%float]
  /\ map an_recommendation_method (recommendation_analytics (db (snd r))) = ["No Results"].
Proof. vm_compute. repeat split. Qed.

(** A query of two characters: the semantic step is skipped, the web search
    is tried, then the context-aware search. *)
Example short_query_skips_semantic_step :
  calls (snd (neurochat_product_search (lib := Examples.lib) Examples.offline "happy" "xy"
                (Examples.fresh Examples.empty_db)))
  = [ Call_search_business_products "happy" "xy";
      Call_get_successful_recommendations "xy" "happy";
      Call_search_web_products "xy" 6;
      Call_context_aware_ai_search "happy" "xy";
      Call_generate_content (ContextPrompt "xy" "happy" "Monday" "January" 0);
      Call_generate_content (FallbackPrompt "xy" "happy");
      Call_fetch_products_dummyjson "" "" 6;
      Call_log_recommendation_analytics "xy" "happy" "No Results" 0 0%float ].
Proof. vm_compute. reflexivity. Qed.

(** The lookup takes the row with the highest count, and the latest among
    those. *)
Example lookup_takes_the_best_row :
  let row id pattern n last :=
    {| sp_id := id; sp_query_pattern := pattern; sp_emotion := "happy";
       sp_successful_categories := "beauty"; sp_success_count := n;
       sp_last_success := last |} in
  option_map (option_map sp_id)
    (sql_best_pattern "happy" ["need"; "gift"]
       [ row 1 "i need a" 3 "2024-01-01"; row 2 "a gift for" 5 "2024-01-02";
         row 3 "need a gift" 5 "2024-01-03"; row 4 "buy shoes now" 9 "2024-01-04" ])
  = Some (Some 3).
Proof. vm_compute. reflexivity. Qed.

(* ================================================================== *)
(** * More of the program *)

(** ** Values returned and calls made: rules *)

Lemma yields_ret {A} (P : A -> Prop) a : P a -> yields P (ret a).
Proof. intros H s a' s' E. injection E as <- _. exact H. Qed.

Lemma yields_raise {A} (P : A -> Prop) : yields P raise.
Proof. intros s a s' E. discriminate. Qed.

Lemma yields_lift {A} (P : A -> Prop) (o : option A) :
  (forall a, o = Some a -> P a) -> yields P (lift o).
Proof.
  intros H. destruct o as [a|]; [apply yields_ret; auto | apply yields_raise].
Qed.

Lemma yields_bind {A B} (R : A -> Prop) (P : B -> Prop) (m : Py A) (k : A -> Py B) :
  yields R m -> (forall a, R a -> yields P (k a)) -> yields P (bind m k).
Proof.
  intros Hm Hk s b s' E. unfold bind in E.
  destruct (m s) as [[a|] s1] eqn:Em; [|discriminate].
  eapply Hk; [eapply Hm; exact Em | exact E].
Qed.

Lemma yields_bind_any {A B} (P : B -> Prop) (m : Py A) (k : A -> Py B) :
  (forall a, yields P (k a)) -> yields P (bind m k).
Proof.
  intros Hk. apply (yields_bind (fun _ => True)); [intros s a s' _; exact I | auto].
Qed.

Lemma yields_try {A} (P : A -> Prop) (m h : Py A) :
  yields P m -> yields P h -> yields P (try_except m h).
Proof.
  intros Hm Hh s a s' E. unfold try_except in E.
  destruct (m s) as [[x|] s1] eqn:Em.
  - injection E as <- <-. eapply Hm. exact Em.
  - eapply Hh. exact E.
Qed.

Lemma yields_for_each {A B} (P : B -> Prop) (l : list A) (body : B -> A -> Py B) :
  (forall acc x, P acc -> yields P (body acc x)) ->
  forall acc, P acc -> yields P (for_each l acc body).
Proof.
  intros Hb. induction l as [|x l IH]; intros acc Hacc; simpl.
  - apply yields_ret. exact Hacc.
  - apply (yields_bind P); [apply Hb; exact Hacc | intros; apply IH; assumption].
Qed.

Lemma ensures_bind {A B} (R : A -> state -> Prop) (Q : B -> state -> Prop)
    (m : Py A) (k : A -> Py B) :
  ensures R m -> (forall a s1, R a s1 -> forall b s2, k a s1 = (Ret b, s2) -> Q b s2) ->
  ensures Q (bind m k).
Proof.
  intros Hm Hk s b s' E. unfold bind in E.
  destruct (m s) as [[a|] s1] eqn:Em; [|discriminate].
  eapply Hk; [eapply Hm; exact Em | exact E].
Qed.

Lemma ensures_after {A B} (R : A -> Prop) (Q : B -> state -> Prop)
    (m : Py A) (k : A -> Py B) :
  yields R m -> (forall a, R a -> ensures Q (k a)) -> ensures Q (bind m k).
Proof.
  intros Hm Hk. apply (ensures_bind (fun a _ => R a)).
  - intros s a s' E. eapply Hm. exact E.
  - intros a s1 Ha b s2 E. eapply Hk; eassumption.
Qed.

Lemma ensures_try {A} (Q : A -> state -> Prop) (m h : Py A) :
  ensures Q m -> ensures Q h -> ensures Q (try_except m h).
Proof.
  intros Hm Hh s a s' E. unfold try_except in E.
  destruct (m s) as [[x|] s1] eqn:Em.
  - injection E as <- <-. eapply Hm. exact Em.
  - eapply Hh. exact E.
Qed.

(** ** Lists built item by item *)

Lemma traverse_Forall {A B} (f : A -> option B) (P : B -> Prop) :
  (forall x y, f x = Some y -> P y) ->
  forall l l', traverse f l = Some l' -> Forall P l' /\ List.length l' = List.length l.
Proof.
  intros Hf. induction l as [|x l IH]; simpl; intros l' E.
  - injection E as <-. auto.
  - destruct (f x) as [y|] eqn:Ef; [|discriminate].
    destruct (traverse f l) as [r|]; [|discriminate].
    simpl in E. injection E as <-. destruct (IH r eq_refl) as [F L]. split.
    + constructor; [eapply Hf; exact Ef | exact F].
    + simpl. rewrite L. reflexivity.
Qed.

Lemma Forall_firstn_of {A} (P : A -> Prop) n (l : list A) :
  Forall P l -> Forall P (firstn n l).
Proof.
  intros H. revert n. induction H as [|x l Hx Hl IH]; intros [|n]; simpl; auto.
Qed.

Lemma dict_get_set_same k v d : dict_get k (dict_set k v d) = Some v.
Proof.
  induction d as [|[k' v'] d IH]; simpl.
  - rewrite String.eqb_refl. reflexivity.
  - destruct (String.eqb k k') eqn:E; simpl; rewrite E; [reflexivity | exact IH].
Qed.

Lemma dict_get_set_other k k' v d :
  String.eqb k k' = false -> dict_get k (dict_set k' v d) = dict_get k d.
Proof.
  intros N. induction d as [|[k0 v0] d IH]; simpl.
  - rewrite N. reflexivity.
  - destruct (String.eqb k' k0) eqn:E; simpl.
    + apply String.eqb_eq in E. subst k0. rewrite N. reflexivity.
    + destruct (String.eqb k k0); [reflexivity | exact IH].
Qed.

(** ** Characters *)

Lemma implode_characters s : PyStr.implode (PyStr.characters s) = s.
Proof.
  induction s as [|c s IH]; simpl; [reflexivity|].
  destruct (PyStr.characters s) as [|k rest]; simpl in *; [rewrite <- IH; reflexivity|].
  destruct (negb (PyStr.is_ascii c) && PyStr.starts_cont k); simpl; rewrite <- IH;
    reflexivity.
Qed.

Lemma characters_ascii c s :
  PyStr.is_ascii c = true ->
  PyStr.characters (String c s) = String c EmptyString :: PyStr.characters s.
Proof. intros H. simpl. rewrite H. simpl. destruct (PyStr.characters s); reflexivity. Qed.

Lemma cont_not_ascii c : PyStr.is_cont c = true -> PyStr.is_ascii c = false.
Proof.
  unfold PyStr.is_cont, PyStr.is_ascii. intros H. apply andb_prop in H as [H _].
  apply N.leb_le in H. apply N.ltb_ge. exact H.
Qed.

(** The first character starts with the first byte. *)
Lemma characters_head s :
  match PyStr.characters s with
  | k :: _ => PyStr.starts_cont k = PyStr.starts_cont s
  | [] => s = EmptyString
  end.
Proof.
  destruct s as [|c s]; simpl; [reflexivity|].
  destruct (PyStr.characters s) as [|k rest]; [reflexivity|].
  destruct (negb (PyStr.is_ascii c) && PyStr.starts_cont k); reflexivity.
Qed.

Lemma characters_other rest : forall c t,
  PyStr.is_ascii c = false -> all_cont rest = true -> PyStr.starts_cont t = false ->
  PyStr.characters (String c (rest ++ t)) = String c rest :: PyStr.characters t.
Proof.
  induction rest as [|d rest IH]; intros c t Hc Hr Ht.
  - simpl. pose proof (characters_head t) as H.
    destruct (PyStr.characters t) as [|k l]; [reflexivity|].
    rewrite H, Ht, andb_false_r. reflexivity.
  - simpl in Hr. apply andb_prop in Hr as [Hd Hr].
    change (PyStr.characters (String c (String d rest ++ t)))
      with (match PyStr.characters (String d (rest ++ t)) with
            | k :: l =>
                if negb (PyStr.is_ascii c) && PyStr.starts_cont k then String c k :: l
                else String c EmptyString :: k :: l
            | [] => [String c EmptyString]
            end).
    rewrite (IH d t (cont_not_ascii d Hd) Hr Ht). simpl. rewrite Hc, Hd. reflexivity.
Qed.

Lemma starts_cont_implode l :
  spelled l = true ->
  PyStr.starts_cont (PyStr.implode l)
  = match l with
    | k :: _ => PyStr.starts_cont k
    | [] => false
    end.
Proof.
  destruct l as [|k l]; [reflexivity|]. simpl. intros H.
  apply andb_prop in H as [H _]. destruct k as [|c k]; [discriminate H | reflexivity].
Qed.

(** A spelled list is the list of the characters of its string. *)
Lemma characters_implode l : spelled l = true -> PyStr.characters (PyStr.implode l) = l.
Proof.
  induction l as [|k l IH]; [reflexivity|].
  intros H. pose proof H as H0. simpl in H. apply andb_prop in H as [Hk Hl].
  specialize (IH Hl). apply orb_prop in Hk as [Hk|Hk].
  - destruct k as [|c [|d k]]; try discriminate Hk.
    simpl in Hk. change (PyStr.implode (String c "" :: l)) with (String c (PyStr.implode l)).
    rewrite characters_ascii by exact Hk. rewrite IH. reflexivity.
  - apply andb_prop in Hk as [Hk Hn]. destruct k as [|c rest]; [discriminate Hk|].
    simpl in Hk. apply andb_prop in Hk as [Hc Hr]. apply negb_true_iff in Hc, Hn.
    change (PyStr.implode (String c rest :: l)) with (String c (rest ++ PyStr.implode l)).
    rewrite characters_other; [rewrite IH; reflexivity | exact Hc | exact Hr |].
    rewrite starts_cont_implode by exact Hl. exact Hn.
Qed.

Lemma spelled_characters s : spelled (PyStr.characters s) = true.
Proof.
  induction s as [|c s IH]; [reflexivity|]. simpl.
  destruct (PyStr.characters s) as [|k rest].
  - simpl. destruct (PyStr.is_ascii c); reflexivity.
  - destruct (negb (PyStr.is_ascii c) && PyStr.starts_cont k) eqn:M.
    + apply andb_prop in M as [Mc Mk]. simpl in IH. apply andb_prop in IH as [Hk Hr].
      destruct k as [|d k]; [discriminate Mk|]. simpl in Mk.
      assert (ascii_character (String d k) = false) as A.
      { simpl. destruct k; [apply cont_not_ascii; exact Mk | reflexivity]. }
      rewrite A in Hk. simpl in Hk. apply andb_prop in Hk as [Hd Hn].
      apply andb_prop in Hd as [_ Hd].
      simpl. apply negb_true_iff in Mc. rewrite Mc, Mk, Hd, Hn, Hr.
      destruct k; reflexivity.
    + change (spelled (String c "" :: k :: rest))
        with ((ascii_character (String c "")
               || other_character (String c "") && negb (PyStr.starts_cont k))
              && spelled (k :: rest)).
      rewrite IH, andb_true_r. simpl.
      destruct (PyStr.is_ascii c); [reflexivity|]. simpl in M. rewrite M. reflexivity.
Qed.

Lemma spelled_app l1 l2 : spelled (l1 ++ l2) = true -> spelled l1 = true /\ spelled l2 = true.
Proof.
  induction l1 as [|k l1 IH]; [auto|].
  change (spelled ((k :: l1) ++ l2)) with (spelled (k :: (l1 ++ l2))).
  intros H. simpl spelled in H. apply andb_prop in H as [Hk H].
  destruct (IH H) as [H1 H2]. split; [| exact H2].
  simpl. rewrite H1, andb_true_r.
  apply orb_prop in Hk as [Hk|Hk]; [rewrite Hk; reflexivity|].
  apply andb_prop in Hk as [Hk Hn]. rewrite Hk.
  destruct l1 as [|k1 l1]; [apply orb_true_r|]. simpl in Hn. rewrite Hn. apply orb_true_r.
Qed.

Lemma spelled_firstn n l : spelled l = true -> spelled (firstn n l) = true.
Proof. intros H. rewrite <- (firstn_skipn n l) in H. apply spelled_app in H. tauto. Qed.

Lemma spelled_skipn n l : spelled l = true -> spelled (skipn n l) = true.
Proof. intros H. rewrite <- (firstn_skipn n l) in H. apply spelled_app in H. tauto. Qed.

Lemma characters_take n s : PyStr.characters (PyStr.take n s) = firstn n (PyStr.characters s).
Proof. apply characters_implode, spelled_firstn, spelled_characters. Qed.

(** A word of three characters in nine bytes, its slice, and texts cut at
    blanks of two and three bytes. *)
Example characters_of_a_word :
  PyStr.characters "चाय" = ["च"; "ा"; "य"]
  /\ PyStr.len "चाय" = 3%nat
  /\ String.length "चाय" = 9%nat
  /\ PyStr.take 2 "चाय" = "चा"
  /\ PyStr.drop_last 1 "café" = "caf".
Proof. repeat split; reflexivity. Qed.

Example words_between_blanks :
  PyStr.split ("thé" ++ Examples.wide_blanks ++ "vert") = ["thé"; "vert"]
  /\ PyStr.strip (Examples.wide_blanks ++ "thé vert" ++ Examples.wide_blanks) = "thé vert"
  /\ blank Examples.wide_blanks = true.
Proof. repeat split; reflexivity. Qed.

(** LIKE takes a whole character for [_], and knows the case of ASCII only. *)
Example like_one_character :
  sql_like "a_b" "aéb" = true
  /\ sql_like "a__b" "aéb" = false
  /\ sql_like "%CAF%" "un café" = true
  /\ sql_like "%É%" "un café" = false.
Proof. repeat split; reflexivity. Qed.

Lemma length_chars s : List.length (chars s) = PyStr.len s.
Proof. unfold chars, PyStr.len. apply length_map. Qed.

Lemma length_take n s : (PyStr.len (PyStr.take n s) <= n)%nat.
Proof. unfold PyStr.len. rewrite characters_take, length_firstn. apply Nat.le_min_l. Qed.

(** The items of [v[:n]] are at most [n]. *)
Lemma length_slice_items n v head items :
  py_slice_to n v = Some head -> py_iter head = Some items ->
  (List.length items <= n)%nat.
Proof.
  destruct v; simpl; try discriminate; intros [= <-]; simpl; intros [= <-].
  - rewrite length_chars. apply length_take.
  - rewrite length_firstn. apply Nat.le_min_l.
Qed.

Lemma yields_lift_eq {A} (o : option A) : yields (fun a => o = Some a) (lift o).
Proof. apply yields_lift. auto. Qed.

Lemma tagged_incl tags tags' p : incl tags tags' -> tagged tags p -> tagged tags' p.
Proof. intros H (tag & G & I). exists tag. auto. Qed.

Lemma offered_incl tags tags' p : incl tags tags' -> offered tags p -> offered tags' p.
Proof. intros H [T P]. split; [eapply tagged_incl; eassumption | exact P]. Qed.

(** ** What the adapters return *)

Section Offers.

Context {lib : PyLib} (w : World).

Lemma startswith_rupee x : PyStr.startswith "₹" ("₹" ++ x) = true.
Proof. unfold PyStr.startswith. simpl. destruct x; reflexivity. Qed.

Lemma convert_usd_to_inr_rupee v : PyStr.startswith "₹" (convert_usd_to_inr v) = true.
Proof.
  unfold convert_usd_to_inr.
  destruct (match v with
            | PStr s => py_float (PStr (re_sub_empty RxNonNumeric s))
            | _ => py_float v
            end); [apply startswith_rupee | reflexivity].
Qed.

Lemma dummyjson_product_offered p y :
  dummyjson_product p = Some y -> offered [tag_dummyjson] y.
Proof.
  unfold dummyjson_product. destruct p; try discriminate. intros [= <-]. split.
  - exists tag_dummyjson. split; [| simpl; auto].
    rewrite dict_get_set_other by reflexivity. apply dict_get_set_same.
  - eexists. split; [apply dict_get_set_same |]. left. apply convert_usd_to_inr_rupee.
Qed.

Lemma fetch_products_dummyjson_offered query category limit :
  yields (Forall (offered [tag_dummyjson])) (fetch_products_dummyjson w query category limit).
Proof.
  unfold fetch_products_dummyjson. apply yields_bind_any. intros _.
  apply yields_try; [| apply yields_ret; constructor].
  repeat (apply yields_bind_any; intros). apply yields_lift. intros l E.
  apply (traverse_Forall _ _ dummyjson_product_offered) in E. tauto.
Qed.

Lemma fakestore_product_offered p y :
  fakestore_product p = Some y -> offered [tag_fakestore] y.
Proof.
  unfold fakestore_product, obind.
  destruct (py_getitem p "title") as [t|]; [|discriminate].
  destruct (py_slice_to 80 t) as [title|]; [|discriminate].
  destruct (py_getitem p "price") as [price|]; [|discriminate].
  destruct (py_getitem p "description") as [d|]; [|discriminate].
  destruct (py_slice_to 200 d) as [description|]; [|discriminate].
  destruct (py_getitem p "category") as [category|]; [|discriminate].
  destruct (py_get p "rating" (PDict [])) as [r|]; [|discriminate].
  destruct (py_get r "rate" (PFloat 4)) as [rating|]; [|discriminate].
  intros [= <-]. split.
  - exists tag_fakestore. split; [reflexivity | simpl; auto].
  - eexists. split; [reflexivity |]. left. apply convert_usd_to_inr_rupee.
Qed.

Lemma fetch_products_fakestore_offer query category limit :
  yields (offer [tag_fakestore] limit) (fetch_products_fakestore w query category limit).
Proof.
  unfold fetch_products_fakestore. apply yields_bind_any. intros _.
  apply yields_try; [| apply yields_ret; split; [constructor | simpl; lia]].
  apply yields_bind_any. intros page. apply yields_bind_any. intros filtered.
  eapply yields_bind; [apply yields_lift_eq |]. intros head Eh.
  eapply yields_bind; [apply yields_lift_eq |]. intros items Ei.
  apply yields_lift. intros l E.
  apply (traverse_Forall _ _ fakestore_product_offered) in E as [F L].
  split; [exact F |]. rewrite L. cbv beta in Eh, Ei.
  eapply length_slice_items; eassumption.
Qed.

Lemma semantic_product_offered item y :
  semantic_product item = Some y -> offered [tag_semantic] y.
Proof.
  unfold semantic_product, obind.
  destruct (py_getitem item "price") as [pr|]; [|discriminate].
  destruct (as_str pr) as [price|]; [|discriminate].
  destruct (py_getitem item "title") as [t|]; [|discriminate].
  destruct (py_slice_to 80 t) as [title|]; [|discriminate].
  destruct (py_getitem item "description") as [d|]; [|discriminate].
  destruct (py_slice_to 200 d) as [description|]; [|discriminate].
  destruct (py_get item "category" (PStr "General")) as [category|]; [|discriminate].
  intros [= <-]. split.
  - exists tag_semantic. split; [reflexivity | simpl; auto].
  - eexists. split; [reflexivity |]. left.
    destruct (PyStr.startswith "₹" price) eqn:E; [exact E | apply startswith_rupee].
Qed.

Lemma semantic_product_search_offer query limit :
  yields (offer [tag_semantic] limit) (semantic_product_search w query limit).
Proof.
  unfold semantic_product_search. apply yields_bind_any. intros _.
  apply yields_try; [| apply yields_ret; split; [constructor | simpl; lia]].
  apply yields_bind_any. intros text. apply yields_bind_any. intros data.
  eapply yields_bind; [apply yields_lift_eq |]. intros head Eh.
  eapply yields_bind; [apply yields_lift_eq |]. intros items Ei.
  apply yields_lift. intros l E.
  apply (traverse_Forall _ _ semantic_product_offered) in E as [F L].
  split; [exact F |]. rewrite L. cbv beta in Eh, Ei.
  eapply length_slice_items; eassumption.
Qed.

Lemma web_product_offered item y : web_product item = Some y -> offered [tag_web] y.
Proof.
  unfold web_product, obind.
  destruct (py_get item "snippet" (PStr "")) as [sn|]; [|discriminate].
  destruct (as_str sn) as [snippet|]; [|discriminate].
  destruct (py_getitem item "title") as [t|]; [|discriminate].
  destruct (py_slice_to 80 t) as [t80|]; [|discriminate].
  destruct (as_str t80) as [title|]; [|discriminate].
  destruct (py_get item "link" (PStr "")) as [link|]; [|discriminate].
  intros [= <-]. split.
  - exists tag_web. split; [reflexivity | simpl; auto].
  - eexists. split; [reflexivity |]. unfold web_price.
    destruct (re_search_group1 RxRupeeSign snippet); [left; apply startswith_rupee|].
    destruct (re_search_group1 RxRsAbbrev snippet); [left; apply startswith_rupee|].
    destruct (re_search_group1 RxRupeesWord snippet);
      [left; apply startswith_rupee | right; reflexivity].
Qed.

Lemma search_web_products_offer query limit :
  yields (offer [tag_web] limit) (search_web_products w query limit).
Proof.
  unfold search_web_products. apply yields_bind_any. intros _.
  apply yields_try; [| apply yields_ret; split; [constructor | simpl; lia]].
  cbv zeta.
  destruct (negb (PyStr.truthy (w_getenv w "GOOGLE_SEARCH_API_KEY"))
            || negb (PyStr.truthy (w_getenv w "GOOGLE_SEARCH_ENGINE_ID"))).
  { apply yields_ret. split; [constructor | simpl; lia]. }
  apply yields_bind_any. intros results. apply yields_bind_any. intros items.
  eapply yields_bind; [apply yields_lift_eq |]. intros products E. cbv beta in E.
  apply (traverse_Forall _ _ web_product_offered) in E as [F _].
  apply yields_ret. split; [apply Forall_firstn_of; exact F |].
  rewrite length_firstn. apply Nat.le_min_l.
Qed.

Lemma business_product_of_row_offered r y :
  business_product_of_row r = Some y -> offered [tag_local] y.
Proof.
  unfold business_product_of_row, obind. destruct r as [bp b].
  destruct (bp_price bp) as [price|]; [|discriminate].
  destruct (bp_stock_quantity bp) as [stock|]; [|discriminate].
  intros [= <-]. split.
  - exists tag_local. split; [reflexivity | simpl; auto].
  - eexists. split; [reflexivity |]. left. apply startswith_rupee.
Qed.

Lemma search_business_products_offer emotion query :
  yields (offer [tag_local] 6) (search_business_products w emotion query).
Proof.
  unfold search_business_products. apply yields_bind_any. intros _.
  apply yields_try; [| apply yields_ret; split; [constructor | simpl; lia]].
  apply yields_bind_any. intros _. apply yields_bind_any. intros d. cbv zeta.
  apply yields_lift. intros l E.
  apply (traverse_Forall _ _ business_product_of_row_offered) in E as [F L].
  split; [exact F |]. rewrite L. unfold sql_business_rows.
  rewrite length_firstn. apply Nat.le_min_l.
Qed.

Lemma pattern_fan_out_offered categories :
  yields (Forall (offered [tag_dummyjson])) (pattern_fan_out w categories).
Proof.
  unfold pattern_fan_out. apply yields_for_each; [| constructor].
  intros acc category Hacc.
  eapply yields_bind; [apply fetch_products_dummyjson_offered |].
  intros ps Hps. apply yields_ret. apply Forall_app. auto.
Qed.

(** The context-aware search returns at most six products from the two
    catalogues, and a message exactly when it returns a product. *)
Lemma context_aware_ai_search_offer emotion query :
  yields (fun r => offer [tag_dummyjson; tag_fakestore] 6 (fst r)
                   /\ (fst r = [] <-> snd r = ""))
         (context_aware_ai_search w emotion query).
Proof.
  assert (offer [tag_dummyjson; tag_fakestore] 6 [] /\ (@nil product = [] <-> "" = ""))
    as Empty by (repeat split; [constructor | simpl; lia]).
  unfold context_aware_ai_search. apply yields_bind_any. intros _.
  apply yields_try; [| apply yields_ret; exact Empty].
  apply yields_bind_any. intros now. apply yields_bind_any. intros text. cbv zeta.
  eapply (yields_bind (Forall (offered [tag_dummyjson; tag_fakestore]))).
  - apply yields_for_each; [| constructor]. intros acc category Hacc.
    eapply yields_bind; [apply fetch_products_dummyjson_offered |].
    intros ps Hps.
    assert (Forall (offered [tag_dummyjson; tag_fakestore]) (acc ++ ps)) as Both.
    { apply Forall_app. split; [exact Hacc |].
      eapply Forall_impl; [| exact Hps]. intros p. apply offered_incl.
      intros t [<-|[]]. simpl. auto. }
    destruct (List.length (acc ++ ps) <? 6)%nat; [| apply yields_ret; exact Both].
    eapply yields_bind; [apply (fetch_products_fakestore_offer "" category 2) |].
    intros fs [Hfs _]. apply yields_ret. apply Forall_app. split; [exact Both |].
    eapply Forall_impl; [| exact Hfs]. intros p. apply offered_incl.
    intros t [<-|[]]. simpl. auto.
  - intros all Hall. destruct all as [|p all]; simpl nonempty; cbv iota.
    + apply yields_ret. exact Empty.
    + apply yields_ret. cbn [fst snd]. split.
      * split; [apply Forall_firstn_of; exact Hall |].
        rewrite length_firstn. apply Nat.le_min_l.
      * split; intros H; simpl in H; discriminate.
Qed.

End Offers.

(** ** The shape of what the search returns *)

Section Shape.

Context {lib : PyLib} (w : World).
Variables (start_time : float) (emotion query : string).

Lemma log_return_state {X} (v v' : X) method n s s' :
  bind (log_attempt w start_time query emotion method n) (fun _ => ret v) s = (Ret v', s') ->
  v' = v
  /\ exists rt,
       calls s' = (calls s ++ [Call_log_recommendation_analytics query emotion method n rt])%list.
Proof.
  destruct (log_attempt_spec w start_time emotion query method n s) as (s1 & E & Cs & _).
  rewrite (bind_ret_eq _ _ _ _ _ E). intros [= <- <-]. eauto.
Qed.

Lemma ensures_log_return method products msg n :
  result_shape method products msg n -> Forall priced products ->
  ensures (shaped_result query emotion)
    (bind (log_attempt w start_time query emotion method n) (fun _ => ret (products, msg))).
Proof.
  intros Sh Pr s r s' E. apply log_return_state in E as (-> & rt & Cs).
  exists (calls s), method, n, rt. auto.
Qed.

Lemma Forall_offered_priced tags l : Forall (offered tags) l -> Forall priced l.
Proof. apply Forall_impl. intros p [_ P]. exact P. Qed.

Lemma Forall_offered_tagged tags l : Forall (offered tags) l -> Forall (tagged tags) l.
Proof. apply Forall_impl. intros p [T _]. exact T. Qed.

Lemma shape_safety_fallback :
  ensures (shaped_result query emotion) (step_safety_fallback w start_time emotion query).
Proof.
  unfold step_safety_fallback.
  eapply ensures_after; [apply fetch_products_dummyjson_offered |].
  intros ps Hps. destruct ps as [|p ps]; simpl nonempty; cbv iota.
  - apply ensures_log_return; [| constructor].
    unfold result_shape. do 7 right. auto.
  - apply ensures_log_return; [| eapply Forall_offered_priced; exact Hps].
    unfold result_shape. do 6 right. left.
    split; [reflexivity|]. split; [eapply Forall_offered_tagged; exact Hps|].
    simpl. split; [lia | reflexivity].
Qed.

Lemma shape_ai_fallback :
  ensures (shaped_result query emotion) (step_ai_fallback w start_time emotion query).
Proof.
  unfold step_ai_fallback.
  apply (ensures_bind
           (fun (r : option (list product * string)) s1 =>
              match r with
              | Some result => shaped_result query emotion result s1
              | None => True
              end)).
  - apply ensures_try; [| intros s a s' [= <- _]; exact I].
    apply (ensures_after (fun _ => True)); [intros s a s' _; exact I |]. intros text _.
    cbv zeta. set (category := str_lower (PyStr.strip text)).
    eapply ensures_after; [apply fetch_products_dummyjson_offered |]. intros ps Hps.
    apply (ensures_after
             (fun l => Forall (offered [tag_dummyjson]) l
                       \/ (Forall (offered [tag_fakestore]) l /\ (List.length l <= 6)%nat))).
    + destruct (nonempty ps); simpl negb; cbv iota.
      * apply yields_ret. left. exact Hps.
      * intros s a s' E. right.
        apply (fetch_products_fakestore_offer w "" category 6 s a s' E).
    + intros fs Hfs. destruct fs as [|p fs]; simpl nonempty; cbv iota.
      { intros s a s' [= <- _]. exact I. }
      intros s r s' E. apply log_return_state in E as (-> & rt & Cs).
      exists (calls s), "AI Fallback", (List.length (p :: fs)), rt.
      split; [exact Cs|]. cbn [fst snd]. split.
      * unfold result_shape. do 5 right. left. split; [reflexivity|]. split.
        -- destruct Hfs as [H|[H L]]; [left | right; split; [|exact L]];
             eapply Forall_offered_tagged; exact H.
        -- simpl. split; [lia | reflexivity].
      * destruct Hfs as [H|[H _]]; eapply Forall_offered_priced; exact H.
  - intros [result|] s1 R b s2 E.
    + injection E as <- <-. exact R.
    + eapply shape_safety_fallback. exact E.
Qed.

Lemma shape_context_ai :
  ensures (shaped_result query emotion) (step_context_ai w start_time emotion query).
Proof.
  unfold step_context_ai.
  eapply ensures_after; [apply context_aware_ai_search_offer |].
  intros [ps msg] [[Hps Hcap] _]. cbn [fst] in *.
  destruct ps as [|p ps]; simpl nonempty; cbv iota; [apply shape_ai_fallback|].
  apply ensures_log_return; [| eapply Forall_offered_priced; exact Hps].
  unfold result_shape. do 4 right. left.
  split; [reflexivity|]. split; [eapply Forall_offered_tagged; exact Hps|].
  simpl in *. split; [lia | reflexivity].
Qed.

Lemma shape_web_search :
  ensures (shaped_result query emotion) (step_web_search w start_time emotion query).
Proof.
  unfold step_web_search.
  destruct (PyStr.truthy (PyStr.strip query)); [| apply shape_context_ai].
  eapply ensures_after; [apply search_web_products_offer |].
  intros ps [Hps Hcap].
  destruct (nonempty ps && (3 <=? List.length ps)%nat) eqn:C; [| apply shape_context_ai].
  apply andb_prop in C as [_ C]. apply Nat.leb_le in C.
  apply ensures_log_return; [| eapply Forall_offered_priced; exact Hps].
  unfold result_shape. do 3 right. left.
  split; [reflexivity|]. split; [eapply Forall_offered_tagged; exact Hps|].
  split; [lia | reflexivity].
Qed.

Lemma shape_semantic_ai :
  ensures (shaped_result query emotion) (step_semantic_ai w start_time emotion query).
Proof.
  unfold step_semantic_ai.
  destruct (PyStr.truthy (PyStr.strip query)
            && (3 <? PyStr.len (PyStr.strip query))%nat); [| apply shape_web_search].
  eapply ensures_after; [apply semantic_product_search_offer |].
  intros ps [Hps Hcap].
  destruct (nonempty ps && (3 <=? List.length ps)%nat) eqn:C; [| apply shape_web_search].
  apply andb_prop in C as [_ C]. apply Nat.leb_le in C.
  apply ensures_log_return; [| eapply Forall_offered_priced; exact Hps].
  unfold result_shape. do 2 right. left.
  split; [reflexivity|]. split; [eapply Forall_offered_tagged; exact Hps|].
  split; [lia | reflexivity].
Qed.

Lemma shape_historical_pattern :
  ensures (shaped_result query emotion) (step_historical_pattern w start_time emotion query).
Proof.
  unfold step_historical_pattern.
  apply (ensures_after (fun _ => True)); [intros s a s' _; exact I |].
  intros [hs|] _; [| apply shape_semantic_ai].
  destruct (2 <? success_count hs); [| apply shape_semantic_ai].
  eapply ensures_after; [apply pattern_fan_out_offered |].
  intros ps Hps. destruct ps as [|p ps]; simpl nonempty; cbv iota;
    [apply shape_semantic_ai|].
  apply ensures_log_return.
  - unfold result_shape. right. left. split; [reflexivity|]. split.
    + apply Forall_firstn_of. eapply Forall_offered_tagged. exact Hps.
    + rewrite length_firstn. simpl List.length. split; [lia | reflexivity].
  - apply Forall_firstn_of. eapply Forall_offered_priced. exact Hps.
Qed.

Lemma shape_local_business :
  ensures (shaped_result query emotion) (step_local_business w start_time emotion query).
Proof.
  unfold step_local_business.
  eapply ensures_after; [apply search_business_products_offer |].
  intros ps [Hps Hcap].
  destruct ps as [|p ps]; simpl nonempty; cbv iota; [apply shape_historical_pattern|].
  apply ensures_log_return; [| eapply Forall_offered_priced; exact Hps].
  unfold result_shape. left.
  split; [reflexivity|]. split; [eapply Forall_offered_tagged; exact Hps|].
  simpl in *. split; [lia | reflexivity].
Qed.

End Shape.

Lemma search_shape {lib : PyLib} (w : World) (emotion query : string) (s : state) :
  exists products msg s',
    neurochat_product_search w emotion query s = (Ret (products, msg), s')
    /\ shaped_result query emotion (products, msg) s'.
Proof.
  destruct (step_local_business_attempt w (w_time w (tick s)) emotion query (ticked s))
    as (products & msg & s' & _ & _ & _ & E & _).
  exists products, msg, s'. unfold neurochat_product_search. rewrite time_time_then.
  split; [exact E|]. eapply shape_local_business. exact E.
Qed.

(** X1. How many products a search returns. Every run ends by logging its
    attempt, and what it returns fits the name it logs: the list is empty
    exactly under "No Results", and then the message is the "still learning"
    one and the logged count is 0; under "Semantic AI" and "Web Search" there
    are at least three products; under every name but "AI Fallback" and
    "Safety Fallback", whose catalogue answer is not cut, there are at most
    six. *)
Theorem search_result_sizes {lib : PyLib} (w : World) (emotion query : string) (s : state) :
  exists products msg s' cs method n rt,
    neurochat_product_search w emotion query s = (Ret (products, msg), s')
    /\ calls s' = (cs ++ [Call_log_recommendation_analytics query emotion method n rt])%list
    /\ (products = [] <-> method = "No Results")
    /\ (products = [] -> msg = still_learning /\ n = 0%nat)
    /\ (method = "Semantic AI" \/ method = "Web Search" -> (3 <= List.length products)%nat)
    /\ (method <> "AI Fallback" -> method <> "Safety Fallback" ->
        (List.length products <= 6)%nat).
Proof.
  destruct (search_shape w emotion query s)
    as (products & msg & s' & E & cs & method & n & rt & Cs & Sh & _).
  exists products, msg, s', cs, method, n, rt.
  split; [exact E|]. split; [exact Cs|].
  unfold result_shape in Sh. cbn [fst snd] in Sh.
  destruct Sh as [(-> & _ & B & _)|[(-> & _ & B & _)|[(-> & _ & B & _)|[(-> & _ & B & _)
    |[(-> & _ & B & _)|[(-> & _ & B & _)|[(-> & _ & B & _)|(-> & -> & -> & ->)]]]]]]].
  8: { repeat split; auto; intros; try discriminate; try (simpl; lia).
       destruct H; discriminate. }
  all: split; [split; [intros Hp; rewrite Hp in B; simpl in B; lia | discriminate]|].
  all: split; [intros Hp; rewrite Hp in B; simpl in B; lia|].
  all: split; [intros [H|H]; try discriminate H; lia |].
  all: intros H1 H2; try congruence; lia.
Qed.

(** X2. What the returned products carry. Every product that a search returns
    has a price that starts with the rupee sign or is the placeholder "See
    website", and the source tag of the adapter that the logged name stands
    for: the local tag under "Local Business", the semantic tag under
    "Semantic AI", the web tag under "Web Search", the tag of the first
    catalogue under "Historical Pattern" and "Safety Fallback", and the tag of
    one of the two catalogues under "Context AI" and "AI Fallback". *)
Theorem search_result_tags {lib : PyLib} (w : World) (emotion query : string) (s : state) :
  exists products msg s' cs method n rt,
    neurochat_product_search w emotion query s = (Ret (products, msg), s')
    /\ calls s' = (cs ++ [Call_log_recommendation_analytics query emotion method n rt])%list
    /\ Forall priced products
    /\ (method = "Local Business" -> Forall (tagged [tag_local]) products)
    /\ (method = "Semantic AI" -> Forall (tagged [tag_semantic]) products)
    /\ (method = "Web Search" -> Forall (tagged [tag_web]) products)
    /\ (method = "Historical Pattern" \/ method = "Safety Fallback" ->
        Forall (tagged [tag_dummyjson]) products)
    /\ (method = "Context AI" \/ method = "AI Fallback" ->
        Forall (tagged [tag_dummyjson; tag_fakestore]) products).
Proof.
  destruct (search_shape w emotion query s)
    as (products & msg & s' & E & cs & method & n & rt & Cs & Sh & Pr).
  exists products, msg, s', cs, method, n, rt.
  split; [exact E|]. split; [exact Cs|]. split; [exact Pr|].
  unfold result_shape in Sh. cbn [fst snd] in Sh.
  assert (forall l, Forall (tagged [tag_dummyjson]) l ->
                    Forall (tagged [tag_dummyjson; tag_fakestore]) l) as D.
  { intros l. apply Forall_impl. intros p. apply tagged_incl.
    intros t [<-|[]]. simpl. auto. }
  assert (forall l, Forall (tagged [tag_fakestore]) l ->
                    Forall (tagged [tag_dummyjson; tag_fakestore]) l) as F.
  { intros l. apply Forall_impl. intros p. apply tagged_incl.
    intros t [<-|[]]. simpl. auto. }
  destruct Sh as [(-> & T & _)|[(-> & T & _)|[(-> & T & _)|[(-> & T & _)
    |[(-> & T & _)|[(-> & T & _)|[(-> & T & _)|(-> & -> & _)]]]]]]];
    repeat split; try (intros [H|H]; try discriminate H); try (intros H; try discriminate H);
    auto.
  destruct T as [T|[T _]]; auto.
Qed.

(** ** The adapters, run from any state *)

Lemma returns_yields {A} (P : A -> Prop) (m : Py A) :
  returns m -> yields P m -> forall s, exists a s', m s = (Ret a, s') /\ P a.
Proof.
  intros R Y s. destruct (R s) as [a Ea].
  destruct (m s) as [o s'] eqn:E. simpl in Ea. subst o.
  exists a, s'. split; [reflexivity | eapply Y; exact E].
Qed.

(** X3. What the adapters hand to the orchestrator. Whatever the world and the
    state, each adapter returns a list (it never raises) whose products all
    carry the adapter's own source tag and a price that starts with the rupee
    sign or is "See website". The local catalogue returns at most 6 products;
    the semantic generator, the web search and the second catalogue return at
    most [limit] products. The first catalogue gives no such bound: it returns
    what the service sent. *)
Theorem adapters_cap_and_tag {lib : PyLib} (w : World) (emotion query category : string)
    (limit : nat) (s : state) :
  (exists l s', search_business_products w emotion query s = (Ret l, s')
                /\ Forall (offered [tag_local]) l /\ (List.length l <= 6)%nat)
  /\ (exists l s', semantic_product_search w query limit s = (Ret l, s')
                   /\ Forall (offered [tag_semantic]) l /\ (List.length l <= limit)%nat)
  /\ (exists l s', search_web_products w query limit s = (Ret l, s')
                   /\ Forall (offered [tag_web]) l /\ (List.length l <= limit)%nat)
  /\ (exists l s', fetch_products_fakestore w query category limit s = (Ret l, s')
                   /\ Forall (offered [tag_fakestore]) l /\ (List.length l <= limit)%nat)
  /\ (exists l s', fetch_products_dummyjson w query category limit s = (Ret l, s')
                   /\ Forall (offered [tag_dummyjson]) l).
Proof.
  split; [| split; [| split; [| split]]].
  - apply (returns_yields (offer [tag_local] 6));
      [apply returns_search_business_products | apply search_business_products_offer].
  - apply (returns_yields (offer [tag_semantic] limit));
      [apply returns_semantic_product_search | apply semantic_product_search_offer].
  - apply (returns_yields (offer [tag_web] limit));
      [apply returns_search_web_products | apply search_web_products_offer].
  - apply (returns_yields (offer [tag_fakestore] limit));
      [apply returns_fetch_products_fakestore | apply fetch_products_fakestore_offer].
  - apply returns_yields;
      [apply returns_fetch_products_dummyjson | apply fetch_products_dummyjson_offered].
Qed.

(** X4. The context-aware search. Whatever the world and the state, it returns
    a pair of at most 6 products and a message; every product carries the tag
    of one of the two catalogues and a rupee price; and the message is empty
    exactly when the list is. *)
Theorem context_search_result {lib : PyLib} (w : World) (emotion query : string) (s : state) :
  exists products msg s',
    context_aware_ai_search w emotion query s = (Ret (products, msg), s')
    /\ Forall (offered [tag_dummyjson; tag_fakestore]) products
    /\ (List.length products <= 6)%nat
    /\ (products = [] <-> msg = "").
Proof.
  destruct (returns_yields _ _ (returns_context_aware_ai_search w emotion query)
              (context_aware_ai_search_offer w emotion query) s)
    as ([products msg] & s' & E & [F L] & M).
  exists products, msg, s'. auto.
Qed.

(** ** Where the result of a search comes from *)

Lemma after_call {A B} (s : state) (m : Py A) (k : A -> Py B) (Q : B -> state -> Prop) :
  keeps m ->
  (forall a, produced_after s m a -> after s (k a) Q) ->
  after s (bind m k) Q.
Proof.
  intros K Hk s0 b s' Q0 E. unfold bind in E.
  pose proof (K s0) as Q1.
  destruct (m s0) as [[a|] s1] eqn:Em; [|discriminate]. simpl in Q1.
  apply (Hk a) with s1; [exists s0, s1; auto | eapply quiet_trans; eassumption | exact E].
Qed.

Section Source.

Context {lib : PyLib} (w : World).
Variables (start_time : float) (emotion query : string) (s : state).

Lemma after_log_return method products msg n :
  result_source w s emotion query method products msg ->
  (products = [] <-> method = "No Results") ->
  after s (bind (log_attempt w start_time query emotion method n)
                (fun _ => ret (products, msg)))
        (sourced_result w s emotion query).
Proof.
  intros Src Em s0 r s' _ E.
  apply (log_return_state w start_time emotion query) in E as (-> & rt & Cs).
  exists (calls s0), method, n, rt. auto.
Qed.

Ltac not_empty := split; [discriminate | discriminate].

Lemma source_safety_fallback :
  after s (step_safety_fallback w start_time emotion query) (sourced_result w s emotion query).
Proof.
  unfold step_safety_fallback.
  apply after_call; [apply keeps_fetch_products_dummyjson |].
  intros ps Hps. destruct ps as [|p ps]; simpl nonempty; cbv iota.
  - apply after_log_return; [| tauto]. unfold result_source. do 7 right. auto.
  - apply after_log_return; [| not_empty]. unfold result_source. do 6 right. left. auto.
Qed.

Lemma source_ai_fallback :
  after s (step_ai_fallback w start_time emotion query) (sourced_result w s emotion query).
Proof.
  unfold step_ai_fallback. intros s0 r s' Q0.
  pose proof (keeps_generate_content w (FallbackPrompt query emotion) s0) as K0.
  unfold bind at 1. unfold try_except. unfold bind at 1.
  destruct (generate_content w (FallbackPrompt query emotion) s0) as [[text|] s1] eqn:Eg;
    simpl in K0.
  2:{ simpl. apply source_safety_fallback. eapply quiet_trans; eassumption. }
  assert (produced_after s (generate_content w (FallbackPrompt query emotion)) text) as Pg
    by (exists s0, s1; auto).
  assert (quiet s s1) as Q1 by (eapply quiet_trans; eassumption).
  set (category := str_lower (PyStr.strip text)).
  destruct (run_quietly _ (returns_fetch_products_dummyjson w "" category 6)
              (keeps_fetch_products_dummyjson w "" category 6) s1) as (ps & s2 & E2 & K2).
  rewrite (bind_ret_eq _ _ _ _ _ E2).
  assert (produced_after s (fetch_products_dummyjson w "" category 6) ps) as Pd
    by (exists s1, s2; auto).
  assert (quiet s s2) as Q2 by (eapply quiet_trans; eassumption).
  assert (exists ps' s3,
            (if negb (nonempty ps) then fetch_products_fakestore w "" category 6
             else ret ps) s2 = (Ret ps', s3)
            /\ quiet s s3
            /\ (produced_after s (fetch_products_dummyjson w "" category 6) ps'
                \/ (produced_after s (fetch_products_dummyjson w "" category 6) []
                    /\ produced_after s (fetch_products_fakestore w "" category 6) ps')))
    as (ps' & s3 & E3 & Q3 & P3).
  { destruct ps as [|p ps]; simpl.
    - destruct (run_quietly _ (returns_fetch_products_fakestore w "" category 6)
                  (keeps_fetch_products_fakestore w "" category 6) s2)
        as (fs & s3 & E3 & K3).
      exists fs, s3. split; [exact E3|]. split; [eapply quiet_trans; eassumption|].
      right. split; [exact Pd | exists s2, s3; auto].
    - exists (p :: ps), s2. auto. }
  rewrite (bind_ret_eq _ _ _ _ _ E3).
  destruct ps' as [|p' ps']; unfold nonempty at 1; cbv iota.
  - simpl. apply source_safety_fallback. exact Q3.
  - destruct (log_attempt_spec w start_time emotion query "AI Fallback"
                (List.length (p' :: ps')) s3) as (s4 & E4 & Cs & _).
    rewrite (bind_ret_eq _ _ _ _ _ E4). simpl. intros E. injection E as <- <-.
    eexists (calls s3), "AI Fallback", _, _. split; [exact Cs|]. cbn [fst snd]. split.
    + unfold result_source. do 5 right. left. split; [reflexivity|].
      exists text. fold category. cbv zeta. auto.
    + not_empty.
Qed.

Lemma source_context_ai :
  after s (step_context_ai w start_time emotion query) (sourced_result w s emotion query).
Proof.
  unfold step_context_ai.
  apply after_call; [apply keeps_context_aware_ai_search |].
  intros [ps msg] Hps.
  destruct ps as [|p ps]; simpl nonempty; cbv iota; [apply source_ai_fallback|].
  apply after_log_return; [| not_empty]. unfold result_source. do 4 right. left. auto.
Qed.

Lemma source_web_search :
  after s (step_web_search w start_time emotion query) (sourced_result w s emotion query).
Proof.
  unfold step_web_search.
  destruct (PyStr.truthy (PyStr.strip query)) eqn:T; [| apply source_context_ai].
  apply after_call; [apply keeps_search_web_products |].
  intros ps Hps.
  destruct (nonempty ps && (3 <=? List.length ps)%nat) eqn:C; [| apply source_context_ai].
  apply andb_prop in C as [C _].
  apply after_log_return.
  - unfold result_source. do 3 right. left. split; [reflexivity|].
    split; [intros Z; rewrite Z in T; discriminate | auto].
  - split; [intros ->; discriminate | discriminate].
Qed.

Lemma source_semantic_ai :
  after s (step_semantic_ai w start_time emotion query) (sourced_result w s emotion query).
Proof.
  unfold step_semantic_ai.
  destruct (PyStr.truthy (PyStr.strip query)
            && (3 <? PyStr.len (PyStr.strip query))%nat) eqn:T;
    [| apply source_web_search].
  apply andb_prop in T as [_ T]. apply Nat.ltb_lt in T.
  apply after_call; [apply keeps_semantic_product_search |].
  intros ps Hps.
  destruct (nonempty ps && (3 <=? List.length ps)%nat) eqn:C; [| apply source_web_search].
  apply andb_prop in C as [C _].
  apply after_log_return.
  - unfold result_source. do 2 right. left. auto.
  - split; [intros ->; discriminate | discriminate].
Qed.

Lemma source_historical_pattern :
  after s (step_historical_pattern w start_time emotion query)
        (sourced_result w s emotion query).
Proof.
  unfold step_historical_pattern.
  apply after_call; [apply keeps_get_successful_recommendations |].
  intros [hs|] Hh; [| apply source_semantic_ai].
  destruct (2 <? success_count hs) eqn:T; [| apply source_semantic_ai].
  apply Z.ltb_lt in T.
  apply after_call; [apply keeps_pattern_fan_out |].
  intros fan Hfan. destruct fan as [|p fan]; simpl nonempty; cbv iota;
    [apply source_semantic_ai|].
  apply after_log_return.
  - unfold result_source. right. left. split; [reflexivity|].
    exists hs, (p :: fan). auto.
  - simpl. not_empty.
Qed.

Lemma source_local_business :
  after s (step_local_business w start_time emotion query) (sourced_result w s emotion query).
Proof.
  unfold step_local_business.
  apply after_call; [apply keeps_search_business_products |].
  intros ps Hps.
  destruct ps as [|p ps]; simpl nonempty; cbv iota; [apply source_historical_pattern|].
  apply after_log_return; [| not_empty]. unfold result_source. left. auto.
Qed.

End Source.

Lemma search_source {lib : PyLib} (w : World) (emotion query : string) (s : state) :
  exists products msg s',
    neurochat_product_search w emotion query s = (Ret (products, msg), s')
    /\ sourced_result w s emotion query (products, msg) s'.
Proof.
  destruct (step_local_business_attempt w (w_time w (tick s)) emotion query (ticked s))
    as (products & msg & s' & _ & _ & _ & E & _).
  exists products, msg, s'. unfold neurochat_product_search. rewrite time_time_then.
  split; [exact E|].
  eapply source_local_business; [| exact E].
  unfold quiet, ticked. simpl. auto.
Qed.

(** X5. Where the result of a search comes from. The name under which a run
    logs its attempt tells which adapter the returned products are from: they
    are exactly what that adapter returned, called with the emotion and the
    query of the search (or, for the two steps that look up categories, with
    the categories of the stored pattern or the category named by the
    completion service) at a moment of the run when nothing had been written
    to the database yet. The message is the one of that step. "Semantic AI"
    requires a query of more than three characters once stripped, "Web Search"
    a query that is not blank, "Historical Pattern" a stored pattern with more
    than two successes, of which the first six products of the fan-out are
    returned. *)
Theorem search_result_source {lib : PyLib} (w : World) (emotion query : string) (s : state) :
  exists products msg s' cs method n rt,
    neurochat_product_search w emotion query s = (Ret (products, msg), s')
    /\ calls s' = (cs ++ [Call_log_recommendation_analytics query emotion method n rt])%list
    /\ result_source w s emotion query method products msg.
Proof.
  destruct (search_source w emotion query s)
    as (products & msg & s' & E & cs & method & n & rt & Cs & Src & _).
  exists products, msg, s', cs, method, n, rt. auto.
Qed.

(** ** Outages *)

Lemma produced_yields {A} (P : A -> Prop) (s : state) (m : Py A) (a : A) :
  yields P m -> produced_after s m a -> P a.
Proof. intros Y (s0 & s1 & _ & E). eapply Y. exact E. Qed.

Lemma yields_of_fst {A} (m : Py A) (a0 : A) :
  (forall s, fst (m s) = Ret a0) -> yields (fun a => a = a0) m.
Proof. intros H s a s' E. specialize (H s). rewrite E in H. simpl in H. congruence. Qed.

Lemma raises_never_produced {A} (s : state) (m : Py A) (a : A) :
  (forall s0, fst (m s0) = Exn) -> ~ produced_after s m a.
Proof. intros H (s0 & s1 & _ & E). specialize (H s0). rewrite E in H. discriminate. Qed.

Section Outages.

Context {lib : PyLib} (w : World).

Lemma search_web_products_no_key query limit s :
  w_getenv w "GOOGLE_SEARCH_API_KEY" = "" \/ w_getenv w "GOOGLE_SEARCH_ENGINE_ID" = "" ->
  search_web_products w query limit s
  = (Ret [], {| db := db s; tick := tick s;
                calls := (calls s ++ [Call_search_web_products query limit])%list |}).
Proof.
  intros H. unfold search_web_products, bind, try_except, record_call. cbv zeta.
  destruct H as [-> | ->]; simpl; [reflexivity|].
  rewrite orb_true_r. reflexivity.
Qed.

Lemma generate_content_failed p s :
  w_complete w (tick s) p = None -> fst (generate_content w p s) = Exn.
Proof.
  intros H. unfold generate_content, bind, record_call, external, lift. simpl.
  rewrite H. reflexivity.
Qed.

Section Offline.

Hypothesis offline : forall n req, http_failed (w_http w n req).

Lemma fetch_products_dummyjson_offline query category limit :
  yields (fun l => l = []) (fetch_products_dummyjson w query category limit).
Proof. apply yields_of_fst. intros s. apply fetch_products_dummyjson_failed, offline. Qed.

Lemma fetch_products_fakestore_offline query category limit :
  yields (fun l => l = []) (fetch_products_fakestore w query category limit).
Proof. apply yields_of_fst. intros s. apply fetch_products_fakestore_failed, offline. Qed.

Lemma search_web_products_offline query limit :
  yields (fun l => l = []) (search_web_products w query limit).
Proof. apply yields_of_fst. intros s. apply search_web_products_failed, offline. Qed.

Lemma pattern_fan_out_offline categories :
  yields (fun l => l = []) (pattern_fan_out w categories).
Proof.
  unfold pattern_fan_out. apply yields_for_each; [| reflexivity].
  intros acc category ->.
  eapply yields_bind; [apply fetch_products_dummyjson_offline |].
  intros ps ->. apply yields_ret. reflexivity.
Qed.

Lemma context_aware_ai_search_offline emotion query :
  yields (fun r => fst r = []) (context_aware_ai_search w emotion query).
Proof.
  unfold context_aware_ai_search. apply yields_bind_any. intros _.
  apply yields_try; [| apply yields_ret; reflexivity].
  apply yields_bind_any. intros now. apply yields_bind_any. intros text. cbv zeta.
  apply (yields_bind (fun l => l = [])).
  - apply yields_for_each; [| reflexivity].
    intros acc category ->.
    eapply yields_bind; [apply fetch_products_dummyjson_offline |].
    intros ps ->. simpl.
    eapply yields_bind; [apply fetch_products_fakestore_offline |].
    intros fs ->. apply yields_ret. reflexivity.
  - intros l ->. simpl. apply yields_ret. reflexivity.
Qed.

End Offline.

End Outages.

(** X6. Without the keys of the web search. When one of the two environment
    variables of the web search is empty, [search_web_products] returns the
    empty list without sending a request (the clock of the world does not
    move), and no search is answered under "Web Search". *)
Theorem no_key_no_web_search {lib : PyLib} (w : World) (emotion query : string) (s : state) :
  w_getenv w "GOOGLE_SEARCH_API_KEY" = "" \/ w_getenv w "GOOGLE_SEARCH_ENGINE_ID" = "" ->
  (forall limit s0,
      search_web_products w query limit s0
      = (Ret [], {| db := db s0; tick := tick s0;
                    calls := (calls s0 ++ [Call_search_web_products query limit])%list |}))
  /\ exists products msg s' cs method n rt,
       neurochat_product_search w emotion query s = (Ret (products, msg), s')
       /\ calls s' = (cs ++ [Call_log_recommendation_analytics query emotion method n rt])%list
       /\ method <> "Web Search".
Proof.
  intros K. split; [intros; apply search_web_products_no_key; exact K|].
  destruct (search_source w emotion query s)
    as (products & msg & s' & E & cs & method & n & rt & Cs & Src & Em).
  exists products, msg, s', cs, method, n, rt.
  split; [exact E|]. split; [exact Cs|]. cbn [fst snd] in *.
  intros ->.
  destruct Src as [(N & _)|[(N & _)|[(N & _)|[(_ & _ & (s0 & s1 & _ & P) & _)
    |[(N & _)|[(N & _)|[(N & _)|(N & _)]]]]]]]; try discriminate N.
  rewrite search_web_products_no_key in P by exact K. injection P as <- _.
  destruct Em as [Em _]. specialize (Em eq_refl). discriminate.
Qed.

(** The keys are not set. *)
Lemma no_key_no_web_search_witness :
  let w := Examples.offline in
  let s := Examples.fresh Examples.shop_db in
  w_getenv w "GOOGLE_SEARCH_API_KEY" = ""
  /\ fst (search_web_products (lib := Examples.lib) w "tea" 6 s) = Ret []
  /\ tick (snd (search_web_products (lib := Examples.lib) w "tea" 6 s)) = tick s.
Proof.
  intros w s.
  destruct (no_key_no_web_search (lib := Examples.lib) w "happy" "tea" s
              (or_introl eq_refl)) as [Web _].
  split; [reflexivity|]. rewrite (Web 6%nat s). split; reflexivity.
Defined.

(** X7. Without the two catalogues and the web search. When no request sent
    with [requests.get] gives a document (each one raises, is answered by an
    error status, or by a body that is not JSON), a search can only be
    answered from the local catalogue or by the semantic generator, which
    does not go through [requests], or it finds nothing: the name it logs is
    "Local Business", "Semantic AI" or "No Results". *)
Theorem offline_sources {lib : PyLib} (w : World) (emotion query : string) (s : state) :
  (forall n req, http_failed (w_http w n req)) ->
  exists products msg s' cs method n rt,
    neurochat_product_search w emotion query s = (Ret (products, msg), s')
    /\ calls s' = (cs ++ [Call_log_recommendation_analytics query emotion method n rt])%list
    /\ In method ["Local Business"; "Semantic AI"; "No Results"].
Proof.
  intros Off.
  destruct (search_source w emotion query s)
    as (products & msg & s' & E & cs & method & n & rt & Cs & Src & Em).
  exists products, msg, s', cs, method, n, rt.
  split; [exact E|]. split; [exact Cs|]. cbn [fst snd] in *.
  assert (products = [] -> In method ["Local Business"; "Semantic AI"; "No Results"]) as Z.
  { intros Hp. apply Em in Hp. subst method. simpl. auto. }
  destruct Src as [(-> & _)|[(-> & hs & fan & _ & _ & P & -> & _)|[(-> & _)
    |[(-> & _ & P & _)|[(-> & P)|[(-> & text & Src)|[(-> & P & _)|(-> & _)]]]]]]];
    try (simpl; tauto); apply Z.
  - apply (produced_yields _ _ _ _ (pattern_fan_out_offline w Off _)) in P.
    subst fan. reflexivity.
  - exact (produced_yields _ _ _ _ (search_web_products_offline w Off _ _) P).
  - exact (produced_yields _ _ _ _ (context_aware_ai_search_offline w Off _ _) P).
  - cbv zeta in Src. destruct Src as (_ & [P | [_ P]] & _).
    + exact (produced_yields _ _ _ _ (fetch_products_dummyjson_offline w Off _ _ _) P).
    + exact (produced_yields _ _ _ _ (fetch_products_fakestore_offline w Off _ _ _) P).
  - exact (produced_yields _ _ _ _ (fetch_products_dummyjson_offline w Off _ _ _) P).
Qed.

(** No connection: every request raises. *)
Lemma offline_sources_witness :
  exists products msg s' cs method n rt,
    neurochat_product_search (lib := Examples.lib) Examples.offline "happy" "tea"
      (Examples.fresh Examples.shop_db) = (Ret (products, msg), s')
    /\ calls s' = (cs ++ [Call_log_recommendation_analytics "tea" "happy" method n rt])%list
    /\ In method ["Local Business"; "Semantic AI"; "No Results"].
Proof.
  apply (offline_sources (lib := Examples.lib) Examples.offline "happy" "tea"
           (Examples.fresh Examples.shop_db)).
  intros n req. exact I.
Defined.

(** X8. Without the completion service. When every call of the completion
    service raises, no search is answered by a step that depends on it: the
    name it logs is not "Semantic AI", "Context AI" or "AI Fallback". *)
Theorem no_completion_sources {lib : PyLib} (w : World) (emotion query : string) (s : state) :
  (forall n p, w_complete w n p = None) ->
  exists products msg s' cs method n rt,
    neurochat_product_search w emotion query s = (Ret (products, msg), s')
    /\ calls s' = (cs ++ [Call_log_recommendation_analytics query emotion method n rt])%list
    /\ In method ["Local Business"; "Historical Pattern"; "Web Search"; "Safety Fallback";
                  "No Results"].
Proof.
  intros Mute.
  destruct (search_source w emotion query s)
    as (products & msg & s' & E & cs & method & n & rt & Cs & Src & Em).
  exists products, msg, s', cs, method, n, rt.
  split; [exact E|]. split; [exact Cs|]. cbn [fst snd] in *.
  assert (products = [] ->
          In method ["Local Business"; "Historical Pattern"; "Web Search"; "Safety Fallback";
                     "No Results"]) as Z.
  { intros Hp. apply Em in Hp. subst method. simpl. tauto. }
  destruct Src as [(-> & _)|[(-> & _)|[(-> & _ & P & _)
    |[(-> & _)|[(-> & P)|[(-> & text & Src)|[(-> & _)|(-> & _)]]]]]]];
    try (simpl; tauto).
  - apply Z. refine (produced_yields _ _ _ _ (yields_of_fst _ _ _) P).
    intros s0. apply semantic_product_search_failed. rewrite Mute. exact I.
  - apply Z.
    assert ((products, msg) = ([], "")) as [= -> _]; [| reflexivity].
    refine (produced_yields _ _ _ _ (yields_of_fst _ _ _) P).
    intros s0. apply context_aware_ai_search_failed. apply Mute.
  - cbv zeta in Src. destruct Src as (P & _). exfalso.
    revert P. apply raises_never_produced. intros s0.
    apply generate_content_failed, Mute.
Qed.

(** The completion service always raises. *)
Lemma no_completion_sources_witness :
  exists products msg s' cs method n rt,
    neurochat_product_search (lib := Examples.lib) Examples.broken "happy" "tea"
      (Examples.fresh Examples.shop_db) = (Ret (products, msg), s')
    /\ calls s' = (cs ++ [Call_log_recommendation_analytics "tea" "happy" method n rt])%list
    /\ In method ["Local Business"; "Historical Pattern"; "Web Search"; "Safety Fallback";
                  "No Results"].
Proof.
  apply (no_completion_sources (lib := Examples.lib) Examples.broken "happy" "tea"
           (Examples.fresh Examples.shop_db)).
  intros n p. reflexivity.
Defined.

(** ** The calls a computation adds *)

Lemma appends_nothing {A} (P : call -> Prop) (m : Py A) : silent m -> appends P m.
Proof. intros H s. exists []. rewrite H, app_nil_r. auto. Qed.

Lemma appends_record_call (P : call -> Prop) c : P c -> appends P (record_call c).
Proof. intros H s. exists [c]. simpl. auto. Qed.

Lemma appends_bind {A B} (P : call -> Prop) (m : Py A) (k : A -> Py B) :
  appends P m -> (forall a, appends P (k a)) -> appends P (bind m k).
Proof.
  intros Hm Hk s. unfold bind. destruct (Hm s) as (new & E & F).
  destruct (m s) as [[a|] s1]; simpl in *; [| eauto].
  destruct (Hk a s1) as (new' & E' & F').
  exists (new ++ new')%list. rewrite E', E, app_assoc. split; [reflexivity|].
  apply Forall_app. auto.
Qed.

Lemma appends_try {A} (P : call -> Prop) (m h : Py A) :
  appends P m -> appends P h -> appends P (try_except m h).
Proof.
  intros Hm Hh s. unfold try_except. destruct (Hm s) as (new & E & F).
  destruct (m s) as [[a|] s1]; simpl in *; [eauto |].
  destruct (Hh s1) as (new' & E' & F').
  exists (new ++ new')%list. rewrite E', E, app_assoc. split; [reflexivity|].
  apply Forall_app. auto.
Qed.

Lemma appends_for_each {A B} (P : call -> Prop) (l : list A) (body : B -> A -> Py B) :
  (forall acc x, appends P (body acc x)) -> forall acc, appends P (for_each l acc body).
Proof.
  intros Hb. induction l as [|x l IH]; intros acc; simpl.
  - apply appends_nothing, silent_ret.
  - apply appends_bind; [apply Hb | intros; apply IH].
Qed.

Ltac appends_step :=
  lazymatch goal with
  | |- appends _ (bind _ _) => apply appends_bind; [| intros]
  | |- appends _ (try_except _ _) => apply appends_try
  | |- appends _ (ret _) => apply appends_nothing, silent_ret
  | |- appends _ raise => apply appends_nothing, silent_raise
  | |- appends _ (lift _) => apply appends_nothing, silent_lift
  | |- appends _ (external _) => apply appends_nothing, silent_external
  | |- appends _ get_db => apply appends_nothing, silent_get_db
  | |- appends _ (modify_db _) => apply appends_nothing, silent_modify_db
  | |- appends _ (record_call _) => apply appends_record_call
  | |- appends _ (for_each _ _ _) => apply appends_for_each; intros
  | |- appends _ (if ?b then _ else _) => destruct b
  | |- appends _ (match ?x with _ => _ end) => destruct x
  | |- appends _ (let _ := _ in _) => cbv zeta
  end.

Section Gates.

Context {lib : PyLib} (w : World).
Variables (start_time : float) (emotion query : string).

(** A property of calls that holds of every call but those of the semantic
    generator and of the web search. *)
Variable P : call -> Prop.
Hypothesis others : forall c, generation_call c = false -> web_call c = false -> P c.

Ltac other_call := apply others; reflexivity.

Ltac appends_tac :=
  unfold sqlite3_connect, datetime_now, time_time, requests_get_json, generate_content;
  repeat appends_step; try other_call.

Lemma appends_fetch_products_dummyjson q category limit :
  appends P (fetch_products_dummyjson w q category limit).
Proof. unfold fetch_products_dummyjson. appends_tac. Qed.

Lemma appends_fetch_products_fakestore q category limit :
  appends P (fetch_products_fakestore w q category limit).
Proof. unfold fetch_products_fakestore. appends_tac. Qed.

Lemma appends_log_attempt method n : appends P (log_attempt w start_time query emotion method n).
Proof. unfold log_attempt, log_recommendation_analytics. appends_tac. Qed.

Lemma appends_search_business_products : appends P (search_business_products w emotion query).
Proof. unfold search_business_products. appends_tac. Qed.

Lemma appends_get_successful_recommendations :
  appends P (get_successful_recommendations w query emotion).
Proof. unfold get_successful_recommendations. appends_tac. Qed.

Lemma appends_context_aware_ai_search : appends P (context_aware_ai_search w emotion query).
Proof.
  unfold context_aware_ai_search.
  apply appends_bind; [apply appends_record_call; other_call | intros _].
  apply appends_try; [| apply appends_nothing, silent_ret].
  apply appends_bind; [apply appends_nothing, silent_external | intros now].
  apply appends_bind; [appends_tac | intros text]. cbv zeta.
  apply appends_bind.
  - apply appends_for_each. intros acc category.
    apply appends_bind; [apply appends_fetch_products_dummyjson | intros ps].
    cbv zeta. destruct (_ <? _)%nat; [| apply appends_nothing, silent_ret].
    apply appends_bind; [apply appends_fetch_products_fakestore | intros fs].
    apply appends_nothing, silent_ret.
  - intros all. destruct (nonempty all); apply appends_nothing, silent_ret.
Qed.

Lemma appends_log_return {X} method n (v : X) :
  appends P (bind (log_attempt w start_time query emotion method n) (fun _ => ret v)).
Proof.
  apply appends_bind; [apply appends_log_attempt | intros; apply appends_nothing, silent_ret].
Qed.

Lemma appends_safety_fallback : appends P (step_safety_fallback w start_time emotion query).
Proof.
  unfold step_safety_fallback.
  apply appends_bind; [apply appends_fetch_products_dummyjson | intros ps].
  destruct (nonempty ps); apply appends_log_return.
Qed.

Lemma appends_ai_fallback : appends P (step_ai_fallback w start_time emotion query).
Proof.
  unfold step_ai_fallback. apply appends_bind.
  - apply appends_try; [| apply appends_nothing, silent_ret].
    apply appends_bind; [appends_tac | intros text]. cbv zeta.
    apply appends_bind; [apply appends_fetch_products_dummyjson | intros ps].
    apply appends_bind.
    + destruct (negb (nonempty ps));
        [apply appends_fetch_products_fakestore | apply appends_nothing, silent_ret].
    + intros fs. destruct (nonempty fs);
        [apply appends_log_return | apply appends_nothing, silent_ret].
  - intros [result|]; [apply appends_nothing, silent_ret | apply appends_safety_fallback].
Qed.

Lemma appends_context_ai : appends P (step_context_ai w start_time emotion query).
Proof.
  unfold step_context_ai.
  apply appends_bind; [apply appends_context_aware_ai_search | intros [ps msg]].
  destruct (nonempty ps); [apply appends_log_return | apply appends_ai_fallback].
Qed.

(** The web search is called only when the stripped query is not empty. *)
Hypothesis web_when_not_blank :
  PyStr.strip query <> "" -> forall limit, P (Call_search_web_products query limit).

Lemma appends_web_search : appends P (step_web_search w start_time emotion query).
Proof.
  unfold step_web_search.
  destruct (PyStr.truthy (PyStr.strip query)) eqn:T; [| apply appends_context_ai].
  assert (PyStr.strip query <> "") as N by (intros Z; rewrite Z in T; discriminate).
  apply appends_bind.
  - unfold search_web_products.
    apply appends_bind; [apply appends_record_call, web_when_not_blank, N | intros _].
    appends_tac.
  - intros ps. destruct (nonempty ps && (3 <=? List.length ps)%nat);
      [apply appends_log_return | apply appends_context_ai].
Qed.

(** The semantic generator is called only for a query of more than three
    characters once stripped. *)
Hypothesis short : (PyStr.len (PyStr.strip query) <= 3)%nat.

Lemma appends_semantic_ai : appends P (step_semantic_ai w start_time emotion query).
Proof.
  unfold step_semantic_ai.
  replace (3 <? PyStr.len (PyStr.strip query))%nat with false
    by (symmetry; apply Nat.ltb_ge; exact short).
  rewrite andb_false_r. apply appends_web_search.
Qed.

Lemma appends_historical_pattern :
  appends P (step_historical_pattern w start_time emotion query).
Proof.
  unfold step_historical_pattern.
  apply appends_bind; [apply appends_get_successful_recommendations | intros [hs|]];
    [| apply appends_semantic_ai].
  destruct (2 <? success_count hs); [| apply appends_semantic_ai].
  apply appends_bind.
  - unfold pattern_fan_out. apply appends_for_each. intros acc category.
    apply appends_bind; [apply appends_fetch_products_dummyjson | intros ps].
    apply appends_nothing, silent_ret.
  - intros ps. destruct (nonempty ps); [apply appends_log_return | apply appends_semantic_ai].
Qed.

Lemma appends_local_business : appends P (step_local_business w start_time emotion query).
Proof.
  unfold step_local_business.
  apply appends_bind; [apply appends_search_business_products | intros ps].
  destruct (nonempty ps); [apply appends_log_return | apply appends_historical_pattern].
Qed.

End Gates.

Lemma appends_neurochat_product_search {lib : PyLib} (w : World) (emotion query : string)
    (P : call -> Prop) :
  (forall c, generation_call c = false -> web_call c = false -> P c) ->
  (PyStr.strip query <> "" -> forall limit, P (Call_search_web_products query limit)) ->
  (PyStr.len (PyStr.strip query) <= 3)%nat ->
  appends P (neurochat_product_search w emotion query).
Proof.
  intros others web short. unfold neurochat_product_search.
  apply appends_bind; [apply appends_nothing, silent_external | intros t].
  apply appends_local_business; assumption.
Qed.

(** X9. Queries too short for the generator. When the query, once stripped,
    has at most three characters, a search calls neither the semantic
    generator nor the completion service with the generator's prompt; when it
    is empty once stripped, the search does not call the web search either. *)
Theorem short_query_skips_generation {lib : PyLib} (w : World) (emotion query : string)
    (s : state) :
  (PyStr.len (PyStr.strip query) <= 3)%nat ->
  exists new,
    calls (snd (neurochat_product_search w emotion query s)) = (calls s ++ new)%list
    /\ Forall (fun c => generation_call c = false) new
    /\ (PyStr.strip query = "" -> Forall (fun c => web_call c = false) new).
Proof.
  intros Short.
  destruct (appends_neurochat_product_search w emotion query
              (fun c => generation_call c = false)) with (s := s) as (new & E & F).
  - auto.
  - reflexivity.
  - exact Short.
  - exists new. split; [exact E|]. split; [exact F|]. intros Blank.
    destruct (appends_neurochat_product_search w emotion query
                (fun c => web_call c = false)) with (s := s) as (new' & E' & F').
    + auto.
    + intros N. contradiction.
    + exact Short.
    + rewrite E in E'. apply app_inv_head in E'. subst new'. exact F'.
Qed.

(** A query of three characters, which take nine bytes, between blanks. *)
Lemma short_query_skips_generation_witness :
  String.length " चाय " = 11%nat
  /\ exists new,
       calls (snd (neurochat_product_search (lib := Examples.lib) Examples.online "happy"
                     " चाय " (Examples.fresh Examples.empty_db))) = new
       /\ Forall (fun c => generation_call c = false) new.
Proof.
  split; [reflexivity|].
  destruct (short_query_skips_generation (lib := Examples.lib) Examples.online "happy"
              " चाय " (Examples.fresh Examples.empty_db)) as (new & E & F & _).
  - vm_compute. lia.
  - exists new. split; [exact E | exact F].
Defined.

(* ================================================================== *)
(** * The pattern store *)

(** ** The order of the lookup *)

Lemma ascii_compare_lt_trans a b c :
  Ascii.compare a b = Lt -> Ascii.compare b c = Lt -> Ascii.compare a c = Lt.
Proof.
  unfold Ascii.compare. rewrite !N.compare_lt_iff. lia.
Qed.

Lemma string_compare_lt_trans a : forall b c,
  String.compare a b = Lt -> String.compare b c = Lt -> String.compare a c = Lt.
Proof.
  induction a as [|x a IH]; intros [|y b] [|z c]; simpl; try discriminate; auto.
  destruct (Ascii.compare x y) eqn:Exy; try discriminate.
  - apply Ascii.compare_eq_iff in Exy. subst y.
    destruct (Ascii.compare x z); try discriminate; auto. apply IH.
  - intros _. destruct (Ascii.compare y z) eqn:Eyz; try discriminate.
    + apply Ascii.compare_eq_iff in Eyz. subst z. rewrite Exy. reflexivity.
    + intros _. rewrite (ascii_compare_lt_trans _ _ _ Exy Eyz). reflexivity.
Qed.

Lemma string_ltb_trans a b c :
  String.ltb a b = true -> String.ltb b c = true -> String.ltb a c = true.
Proof.
  unfold String.ltb. intros H1 H2.
  destruct (String.compare a b) eqn:E1; try discriminate.
  destruct (String.compare b c) eqn:E2; try discriminate.
  rewrite (string_compare_lt_trans _ _ _ E1 E2). reflexivity.
Qed.

Lemma string_ltb_irrefl a : String.ltb a a = false.
Proof.
  unfold String.ltb. pose proof (String.compare_antisym a a) as H.
  destruct (String.compare a a); try reflexivity; discriminate.
Qed.

(** Not before: no more successes, and with as many no later success. *)
Lemma pattern_before_false x y :
  pattern_before x y = false
  <-> sp_success_count x <= sp_success_count y
      /\ (sp_success_count x = sp_success_count y ->
          String.ltb (sp_last_success y) (sp_last_success x) = false).
Proof.
  unfold pattern_before. rewrite orb_false_iff, andb_false_iff, Z.ltb_ge, Z.eqb_neq.
  split.
  - intros [L [N|N]]; split; auto. intros E. contradiction.
  - intros [L H]. split; [exact L|].
    destruct (Z.eq_dec (sp_success_count x) (sp_success_count y)); auto.
Qed.

Lemma pattern_before_true x y :
  pattern_before x y = true
  <-> sp_success_count y < sp_success_count x
      \/ (sp_success_count x = sp_success_count y
          /\ String.ltb (sp_last_success y) (sp_last_success x) = true).
Proof.
  unfold pattern_before. rewrite orb_true_iff, andb_true_iff, Z.ltb_lt, Z.eqb_eq. tauto.
Qed.

Lemma pattern_before_irrefl x : pattern_before x x = false.
Proof. apply pattern_before_false. split; [lia | intros _; apply string_ltb_irrefl]. Qed.

Lemma string_ltb_negtrans a b c :
  String.ltb a b = false -> String.ltb b c = false -> String.ltb a c = false.
Proof.
  intros H1 H2. destruct (String.ltb a c) eqn:T; [| reflexivity].
  destruct (String.compare b a) eqn:C.
  - apply String.compare_eq_iff in C. subst b. congruence.
  - assert (String.ltb b a = true) as L by (unfold String.ltb; rewrite C; reflexivity).
    rewrite (string_ltb_trans _ _ _ L T) in H2. discriminate.
  - unfold String.ltb in H1. rewrite String.compare_antisym, C in H1. discriminate.
Qed.

Lemma pattern_before_trans x b r :
  pattern_before x b = true -> pattern_before b r = true -> pattern_before x r = true.
Proof.
  rewrite !pattern_before_true. intros [L|[E T]] [L'|[E' T']]; try (left; lia).
  right. split; [lia|]. eapply string_ltb_trans; eassumption.
Qed.

Lemma pattern_before_negtrans x b r :
  pattern_before x b = false -> pattern_before b r = false -> pattern_before x r = false.
Proof.
  rewrite !pattern_before_false. intros [L H] [L' H']. split; [lia|].
  intros E. apply string_ltb_negtrans with (sp_last_success b); [apply H' | apply H]; lia.
Qed.

(** [ORDER BY ... LIMIT 1]: the row kept is one of the rows and none comes
    before it. *)
Lemma first_by_order_spec rows : forall best,
  match first_by_order best rows with
  | None => best = None /\ rows = []
  | Some r =>
      (best = Some r \/ In r rows)
      /\ (forall b, best = Some b -> pattern_before b r = false)
      /\ (forall r', In r' rows -> pattern_before r' r = false)
  end.
Proof.
  induction rows as [|x rows IH]; intros best; simpl.
  - destruct best as [b|]; [| auto].
    split; [auto|]. split; [| contradiction].
    intros b' [= <-]. apply pattern_before_irrefl.
  - destruct best as [b|].
    + specialize (IH (Some (if pattern_before x b then x else b))).
      destruct (first_by_order _ rows) as [r|]; [| destruct IH; discriminate].
      destruct IH as (I & B & R).
      destruct (pattern_before x b) eqn:X.
      * specialize (B x eq_refl). split; [destruct I as [[= <-]|I]; auto|].
        split.
        -- intros b' [= <-]. destruct (pattern_before b r) eqn:Br; [| reflexivity].
           rewrite (pattern_before_trans _ _ _ X Br) in B. discriminate.
        -- intros r' [<-|Hr']; auto.
      * specialize (B b eq_refl). split; [destruct I as [[= <-]|I]; auto|].
        split; [intros b' [= <-]; exact B|].
        intros r' [<-|Hr']; [| auto].
        eapply pattern_before_negtrans; eassumption.
    + specialize (IH (Some x)).
      destruct (first_by_order (Some x) rows) as [r|]; [| destruct IH; discriminate].
      destruct IH as (I & B & R).
      split; [destruct I as [[= <-]|I]; auto|]. split; [discriminate|].
      intros r' [<-|Hr']; auto.
Qed.

(** ** The lookup *)

Lemma get_successful_recommendations_run {lib : PyLib} (w : World) query emotion s :
  w_db_fault w (tick s) = false ->
  fst (get_successful_recommendations w query emotion s)
  = Ret match sql_best_pattern emotion (PyStr.split (str_lower query))
                (successful_patterns (db s)) with
        | Some (Some row) =>
            Some {| categories := PyStr.split_on "," (sp_successful_categories row);
                    success_count := sp_success_count row |}
        | _ => None
        end.
Proof.
  intros H.
  unfold get_successful_recommendations, sqlite3_connect, bind, try_except, record_call,
    external, get_db, ret, raise.
  simpl. rewrite H. simpl.
  destruct (sql_best_pattern _ _ _) as [[row|]|]; reflexivity.
Qed.

Lemma pattern_matches_iff {lib : PyLib} query emotion r :
  String.eqb (sp_emotion r) emotion
  && existsb (fun word => sql_like (like_param word) (sp_query_pattern r))
       (PyStr.split (str_lower query)) = true
  <-> pattern_matches query emotion r.
Proof.
  unfold pattern_matches. rewrite andb_true_iff, String.eqb_eq, existsb_exists. tauto.
Qed.

(** X10. The lookup returns the best pattern. When its transaction goes
    through, [get_successful_recommendations] returns the categories and the
    count of a stored row that has the emotion and whose query pattern is LIKE
    one of the words of the lowercased query; no such row counts more
    successes, and none with as many has a later last success. It returns the
    empty answer exactly when the store has no such row. *)
Theorem lookup_returns_best_pattern {lib : PyLib} (w : World) (query emotion : string) (s : state) :
  w_db_fault w (tick s) = false ->
  match fst (get_successful_recommendations w query emotion s) with
  | Ret (Some hs) =>
      exists r,
        In r (successful_patterns (db s))
        /\ pattern_matches query emotion r
        /\ categories hs = PyStr.split_on "," (sp_successful_categories r)
        /\ success_count hs = sp_success_count r
        /\ forall r', In r' (successful_patterns (db s)) -> pattern_matches query emotion r' ->
             sp_success_count r' <= sp_success_count r
             /\ (sp_success_count r' = sp_success_count r ->
                 String.ltb (sp_last_success r) (sp_last_success r') = false)
  | Ret None =>
      forall r, In r (successful_patterns (db s)) -> ~ pattern_matches query emotion r
  | Exn => False
  end.
Proof.
  intros H. rewrite get_successful_recommendations_run by exact H.
  unfold sql_best_pattern, like_any_word.
  pose proof (pattern_matches_iff query emotion) as M. unfold pattern_matches in *.
  destruct (PyStr.split (str_lower query)) as [|word words] eqn:W.
  { intros r _ (_ & word & I & _). destruct I. }
  set (matches := fun r => String.eqb (sp_emotion r) emotion
                           && existsb (fun word => sql_like (like_param word)
                                                     (sp_query_pattern r)) (word :: words)).
  pose proof (first_by_order_spec (filter matches (successful_patterns (db s))) None) as F.
  fold matches in F.
  destruct (first_by_order None (filter matches (successful_patterns (db s)))) as [r|].
  - destruct F as ([F|F] & _ & R); [discriminate|].
    apply filter_In in F as [I Mr]. exists r. split; [exact I|].
    split; [apply M; exact Mr|]. simpl. split; [reflexivity|]. split; [reflexivity|].
    intros r' I' M'. apply pattern_before_false. apply R.
    apply filter_In. split; [exact I' | apply M; exact M'].
  - destruct F as [_ F]. intros r I Mr.
    assert (In r (filter matches (successful_patterns (db s)))) as Z
      by (apply filter_In; split; [exact I | apply M; exact Mr]).
    rewrite F in Z. contradiction.
Qed.

(** The stored pattern of gift queries is found by a query that shares a word
    with it. *)
Lemma lookup_returns_best_pattern_witness :
  exists hs,
    fst (get_successful_recommendations (lib := Examples.lib) Examples.online
           "I need a gift" "happy" (Examples.fresh (Examples.pattern_db 3))) = Ret (Some hs)
    /\ success_count hs = 3
    /\ exists r, In r [Examples.gift_pattern 3]
                 /\ pattern_matches (lib := Examples.lib) "I need a gift" "happy" r
                 /\ success_count hs = sp_success_count r.
Proof.
  pose proof (lookup_returns_best_pattern (lib := Examples.lib) Examples.online
                "I need a gift" "happy" (Examples.fresh (Examples.pattern_db 3)) eq_refl) as H.
  destruct (fst (get_successful_recommendations (lib := Examples.lib) Examples.online
                   "I need a gift" "happy" (Examples.fresh (Examples.pattern_db 3))))
    as [[hs|]|] eqn:E;
    [| discriminate E | contradiction].
  exists hs. split; [reflexivity|].
  split; [injection E as <-; reflexivity|].
  destruct H as (r & I & M & _ & C & _). exists r. auto.
Defined.

(** ** One save *)

Section OneSave.

Context {lib : PyLib}.

Variables (query emotion : string) (categories : list string).

Local Abbreviation key := (has_key (pattern_of_query query) emotion (categories_str_of categories)).
Local Abbreviation other := (fun r => negb (key r)).

Lemma update_keeps_others id now t :
  NoDup (map sp_id t) -> In id (map sp_id (filter key t)) ->
  filter other (sql_update_pattern id now t) = filter other t.
Proof.
  induction t as [|r t IH]; simpl; [reflexivity|].
  intros ND Hin. inversion ND as [|x l Hnotin ND']; subst.
  destruct (sp_id r =? id) eqn:E.
  - apply Z.eqb_eq in E. subst id.
    fold (sql_update_pattern (sp_id r) now t). rewrite update_other_rows.
    + unfold has_key at 1 3. simpl. fold (key r). destruct (key r) eqn:Kr; simpl.
      * reflexivity.
      * exfalso. apply Hnotin. apply in_map_iff in Hin as (r' & Hid & Hr').
        apply filter_In in Hr' as [Hr' _]. rewrite <- Hid. apply in_map. exact Hr'.
    + intros r' Hr' Heq. apply Hnotin. rewrite <- Heq. apply in_map. exact Hr'.
  - fold (sql_update_pattern id now t).
    destruct (key r) eqn:Kr; simpl in *.
    + destruct Hin as [Hin|Hin]; [apply Z.eqb_neq in E; contradiction|].
      apply IH; assumption.
    + rewrite IH by assumption. reflexivity.
Qed.

Lemma insert_keeps_others now t :
  filter other (sql_insert_pattern (pattern_of_query query) emotion
                  (categories_str_of categories) now t)
  = filter other t.
Proof.
  unfold sql_insert_pattern. rewrite filter_app. simpl.
  unfold has_key at 2. simpl. rewrite !String.eqb_refl. simpl. apply app_nil_r.
Qed.

Lemma pattern_recorded_spec now t :
  NoDup (map sp_id t) ->
  let t' := pattern_recorded query emotion categories now t in
  NoDup (map sp_id t')
  /\ key_total (pattern_of_query query) emotion (categories_str_of categories) t'
     = key_total (pattern_of_query query) emotion (categories_str_of categories) t + 1
  /\ filter other t' = filter other t
  /\ exists added, map sp_id t' = (map sp_id t ++ added)%list.
Proof.
  intros ND. unfold pattern_recorded.
  destruct (sql_select_pattern _ _ _ t) as [row|] eqn:S; cbv zeta.
  - apply select_some_key_id in S.
    split; [rewrite update_ids; exact ND|].
    split; [apply (update_total query emotion categories); assumption|].
    split; [apply update_keeps_others; assumption|].
    exists []. rewrite update_ids, app_nil_r. reflexivity.
  - split; [apply insert_nodup; exact ND|].
    split; [apply (insert_total query emotion categories)|].
    split; [apply insert_keeps_others|].
    eexists. apply insert_ids.
Qed.

End OneSave.

(** X11. What one save does to the store. On a store whose ids are distinct,
    [save_successful_pattern] raises the successes counted by the rows of its
    key (the first three lowercased words of the query, the emotion, the
    joined categories) by exactly one, or by none when its transaction fails;
    the rows of every other key stay as they were, no row is deleted, the ids
    stay distinct, and no other table is written. *)
Theorem save_counts_one_success {lib : PyLib} (w : World) (query emotion : string)
    (categories : list string) (s : state) :
  NoDup (map sp_id (successful_patterns (db s))) ->
  let k := pattern_of_query query in
  let c := categories_str_of categories in
  let t := successful_patterns (db s) in
  let d' := db (snd (save_successful_pattern w query emotion categories s)) in
  let t' := successful_patterns d' in
  NoDup (map sp_id t')
  /\ key_total k emotion c t' = key_total k emotion c t + (if w_db_fault w (tick s) then 0 else 1)
  /\ filter (fun r => negb (has_key k emotion c r)) t'
     = filter (fun r => negb (has_key k emotion c r)) t
  /\ (exists added, map sp_id t' = (map sp_id t ++ added)%list)
  /\ businesses d' = businesses (db s)
  /\ business_products d' = business_products (db s)
  /\ product_feedback d' = product_feedback (db s)
  /\ recommendation_analytics d' = recommendation_analytics (db s).
Proof.
  intros ND k c t d' t'. subst d' t'. rewrite save_successful_pattern_run.
  destruct (w_db_fault w (tick s)); simpl.
  - split; [exact ND|]. split; [rewrite Z.add_0_r; reflexivity|]. split; [reflexivity|].
    split; [exists []; rewrite app_nil_r; reflexivity|]. auto.
  - destruct (pattern_recorded_spec query emotion categories
                (dt_isoformat (w_now w (S (tick s)))) t ND) as (N & T & O & A).
    split; [exact N|]. split; [exact T|]. split; [exact O|]. split; [exact A|]. auto.
Qed.

(** A third success for the pattern of gift queries, beside a pattern of
    another emotion. *)
Lemma save_counts_one_success_witness :
  let d := set_successful_patterns
             [Examples.gift_pattern 2;
              {| sp_id := 2; sp_query_pattern := "i need a"; sp_emotion := "sad";
                 sp_successful_categories := "furniture,beauty"; sp_success_count := 5;
                 sp_last_success := "2024-01-01T00:00:00" |}] Examples.empty_db in
  let s := Examples.fresh d in
  let t' := successful_patterns
              (db (snd (save_successful_pattern (lib := Examples.lib) Examples.online
                          "I need a gift" "happy" ["furniture"; "beauty"] s))) in
  key_total "i need a" "happy" "furniture,beauty" t' = 3
  /\ key_total "i need a" "sad" "furniture,beauty" t' = 5.
Proof.
  intros d s t'.
  assert (NoDup (map sp_id (successful_patterns (db s)))) as ND.
  { simpl. constructor; [intros [H|[]]; discriminate H|].
    constructor; [intros [] | constructor]. }
  destruct (save_counts_one_success (lib := Examples.lib) Examples.online "I need a gift" "happy"
              ["furniture"; "beauty"] s ND) as (_ & T & _).
  split; [exact T | reflexivity].
Defined.

(** ** LIKE between two [%] *)

Lemma append_empty_r s : (s ++ "")%string = s.
Proof. induction s as [|c s IH]; simpl; [reflexivity | rewrite IH; reflexivity]. Qed.

Lemma append_assoc (a b c : string) : ((a ++ b) ++ c)%string = (a ++ b ++ c)%string.
Proof. induction a as [|x a IH]; simpl; [reflexivity | rewrite IH; reflexivity]. Qed.

Lemma sql_like_percent p t :
  sql_like (String "%" p) t
  = sql_like p t
    || match t with
       | EmptyString => false
       | String _ t' => sql_like (String "%" p) t'
       end.
Proof. destruct t; reflexivity. Qed.

Lemma sql_like_percent_cons p d t :
  sql_like (String "%" p) (String d t) = sql_like p (String d t) || sql_like (String "%" p) t.
Proof. reflexivity. Qed.

Lemma sql_like_any t : sql_like "%" t = true.
Proof.
  induction t as [|d t IH]; rewrite sql_like_percent; [reflexivity|].
  rewrite IH. apply orb_true_r.
Qed.

Lemma sql_like_other c p d t :
  Ascii.eqb c "%" = false ->
  sql_like (String c p) (String d t)
  = if Ascii.eqb c "_" then sql_like p (PyStr.after_character d t)
    else Ascii.eqb (PyStr.ascii_lower_char c) (PyStr.ascii_lower_char d) && sql_like p t.
Proof. intros E. simpl. rewrite E. destruct (Ascii.eqb c "_"); reflexivity. Qed.

(** A text is LIKE its own beginning followed by [%], whatever characters the
    beginning holds. *)
Lemma sql_like_prefix w : forall rest, sql_like (w ++ "%") (w ++ rest) = true.
Proof.
  induction w as [|a w IH]; intros rest.
  - apply sql_like_any.
  - change (String a w ++ "%")%string with (String a (w ++ "%")).
    change (String a w ++ rest)%string with (String a (w ++ rest)).
    destruct (Ascii.eqb a "%") eqn:E.
    + apply Ascii.eqb_eq in E. subst a. rewrite sql_like_percent.
      rewrite (sql_like_percent _ (w ++ rest)), IH. apply orb_true_r.
    + rewrite sql_like_other by exact E.
      destruct (Ascii.eqb a "_") eqn:U; [| rewrite Ascii.eqb_refl; apply IH].
      apply Ascii.eqb_eq in U. subst a. apply IH.
Qed.

Lemma sql_like_inside w : forall pre rest,
  sql_like (like_param w) (pre ++ w ++ rest) = true.
Proof.
  unfold like_param. change ("%" ++ w ++ "%")%string with (String "%" (w ++ "%")).
  induction pre as [|c pre IH]; intros rest.
  - rewrite sql_like_percent. simpl. rewrite sql_like_prefix. reflexivity.
  - change (String c pre ++ w ++ rest)%string with (String c (pre ++ w ++ rest)).
    rewrite sql_like_percent_cons, IH. apply orb_true_r.
Qed.

Lemma pattern_of_query_first_word {lib : PyLib} query word words :
  PyStr.split (str_lower query) = word :: words ->
  exists rest, pattern_of_query query = (word ++ rest)%string.
Proof.
  intros W. unfold pattern_of_query, PyStr.join. rewrite W.
  change (firstn 3 (word :: words)) with (word :: firstn 2 words).
  destruct (firstn 2 words) as [|x l]; simpl.
  - exists "". symmetry. apply append_empty_r.
  - eexists. reflexivity.
Qed.

(** A row of the key of a query that has a word satisfies the lookup for this
    query. *)
Lemma key_row_matches {lib : PyLib} query emotion c r :
  PyStr.split (str_lower query) <> [] ->
  has_key (pattern_of_query query) emotion c r = true ->
  pattern_matches query emotion r.
Proof.
  intros W K. unfold has_key in K.
  apply andb_prop in K as [K _]. apply andb_prop in K as [Kq Ke].
  apply String.eqb_eq in Kq, Ke. split; [exact Ke|].
  destruct (PyStr.split (str_lower query)) as [|word words] eqn:S; [congruence|].
  exists word. split; [left; reflexivity|].
  destruct (pattern_of_query_first_word _ _ _ S) as [rest E].
  rewrite Kq, E. apply (sql_like_inside word "" rest).
Qed.

(** ** Categories, joined and split *)

Lemma split_on_aux_plain sep c : forall cur rest,
  PyStr.contains (String sep "") c = false ->
  PyStr.split_on_aux sep cur (c ++ rest) = PyStr.split_on_aux sep (cur ++ c) rest.
Proof.
  induction c as [|a c IH]; intros cur rest H.
  - rewrite append_empty_r. reflexivity.
  - simpl in H. apply orb_false_iff in H as [Ha Hc].
    destruct (ascii_dec sep a) as [->|N]; [destruct c; discriminate Ha|].
    simpl. destruct (Ascii.eqb a sep) eqn:E;
      [apply Ascii.eqb_eq in E; congruence|].
    rewrite IH by exact Hc. unfold PyStr.snoc. rewrite append_assoc. reflexivity.
Qed.

Lemma split_on_aux_join sep (l : list string) : forall c cur,
  Forall (fun c => PyStr.contains (String sep "") c = false) (c :: l) ->
  PyStr.split_on_aux sep cur (String.concat (String sep "") (c :: l))
  = (cur ++ c)%string :: l.
Proof.
  induction l as [|c' l IH]; intros c cur F; inversion F as [|x y Hc Hl]; subst.
  - simpl. rewrite <- (append_empty_r c) at 1. rewrite split_on_aux_plain by exact Hc.
    reflexivity.
  - change (String.concat (String sep "") (c :: c' :: l))
      with (c ++ String sep (String.concat (String sep "") (c' :: l)))%string.
    rewrite split_on_aux_plain by exact Hc.
    change (PyStr.split_on_aux sep (cur ++ c)
              (String sep (String.concat (String sep "") (c' :: l))))
      with (if Ascii.eqb sep sep
            then (cur ++ c)%string
                 :: PyStr.split_on_aux sep "" (String.concat (String sep "") (c' :: l))
            else PyStr.split_on_aux sep (PyStr.snoc (cur ++ c) sep)
                   (String.concat (String sep "") (c' :: l))).
    rewrite Ascii.eqb_refl. f_equal. apply (IH c' "" Hl).
Qed.

Lemma split_on_join sep (l : list string) :
  l <> [] -> Forall (fun c => PyStr.contains (String sep "") c = false) l ->
  PyStr.split_on sep (PyStr.join (String sep "") l) = l.
Proof.
  unfold PyStr.split_on, PyStr.join. intros N F.
  destruct l as [|c l]; [congruence|]. apply (split_on_aux_join sep l c "" F).
Qed.

(** ** A save, then a lookup *)

Lemma pattern_recorded_has_key_row {lib : PyLib} query emotion categories now t :
  exists r, In r (pattern_recorded query emotion categories now t)
            /\ has_key (pattern_of_query query) emotion (categories_str_of categories) r
               = true.
Proof.
  unfold pattern_recorded, sql_select_pattern.
  destruct (find _ t) as [row|] eqn:S.
  - apply find_some in S as [I K].
    exists {| sp_id := sp_id row; sp_query_pattern := sp_query_pattern row;
              sp_emotion := sp_emotion row;
              sp_successful_categories := sp_successful_categories row;
              sp_success_count := sp_success_count row + 1; sp_last_success := now |}.
    split; [| exact K].
    unfold sql_update_pattern. apply in_map_iff. exists row.
    rewrite Z.eqb_refl. auto.
  - eexists. split; [apply in_or_app; right; left; reflexivity|].
    unfold has_key. simpl. rewrite !String.eqb_refl. reflexivity.
Qed.

Lemma filter_none {A} (f : A -> bool) (l : list A) :
  (forall x, In x l -> f x = false) -> filter f l = [].
Proof.
  induction l as [|x l IH]; intros H; simpl; [reflexivity|].
  rewrite (H x) by (left; reflexivity). apply IH. intros y Hy. apply H. right. exact Hy.
Qed.

(** X12. A saved pattern is found again. Once [save_successful_pattern] has
    recorded a success for a query that has a word, the lookup for the same
    query and emotion returns a pattern (both transactions going through).
    When no row of the store satisfied this lookup before, and the categories
    are a non-empty list of names without a comma, the lookup returns exactly
    the saved categories, counted once. *)
Theorem saved_pattern_is_found {lib : PyLib} (w : World) (query emotion : string)
    (cats : list string) (s : state) :
  PyStr.split (str_lower query) <> [] ->
  w_db_fault w (tick s) = false ->
  w_db_fault w (2 + tick s) = false ->
  exists hs,
    fst (get_successful_recommendations w query emotion
           (snd (save_successful_pattern w query emotion cats s))) = Ret (Some hs)
    /\ ((forall r, In r (successful_patterns (db s)) -> ~ pattern_matches query emotion r) ->
        cats <> [] ->
        Forall (fun c => PyStr.contains "," c = false) cats ->
        hs = {| categories := cats; success_count := 1 |}).
Proof.
  intros W F1 F2. rewrite save_successful_pattern_run, F1. cbn [snd].
  rewrite get_successful_recommendations_run by exact F2. cbn [db successful_patterns
    set_successful_patterns].
  set (now := dt_isoformat (w_now w (S (tick s)))).
  set (t := successful_patterns (db s)).
  pose proof (pattern_matches_iff query emotion) as M.
  pose proof (key_row_matches query emotion (categories_str_of cats)) as KM.
  specialize (fun r => KM r W).
  unfold sql_best_pattern, like_any_word. unfold pattern_matches in M.
  destruct (PyStr.split (str_lower query)) as [|word words] eqn:S; [congruence|].
  set (matches := fun r => String.eqb (sp_emotion r) emotion
                           && existsb (fun word => sql_like (like_param word)
                                                     (sp_query_pattern r)) (word :: words)).
  assert (forall r, has_key (pattern_of_query query) emotion (categories_str_of cats) r = true ->
                    matches r = true) as KM'.
  { intros r K. apply M. apply KM in K. unfold pattern_matches in K. rewrite S in K.
    exact K. }
  destruct (pattern_recorded_has_key_row query emotion cats now t) as (r0 & I0 & K0).
  pose proof (first_by_order_spec (filter matches (pattern_recorded query emotion cats now t))
                None) as F.
  destruct (first_by_order None (filter matches (pattern_recorded query emotion cats now t)))
    as [r|] eqn:FB.
  2:{ destruct F as [_ F].
      assert (In r0 (filter matches (pattern_recorded query emotion cats now t))) as Z
        by (apply filter_In; auto).
      rewrite F in Z. contradiction. }
  eexists. split; [reflexivity|].
  intros NoMatch Ne Plain.
  unfold pattern_recorded, sql_select_pattern in FB.
  destruct (find _ t) as [row|] eqn:Sel.
  - apply find_some in Sel as [I K]. exfalso. apply (NoMatch row I).
    apply KM in K. exact K.
  - unfold sql_insert_pattern in FB. rewrite filter_app in FB.
    rewrite (filter_none matches t) in FB.
    + simpl in FB. rewrite KM' in FB.
      * simpl in FB. injection FB as <-. simpl. f_equal.
        apply (split_on_join ","%char cats Ne Plain).
      * unfold has_key. simpl. rewrite !String.eqb_refl. reflexivity.
    + intros x Hx. destruct (matches x) eqn:Mx; [| reflexivity].
      exfalso. apply (NoMatch x Hx). unfold pattern_matches. rewrite S. apply M. exact Mx.
Qed.

(** The first success of a gift query, on an empty store. *)
Lemma saved_pattern_is_found_witness :
  fst (get_successful_recommendations (lib := Examples.lib) Examples.online "I need a gift" "happy"
         (snd (save_successful_pattern (lib := Examples.lib) Examples.online "I need a gift" "happy"
                 ["furniture"; "beauty"] (Examples.fresh Examples.empty_db))))
  = Ret (Some {| categories := ["furniture"; "beauty"]; success_count := 1 |}).
Proof.
  destruct (saved_pattern_is_found (lib := Examples.lib) Examples.online "I need a gift" "happy"
              ["furniture"; "beauty"] (Examples.fresh Examples.empty_db))
    as (hs & E & H).
  - vm_compute. discriminate.
  - reflexivity.
  - reflexivity.
  - rewrite E. rewrite H; [reflexivity | | discriminate |].
    + intros r [].
    + repeat constructor.
Defined.

(* ================================================================== *)
(** * The confidence of the classifier *)

Lemma prim_01 : Prim2SF 0.1%float = S754_finite false 7205759403792794 (-56).
Proof. vm_compute. reflexivity. Qed.

Lemma prim_03 : Prim2SF 0.3%float = S754_finite false 5404319552844595 (-54).
Proof. vm_compute. reflexivity. Qed.

Lemma prim_minus_01 : Prim2SF (-0.1)%float = S754_finite true 7205759403792794 (-56).
Proof. vm_compute. reflexivity. Qed.

Lemma prim_minus_03 : Prim2SF (-0.3)%float = S754_finite true 5404319552844595 (-54).
Proof. vm_compute. reflexivity. Qed.

(** Finite floats of one sign compare by exponent, then by mantissa. *)
Lemma SFltb_positive m1 e1 m e :
  SFltb (S754_finite false m1 e1) (S754_finite false m e) = true
  <-> (e1 < e \/ (e1 = e /\ (m1 < m)%positive)).
Proof.
  unfold SFltb, SFcompare.
  change (Pos.compare_cont Eq m1 m) with (Pos.compare m1 m).
  destruct (Z.compare_spec e1 e) as [E|L|G].
  - pose proof (Pos.compare_lt_iff m1 m) as C.
    destruct (Pos.compare m1 m); split; intros H; try discriminate H; try lia.
    + destruct H as [H|[_ H]]; [lia | apply C in H; discriminate H].
    + right. split; [exact E | apply C; reflexivity].
    + destruct H as [H|[_ H]]; [lia | apply C in H; discriminate H].
  - split; intros; [lia | reflexivity].
  - split; intros H; [discriminate H | lia].
Qed.

Lemma SFltb_negative m1 e1 m e :
  SFltb (S754_finite true m e) (S754_finite true m1 e1) = true
  <-> (e1 < e \/ (e1 = e /\ (m1 < m)%positive)).
Proof.
  unfold SFltb, SFcompare.
  change (Pos.compare_cont Eq m m1) with (Pos.compare m m1).
  rewrite (Pos.compare_antisym m1 m).
  destruct (Z.compare_spec e e1) as [E|L|G].
  - pose proof (Pos.compare_lt_iff m1 m) as C. rewrite CompOpp_involutive.
    destruct (Pos.compare m1 m); split; intros H; try discriminate H; try lia.
    + destruct H as [H|[_ H]]; [lia | apply C in H; discriminate H].
    + right. split; [symmetry; exact E | apply C; reflexivity].
    + destruct H as [H|[_ H]]; [lia | apply C in H; discriminate H].
  - split; intros H; [discriminate H | lia].
  - split; intros; [lia | reflexivity].
Qed.

(** On each branch that returns [abs(polarity)], it is above 0.1. *)
Lemma abs_above_01 p :
  (0.3 <? p)%float = true \/ (p <? -0.3)%float = true \/ (p <? -0.1)%float = true ->
  (0.1 <? PrimFloat.abs p)%float = true.
Proof.
  rewrite !ltb_spec, abs_spec, prim_01, prim_03, prim_minus_01, prim_minus_03.
  destruct (Prim2SF p) as [s|s| |s m e]; unfold SFabs.
  - intros [H|[H|H]]; destruct s; discriminate H.
  - intros _. reflexivity.
  - intros [H|[H|H]]; discriminate H.
  - intros H. apply SFltb_positive. destruct s.
    + destruct H as [H|[H|H]]; [discriminate H | |]; apply SFltb_negative in H; lia.
    + destruct H as [H|[H|H]]; [| discriminate H | discriminate H].
      apply SFltb_positive in H. lia.
Qed.

(** X13. The confidence of the classifier. Whatever the scorer answers (a
    polarity that is not a number included, and a scorer that raises),
    [detect_emotion] returns a confidence greater than 0.1, hence a number,
    and one of eight labels, each with its own glyph. *)
Theorem detect_emotion_confidence {lib : PyLib} (scorer : string -> option sentiment)
    (text : string) :
  (0.1 <? confidence_of (detect_emotion scorer text))%float = true
  /\ In (label_of (detect_emotion scorer text), snd (detect_emotion scorer text))
       [ ("excited", "🎉"); ("happy", "😊"); ("stressed", "😰"); ("frustrated", "😤");
         ("tired", "😴"); ("sad", "😢"); ("confused", "🤔"); ("neutral", "😐") ].
Proof.
  assert ((0.1 <? 0.3)%float = true) as N by (vm_compute; reflexivity).
  unfold detect_emotion, confidence_of, label_of, float_gt.
  destruct (scorer text) as [blob|]; [| split; [exact N | simpl; tauto]].
  cbv zeta.
  destruct (0.3 <? polarity blob)%float eqn:P.
  { destruct (PyStr.any_in excited_words _);
      (split; [apply abs_above_01; auto | simpl; tauto]). }
  destruct (polarity blob <? -0.3)%float eqn:L.
  { destruct (PyStr.any_in stress_words _); [| destruct (PyStr.any_in frustration_words _);
      [| destruct (PyStr.any_in fatigue_words _)]];
      (split; [apply abs_above_01; auto | simpl; tauto]). }
  destruct (polarity blob <? -0.1)%float eqn:C.
  { split; [apply abs_above_01; auto | simpl; tauto]. }
  split; [exact N | simpl; tauto].
Qed.

(* ================================================================== *)
(** * The business portal *)

Section PortalRuns.

Context (w : World).


Lemma get_business_products_run email s :
  get_business_products w email s
  = if w_db_fault w (tick s) then (Ret [], ticked s)
    else (Ret (map (fun r => listing_of (fst r))
                 (order_by_date_desc (sql_owner_rows email (db s)))), ticked s).
Proof.
  unfold get_business_products, sqlite3_connect, bind, try_except, external, get_db, ret,
    raise, ticked.
  simpl. destruct (w_db_fault w (tick s)); reflexivity.
Qed.


End PortalRuns.










(** ** The join, and the order by date *)


Lemma in_sql_join_business d bp b :
  In (bp, b) (sql_join_business d)
  <-> In bp (business_products d) /\ In b (businesses d)
      /\ bp_business_id bp = Some (b_id b).
Proof.
  unfold sql_join_business. rewrite in_flat_map. split.
  - intros (bp' & I & H). apply in_map_iff in H as (b' & [= <- <-] & F).
    apply filter_In in F as [Ib E]. split; [exact I|]. split; [exact Ib|].
    destruct (bp_business_id bp') as [i|]; [| discriminate].
    apply Z.eqb_eq in E. congruence.
  - intros (I & Ib & E). exists bp. split; [exact I|].
    apply in_map. apply filter_In. split; [exact Ib|]. rewrite E. apply Z.eqb_refl.
Qed.


Lemma insert_by_date_perm r l : Permutation (insert_by_date r l) (r :: l).
Proof.
  induction l as [|x l IH]; simpl; [reflexivity|].
  destruct (date_before _ _); [| reflexivity].
  rewrite IH. apply perm_swap.
Qed.

Lemma order_by_date_desc_perm l : Permutation (order_by_date_desc l) l.
Proof.
  unfold order_by_date_desc. induction l as [|x l IH]; simpl; [reflexivity|].
  rewrite insert_by_date_perm. constructor. exact IH.
Qed.

Lemma date_before_asym x y : date_before x y = true -> date_before y x = false.
Proof.
  destruct x as [a|], y as [b|]; simpl; try discriminate; auto.
  unfold String.ltb. intros H. rewrite (String.compare_antisym b a) in H.
  destruct (String.compare a b); simpl in *; congruence.
Qed.

Lemma insert_by_date_hd a r l :
  HdRel newest_first a l -> newest_first a r -> HdRel newest_first a (insert_by_date r l).
Proof.
  intros H R. destruct l as [|x l]; simpl; [constructor; exact R|].
  destruct (date_before _ _); constructor; [| exact R].
  inversion H; assumption.
Qed.

Lemma insert_by_date_sorted r l :
  Sorted newest_first l -> Sorted newest_first (insert_by_date r l).
Proof.
  induction l as [|x l IH]; intros S; simpl; [repeat constructor|].
  inversion S as [|y l' Sl Hd]; subst.
  destruct (date_before (bp_created_date (fst x)) (bp_created_date (fst r))) eqn:E.
  - constructor; [apply IH; exact Sl|].
    apply insert_by_date_hd; [exact Hd|]. unfold newest_first.
    apply date_before_asym. exact E.
  - constructor; [exact S|]. constructor. exact E.
Qed.

Lemma order_by_date_desc_sorted l : Sorted newest_first (order_by_date_desc l).
Proof.
  unfold order_by_date_desc. induction l as [|x l IH]; simpl; [constructor|].
  apply insert_by_date_sorted. exact IH.
Qed.

Lemma is_active_iff bp : is_active bp = true <-> bp_is_active bp = Some 1.
Proof.
  unfold is_active. destruct (bp_is_active bp) as [a|]; [| split; discriminate].
  rewrite Z.eqb_eq. split; congruence.
Qed.

(** X15. The listing of an owner. When its transaction goes through,
    [get_business_products] returns the rows of exactly the active products
    that belong to a business with the email, the most recent first; when the
    transaction fails it returns the empty frame. *)
Theorem owner_listing (w : World) (email : string) (s : state) :
  exists rows,
    fst (get_business_products w email s)
    = Ret (if w_db_fault w (tick s) then []
           else map (fun r => listing_of (fst r)) rows)
    /\ (forall bp b,
           In (bp, b) rows
           <-> In bp (business_products (db s)) /\ In b (businesses (db s))
               /\ bp_business_id bp = Some (b_id b)
               /\ b_email b = email
               /\ bp_is_active bp = Some 1)
    /\ Sorted newest_first rows.
Proof.
  exists (order_by_date_desc (sql_owner_rows email (db s))).
  rewrite get_business_products_run.
  split; [destruct (w_db_fault w (tick s)); reflexivity|].
  split; [| apply order_by_date_desc_sorted].
  intros bp b.
  rewrite (Permutation_in' (eq_refl (bp, b)) (order_by_date_desc_perm _)).
  unfold sql_owner_rows. rewrite filter_In, in_sql_join_business, andb_true_iff. simpl.
  rewrite String.eqb_eq, is_active_iff. tauto.
Qed.

(** ** From the portal to the listing and to the search *)





(** ** The search of the local catalogue *)

Lemma search_business_products_run {lib : PyLib} (w : World) emotion query s :
  fst (search_business_products w emotion query s)
  = Ret (if w_db_fault w (tick s) then []
         else match traverse business_product_of_row
                      (sql_business_rows emotion query (db s)) with
              | Some found => found
              | None => []
              end).
Proof.
  unfold search_business_products, sqlite3_connect, bind, try_except, record_call, external,
    get_db, lift, ret, raise.
  simpl. destruct (w_db_fault w (tick s)); [reflexivity|]. simpl.
  destruct (traverse _ _); reflexivity.
Qed.

Lemma traverse_sources {A B} (f : A -> option B) : forall l l',
  traverse f l = Some l' -> Forall (fun y => exists x, In x l /\ f x = Some y) l'.
Proof.
  induction l as [|x l IH]; simpl; intros l' E.
  - injection E as <-. constructor.
  - destruct (f x) as [y|] eqn:Ef; [|discriminate].
    destruct (traverse f l) as [r|]; [|discriminate].
    simpl in E. injection E as <-. constructor; [exists x; auto|].
    eapply Forall_impl; [| apply IH; reflexivity].
    intros z (x' & I & Ez). exists x'. auto.
Qed.


Lemma in_firstn {A} n (l : list A) x : In x (firstn n l) -> In x l.
Proof.
  revert l. induction n as [|n IH]; intros [|y l]; simpl; try contradiction.
  intros [->|H]; auto.
Qed.

Lemma in_sql_business_rows {lib : PyLib} emotion query d bp b :
  In (bp, b) (sql_business_rows emotion query d) ->
  In bp (business_products d) /\ In b (businesses d)
  /\ bp_business_id bp = Some (b_id b)
  /\ bp_is_active bp = Some 1
  /\ emotion_condition emotion bp = true
  /\ query_condition query bp = true.
Proof.
  unfold sql_business_rows. intros H. apply in_firstn in H.
  apply (Permutation_in _ (order_by_date_desc_perm _)) in H.
  apply filter_In in H as [J C]. apply in_sql_join_business in J.
  simpl in C. apply andb_prop in C as [C Q]. apply andb_prop in C as [A E].
  apply is_active_iff in A. tauto.
Qed.

(** X17. What the local search can return. Every card that
    [search_business_products] returns is made from a product of the
    catalogue that is active, belongs to a business of the table, and
    satisfies the conditions of the search on the emotion and on the words of
    the query; the card has the name of the product for title and the name of
    the business for brand. A deactivated product, or one without a business,
    is never returned. *)
Theorem local_search_is_sound {lib : PyLib} (w : World) (emotion query : string) (s : state) :
  exists found,
    fst (search_business_products w emotion query s) = Ret found
    /\ Forall (fun card =>
                 exists bp b,
                   In bp (business_products (db s)) /\ In b (businesses (db s))
                   /\ bp_business_id bp = Some (b_id b)
                   /\ bp_is_active bp = Some 1
                   /\ emotion_condition emotion bp = true
                   /\ query_condition query bp = true
                   /\ dict_get "title" card = Some (PStr (bp_name bp))
                   /\ dict_get "brand" card = Some (PStr (b_name b)))
              found.
Proof.
  rewrite search_business_products_run. eexists. split; [reflexivity|].
  destruct (w_db_fault w (tick s)); [constructor|].
  destruct (traverse _ _) as [found|] eqn:T; [| constructor].
  apply traverse_sources in T. eapply Forall_impl; [| exact T].
  intros card ([bp b] & I & E). exists bp, b.
  apply in_sql_business_rows in I as (I1 & I2 & I3 & I4 & I5 & I6).
  unfold business_product_of_row, obind in E.
  destruct (bp_price bp); [| discriminate]. destruct (bp_stock_quantity bp); [| discriminate].
  injection E as <-. repeat split; assumption.
Qed.





(** X19. A query of blanks is searched like no query. When the query holds
    blanks only, the local search returns what it returns for the empty
    query: the condition on the words is left out of the statement, and the
    products are chosen by the emotion alone. *)
Theorem blank_query_filters_nothing {lib : PyLib} (w : World) (emotion query : string)
    (s : state) :
  blank query = true ->
  fst (search_business_products w emotion query s)
  = fst (search_business_products w emotion "" s).
Proof.
  intros B. rewrite !search_business_products_run.
  replace (sql_business_rows emotion query (db s)) with (sql_business_rows emotion "" (db s));
    [reflexivity|].
  unfold sql_business_rows. do 2 f_equal. apply filter_ext. intros [bp b]. f_equal.
  unfold query_condition. simpl. destruct (PyStr.truthy query); [| reflexivity].
  replace (PyStr.split (str_lower query)) with (@nil string); [reflexivity|].
  symmetry. apply no_word_lower, split_nil_iff_blank. exact B.
Qed.

(** Three blanks for a query, two of them outside ASCII. *)
Lemma blank_query_filters_nothing_witness :
  fst (search_business_products (lib := Examples.lib) Examples.online "happy"
         Examples.wide_blanks (Examples.fresh Examples.shop_db))
  = Ret [Examples.green_tea].
Proof.
  rewrite (blank_query_filters_nothing (lib := Examples.lib) Examples.online "happy"
             Examples.wide_blanks (Examples.fresh Examples.shop_db) eq_refl).
  vm_compute. reflexivity.
Defined.

(* ================================================================== *)
(** * The code fence of a completion *)

Lemma rstrip_idem l : PyStr.rstrip (PyStr.rstrip l) = PyStr.rstrip l.
Proof.
  induction l as [|k l IH]; simpl; [reflexivity|].
  destruct (PyStr.rstrip l) as [|x r] eqn:R.
  - destruct (PyStr.is_space k) eqn:E; [reflexivity|]. simpl. rewrite E. reflexivity.
  - change (PyStr.rstrip (k :: x :: r))
      with (match PyStr.rstrip (x :: r) with
            | [] => if PyStr.is_space k then [] else [k]
            | _ :: _ => k :: PyStr.rstrip (x :: r)
            end).
    rewrite IH. reflexivity.
Qed.

Lemma lstrip_head l :
  PyStr.lstrip l = [] \/ exists k t, PyStr.lstrip l = k :: t /\ PyStr.is_space k = false.
Proof.
  induction l as [|k l IH]; simpl; [auto|].
  destruct (PyStr.is_space k) eqn:E; [exact IH | right; eauto].
Qed.

Lemma lstrip_suffix l : exists n, PyStr.lstrip l = skipn n l.
Proof.
  induction l as [|k l [n IH]]; [exists 0%nat; reflexivity|]. simpl.
  destruct (PyStr.is_space k); [exists (S n); exact IH | exists 0%nat; reflexivity].
Qed.

Lemma rstrip_prefix l : exists n, PyStr.rstrip l = firstn n l.
Proof.
  induction l as [|k l [n IH]]; [exists 0%nat; reflexivity|]. simpl.
  destruct (PyStr.rstrip l) as [|x r].
  - destruct (PyStr.is_space k); [exists 0%nat; reflexivity|].
    exists 1%nat. reflexivity.
  - exists (S n). simpl. rewrite IH. reflexivity.
Qed.

Lemma characters_strip s :
  PyStr.characters (PyStr.strip s) = PyStr.rstrip (PyStr.lstrip (PyStr.characters s)).
Proof.
  unfold PyStr.strip. apply characters_implode.
  destruct (rstrip_prefix (PyStr.lstrip (PyStr.characters s))) as [n ->].
  destruct (lstrip_suffix (PyStr.characters s)) as [m ->].
  apply spelled_firstn, spelled_skipn, spelled_characters.
Qed.

Lemma strip_idem s : PyStr.strip (PyStr.strip s) = PyStr.strip s.
Proof.
  unfold PyStr.strip at 1 3. rewrite characters_strip. f_equal.
  set (l := PyStr.characters s).
  assert (PyStr.lstrip (PyStr.rstrip (PyStr.lstrip l)) = PyStr.rstrip (PyStr.lstrip l)) as L.
  { destruct (lstrip_head l) as [-> | (k & t & -> & Hk)]; [reflexivity|].
    simpl. destruct (PyStr.rstrip t); rewrite ?Hk; simpl; rewrite Hk; reflexivity. }
  rewrite L. apply rstrip_idem.
Qed.

(** The characters of two texts put end to end, when the second does not
    start in the middle of a character. *)
Lemma characters_app s t :
  PyStr.starts_cont t = false ->
  PyStr.characters (s ++ t) = (PyStr.characters s ++ PyStr.characters t)%list.
Proof.
  intros Ht. induction s as [|c s IH]; [reflexivity|].
  change (PyStr.characters (String c s ++ t))
    with (match PyStr.characters (s ++ t) with
          | k :: rest =>
              if negb (PyStr.is_ascii c) && PyStr.starts_cont k then String c k :: rest
              else String c EmptyString :: k :: rest
          | [] => [String c EmptyString]
          end).
  rewrite IH. simpl. pose proof (characters_head s) as Hs.
  destruct (PyStr.characters s) as [|k rest];
    [| simpl; destruct (negb (PyStr.is_ascii c) && PyStr.starts_cont k); reflexivity].
  subst s. simpl. pose proof (characters_head t) as H.
  destruct (PyStr.characters t) as [|k rest]; [reflexivity|].
  rewrite H, Ht, andb_false_r. reflexivity.
Qed.

(** After a text of ASCII, any text keeps its characters. *)
Lemma characters_after_ascii a b :
  forallb PyStr.is_ascii (list_ascii_of_string a) = true ->
  PyStr.characters (a ++ b)
  = (PyStr.characters a ++ PyStr.characters b)%list
  /\ PyStr.len a = String.length a.
Proof.
  unfold PyStr.len. induction a as [|c a IH]; [auto|].
  intros H. simpl in H. apply andb_prop in H as [Hc Ha]. destruct (IH Ha) as [E L].
  change (String c a ++ b)%string with (String c (a ++ b)).
  rewrite !characters_ascii by exact Hc. rewrite E. simpl. rewrite L. auto.
Qed.

Lemma substring_whole s : String.substring 0 (String.length s) s = s.
Proof. induction s as [|c s IH]; simpl; [reflexivity | rewrite IH; reflexivity]. Qed.

Lemma substring_app_l a b : String.substring 0 (String.length a) (a ++ b) = a.
Proof.
  induction a as [|c a IH]; simpl; [destruct b; reflexivity | rewrite IH; reflexivity].
Qed.

Lemma substring_app_r a b : String.substring (String.length a) (String.length b) (a ++ b) = b.
Proof. induction a as [|c a IH]; simpl; [apply substring_whole | exact IH]. Qed.

Lemma length_append a b : String.length (a ++ b) = (String.length a + String.length b)%nat.
Proof. induction a as [|c a IH]; simpl; [reflexivity | rewrite IH; reflexivity]. Qed.

Lemma drop_app a b :
  forallb PyStr.is_ascii (list_ascii_of_string a) = true ->
  PyStr.drop (String.length a) (a ++ b) = b.
Proof.
  intros H. destruct (characters_after_ascii a b H) as [E L].
  unfold PyStr.drop. rewrite E, <- L. unfold PyStr.len.
  rewrite skipn_app, skipn_all, Nat.sub_diag. apply implode_characters.
Qed.

Lemma drop_last_app a b :
  forallb PyStr.is_ascii (list_ascii_of_string b) = true -> b <> EmptyString ->
  PyStr.drop_last (String.length b) (a ++ b) = a.
Proof.
  intros H N. destruct (characters_after_ascii b "" H) as [_ L].
  assert (PyStr.starts_cont b = false) as S.
  { destruct b as [|c b]; [congruence|]. simpl in *. apply andb_prop in H as [H _].
    unfold PyStr.is_cont, PyStr.is_ascii in *. apply N.ltb_lt in H.
    apply andb_false_iff. left. apply N.leb_gt. exact H. }
  unfold PyStr.drop_last, PyStr.len. rewrite (characters_app a b S), length_app.
  fold (PyStr.len b). rewrite L, Nat.add_sub, firstn_app, firstn_all, Nat.sub_diag.
  simpl. rewrite app_nil_r. apply implode_characters.
Qed.

Lemma endswith_app a b : PyStr.endswith b (a ++ b) = true.
Proof.
  unfold PyStr.endswith. rewrite length_append.
  replace (String.length a + String.length b - String.length b)%nat with (String.length a)
    by lia.
  rewrite substring_app_r, String.eqb_refl, andb_true_r. apply Nat.leb_le. lia.
Qed.

Lemma startswith_app a b : PyStr.startswith a (a ++ b) = true.
Proof. unfold PyStr.startswith. apply String.prefix_correct. apply substring_app_l. Qed.

(** X20. The code fence of a completion. When the stripped text of a
    completion is a body between the opening fence with its [json] tag and
    the closing fence, [strip_code_fence] gives the stripped body; when the
    stripped text neither starts with the one nor ends with the other, it
    gives the stripped text. *)
Theorem strip_code_fence_spec (text : string) :
  (forall body,
      PyStr.strip text = ("```json" ++ body ++ "```")%string ->
      strip_code_fence text = PyStr.strip body)
  /\ (PyStr.startswith "```json" (PyStr.strip text) = false ->
      PyStr.endswith "```" (PyStr.strip text) = false ->
      strip_code_fence text = PyStr.strip text).
Proof.
  unfold strip_code_fence. split.
  - intros body ->. cbv zeta.
    pose proof (drop_app "```json" (body ++ "```") eq_refl) as D.
    assert ("```"%string <> EmptyString) as N by discriminate.
    pose proof (drop_last_app body "```" eq_refl N) as L.
    change (String.length "```json") with 7%nat in D.
    change (String.length "```") with 3%nat in L.
    rewrite startswith_app, D, endswith_app, L. reflexivity.
  - intros -> ->. apply strip_idem.
Qed.

(* ================================================================== *)
(** * Truncated fields *)

Lemma slice_text_within n v text :
  py_slice_to n v = Some (PStr text) -> (PyStr.len text <= n)%nat.
Proof.
  destruct v; simpl; try discriminate. intros [= <-]. apply length_take.
Qed.

Section Truncation.

Context {lib : PyLib} (w : World).

Lemma semantic_product_within item y :
  semantic_product item = Some y -> field_within "title" 80 y /\ field_within "description" 200 y.
Proof.
  unfold semantic_product, obind.
  destruct (py_getitem item "price") as [pr|]; [|discriminate].
  destruct (as_str pr) as [price|]; [|discriminate].
  destruct (py_getitem item "title") as [t|]; [|discriminate].
  destruct (py_slice_to 80 t) as [title|] eqn:Et; [|discriminate].
  destruct (py_getitem item "description") as [d|]; [|discriminate].
  destruct (py_slice_to 200 d) as [description|] eqn:Ed; [|discriminate].
  destruct (py_get item "category" (PStr "General")) as [category|]; [|discriminate].
  intros [= <-]. split; intros text; simpl; intros [= ->];
    eapply slice_text_within; eassumption.
Qed.

Lemma fakestore_product_within p y :
  fakestore_product p = Some y -> field_within "title" 80 y /\ field_within "description" 200 y.
Proof.
  unfold fakestore_product, obind.
  destruct (py_getitem p "title") as [t|]; [|discriminate].
  destruct (py_slice_to 80 t) as [title|] eqn:Et; [|discriminate].
  destruct (py_getitem p "price") as [price|]; [|discriminate].
  destruct (py_getitem p "description") as [d|]; [|discriminate].
  destruct (py_slice_to 200 d) as [description|] eqn:Ed; [|discriminate].
  destruct (py_getitem p "category") as [category|]; [|discriminate].
  destruct (py_get p "rating" (PDict [])) as [r|]; [|discriminate].
  destruct (py_get r "rate" (PFloat 4)) as [rating|]; [|discriminate].
  intros [= <-]. split; intros text; simpl; intros [= ->];
    eapply slice_text_within; eassumption.
Qed.

Lemma web_product_within item y :
  web_product item = Some y -> field_within "description" 183 y.
Proof.
  unfold web_product, obind.
  destruct (py_get item "snippet" (PStr "")) as [sn|]; [|discriminate].
  destruct (as_str sn) as [snippet|]; [|discriminate].
  destruct (py_getitem item "title") as [t|]; [|discriminate].
  destruct (py_slice_to 80 t) as [t80|]; [|discriminate].
  destruct (as_str t80) as [title|]; [|discriminate].
  destruct (py_get item "link" (PStr "")) as [link|]; [|discriminate].
  intros [= <-] text. simpl. intros [= <-].
  unfold PyStr.len. rewrite (characters_app _ "..." eq_refl), length_app.
  pose proof (length_take 180 snippet) as T. unfold PyStr.len in T. simpl. lia.
Qed.

Lemma semantic_product_search_within query limit :
  yields (Forall (fun y => field_within "title" 80 y /\ field_within "description" 200 y))
         (semantic_product_search w query limit).
Proof.
  unfold semantic_product_search. apply yields_bind_any. intros _.
  apply yields_try; [| apply yields_ret; constructor].
  repeat (apply yields_bind_any; intros). apply yields_lift. intros l E.
  apply (traverse_Forall _ _ semantic_product_within) in E. tauto.
Qed.

Lemma fetch_products_fakestore_within query category limit :
  yields (Forall (fun y => field_within "title" 80 y /\ field_within "description" 200 y))
         (fetch_products_fakestore w query category limit).
Proof.
  unfold fetch_products_fakestore. apply yields_bind_any. intros _.
  apply yields_try; [| apply yields_ret; constructor].
  repeat (apply yields_bind_any; intros). apply yields_lift. intros l E.
  apply (traverse_Forall _ _ fakestore_product_within) in E. tauto.
Qed.

Lemma search_web_products_within query limit :
  yields (Forall (field_within "description" 183)) (search_web_products w query limit).
Proof.
  unfold search_web_products. apply yields_bind_any. intros _.
  apply yields_try; [| apply yields_ret; constructor]. cbv zeta.
  destruct (negb _ || negb _); [apply yields_ret; constructor|].
  apply yields_bind_any. intros results. apply yields_bind_any. intros items.
  eapply yields_bind; [apply yields_lift_eq |]. intros products E. cbv beta in E.
  apply yields_ret. apply Forall_firstn_of.
  apply (traverse_Forall _ _ web_product_within) in E. tauto.
Qed.

End Truncation.

(** X21. Truncated fields. Whatever the services answer, the cards of the
    semantic generator and of the second catalogue carry a title of at most
    80 characters and a description of at most 200, and the cards of the web
    search a description of at most 183 (180 of the snippet and the dots),
    wherever these fields are texts. *)
Theorem cards_are_truncated {lib : PyLib} (w : World) (query category : string) (limit : nat)
    (s : state) :
  (exists l s', semantic_product_search w query limit s = (Ret l, s')
                /\ Forall (fun y => field_within "title" 80 y
                                    /\ field_within "description" 200 y) l)
  /\ (exists l s', fetch_products_fakestore w query category limit s = (Ret l, s')
                   /\ Forall (fun y => field_within "title" 80 y
                                       /\ field_within "description" 200 y) l)
  /\ (exists l s', search_web_products w query limit s = (Ret l, s')
                   /\ Forall (field_within "description" 183) l).
Proof.
  split; [| split].
  - apply returns_yields;
      [apply returns_semantic_product_search | apply semantic_product_search_within].
  - apply returns_yields;
      [apply returns_fetch_products_fakestore | apply fetch_products_fakestore_within].
  - apply returns_yields;
      [apply returns_search_web_products | apply search_web_products_within].
Qed.

(* ================================================================== *)
(** * From recorded successes to the threshold of step 2 *)

Lemma find_updated k e c now t row :
  find (has_key k e c) t = Some row ->
  find (has_key k e c) (sql_update_pattern (sp_id row) now t)
  = Some {| sp_id := sp_id row; sp_query_pattern := sp_query_pattern row;
            sp_emotion := sp_emotion row;
            sp_successful_categories := sp_successful_categories row;
            sp_success_count := sp_success_count row + 1; sp_last_success := now |}.
Proof.
  induction t as [|x t IH]; simpl; [discriminate|].
  destruct (has_key k e c x) eqn:K.
  - intros [= ->]. rewrite Z.eqb_refl. unfold has_key in *. simpl. rewrite K. reflexivity.
  - intros F. destruct (sp_id x =? sp_id row); unfold has_key in *; simpl; rewrite K;
      apply IH; exact F.
Qed.

Lemma selected_count_recorded {lib : PyLib} query emotion categories now t :
  selected_count (pattern_of_query query) emotion (categories_str_of categories)
    (pattern_recorded query emotion categories now t)
  = selected_count (pattern_of_query query) emotion (categories_str_of categories) t + 1.
Proof.
  unfold selected_count, pattern_recorded, sql_select_pattern.
  destruct (find _ t) as [row|] eqn:F.
  - rewrite (find_updated _ _ _ now _ _ F). reflexivity.
  - unfold sql_insert_pattern. rewrite (find_app_none _ _ _ F). simpl.
    unfold has_key. simpl. rewrite !String.eqb_refl. reflexivity.
Qed.

(** The lookup returns a pattern that counts at least as many successes as
    any row that satisfies it. *)
Lemma lookup_at_least {lib : PyLib} (w : World) query emotion s r0 :
  w_db_fault w (tick s) = false ->
  In r0 (successful_patterns (db s)) ->
  pattern_matches query emotion r0 ->
  exists hs,
    fst (get_successful_recommendations w query emotion s) = Ret (Some hs)
    /\ sp_success_count r0 <= success_count hs.
Proof.
  intros F I0 M0. rewrite get_successful_recommendations_run by exact F.
  pose proof (pattern_matches_iff query emotion) as M.
  unfold sql_best_pattern, like_any_word. unfold pattern_matches in *.
  destruct (PyStr.split (str_lower query)) as [|word words] eqn:S.
  { destruct M0 as (_ & x & [] & _). }
  set (matches := fun r => String.eqb (sp_emotion r) emotion
                           && existsb (fun word => sql_like (like_param word)
                                                     (sp_query_pattern r)) (word :: words)).
  assert (In r0 (filter matches (successful_patterns (db s)))) as Z
    by (apply filter_In; split; [exact I0 | apply M; exact M0]).
  pose proof (first_by_order_spec (filter matches (successful_patterns (db s))) None) as B.
  destruct (first_by_order None (filter matches (successful_patterns (db s)))) as [r|].
  - destruct B as (_ & _ & R). eexists. split; [reflexivity|]. simpl.
    apply R in Z. apply pattern_before_false in Z. tauto.
  - destruct B as [_ B]. rewrite B in Z. contradiction.
Qed.

(** X22. Three recorded successes pass the threshold. On a store whose counts
    are not negative, after [save_successful_pattern] has gone through three
    times for a query that has a word, the lookup for the same query and
    emotion returns a pattern that counts more than two successes: the
    orchestrator's step 2 will use it. *)
Theorem three_successes_pass_threshold {lib : PyLib} (w : World) (query emotion : string)
    (cats : list string) (s : state) :
  PyStr.split (str_lower query) <> [] ->
  Forall (fun r => 0 <= sp_success_count r) (successful_patterns (db s)) ->
  w_db_fault w (tick s) = false ->
  w_db_fault w (2 + tick s) = false ->
  w_db_fault w (4 + tick s) = false ->
  w_db_fault w (6 + tick s) = false ->
  exists hs,
    fst (get_successful_recommendations w query emotion
           (snd (save_successful_pattern w query emotion cats
                   (snd (save_successful_pattern w query emotion cats
                           (snd (save_successful_pattern w query emotion cats s)))))))
    = Ret (Some hs)
    /\ 2 < success_count hs.
Proof.
  intros W Pos F0 F2 F4 F6.
  rewrite (save_successful_pattern_run w query emotion cats s), F0. cbn [snd].
  set (s1 := {| db := _; tick := S (S (tick s)); calls := _ |}).
  rewrite (save_successful_pattern_run w query emotion cats s1).
  change (w_db_fault w (tick s1)) with (w_db_fault w (2 + tick s)). rewrite F2. cbn [snd].
  set (s2 := {| db := _; tick := S (S (tick s1)); calls := _ |}).
  rewrite (save_successful_pattern_run w query emotion cats s2).
  change (w_db_fault w (tick s2)) with (w_db_fault w (4 + tick s)). rewrite F4. cbn [snd].
  set (s3 := {| db := _; tick := S (S (tick s2)); calls := _ |}).
  set (k := pattern_of_query query). set (c := categories_str_of cats).
  assert (selected_count k emotion c (successful_patterns (db s3))
          = selected_count k emotion c (successful_patterns (db s)) + 3) as Cnt.
  { unfold s3, s2, s1, k, c. cbn [db successful_patterns set_successful_patterns].
    rewrite !selected_count_recorded. lia. }
  assert (0 <= selected_count k emotion c (successful_patterns (db s))) as Nonneg.
  { unfold selected_count, sql_select_pattern.
    destruct (find _ _) as [row|] eqn:Fd; [| lia].
    apply find_some in Fd as [I _]. rewrite Forall_forall in Pos. apply Pos. exact I. }
  unfold selected_count at 1, sql_select_pattern in Cnt.
  destruct (find (has_key k emotion c) (successful_patterns (db s3))) as [r3|] eqn:Fd; [| lia].
  apply find_some in Fd as [I3 K3].
  destruct (lookup_at_least w query emotion s3 r3) as (hs & E & L).
  - exact F6.
  - exact I3.
  - eapply key_row_matches; eassumption.
  - exists hs. split; [exact E | lia].
Qed.

(** Three successes of a gift query, on an empty store. *)
Lemma three_successes_pass_threshold_witness :
  let w := Examples.online in
  let save :=
    save_successful_pattern (lib := Examples.lib) w "I need a gift" "happy"
      ["furniture"; "beauty"] in
  exists hs,
    fst (get_successful_recommendations (lib := Examples.lib) w "I need a gift" "happy"
           (snd (save (snd (save (snd (save (Examples.fresh Examples.empty_db))))))))
    = Ret (Some hs)
    /\ 2 < success_count hs.
Proof.
  intros w save.
  apply (three_successes_pass_threshold (lib := Examples.lib) w "I need a gift" "happy"
           ["furniture"; "beauty"] (Examples.fresh Examples.empty_db)).
  - vm_compute. discriminate.
  - constructor.
  - reflexivity.
  - reflexivity.
  - reflexivity.
  - reflexivity.
Defined.


